(** * Amstrad PC1640 NVR utility (nvr.c): register access and decoding layer

    A shallow embedding of the C functions of [nvr.c] that talk to the
    MC146818 RTC/CMOS chip and to the Amstrad status latch, over a simulated
    device, together with the properties of the checksum engine, the BCD
    codec, the time decoder, the setters, snapshot import, factory reset and
    range fill.

    Conventions.
    - C integers are [Z]; a value of type [unsigned char] is reduced with
      [u8], one of type [unsigned short] with [u16].  A function whose C
      parameter has type [unsigned char] reduces its argument on entry, as
      the call does in C.
    - The hardware is an explicit state [hw] threaded through a small state
      monad [M].  The device behind ports 0x70/0x71 is a plain 64-cell RAM:
      the clock does not tick, reading Register C clears nothing, and cells
      0x0C/0x0D accept writes, so that what the program itself writes, or
      refrains from writing, is observable.  The device also keeps a [trace]
      of the cell accesses made through the data port.
    - The text arguments of the setters are parsed in the C source by libc
      ([sscanf], [atoi], [strtol]); the embedded setters take the values of
      the parsed local variables as arguments.  Drive letters and field
      names, which the source inspects itself, stay strings.
    - [printf]/[fprintf] output is not modelled; [show_time] returns the
      values it would print. *)

From Stdlib Require Import ZArith Lia String Ascii Bool.
From stdpp Require Import base list.

Local Open Scope Z_scope.

(** ** Machine integers *)

Definition u8 (x : Z) : Z := x mod 256.
Definition u16 (x : Z) : Z := x mod 65536.

Definition is_byte (x : Z) : Prop := 0 <= x < 256.

(** ** The simulated hardware *)

(** One access to a CMOS cell through the data port 0x71. *)
Inductive access : Type :=
  | Rd (cell : Z)
  | Wr (cell val : Z).

Record hw : Type := Hw {
  nvr      : list Z;       (* the 64 battery-backed cells *)
  idx      : Z;            (* address register, port 0x70 *)
  pb       : Z;            (* PB register, port 0x61 *)
  sysstat2 : Z;            (* system status 2 latch, port 0x65 *)
  stat2_hi : Z;            (* upper bits of port 0x62 (speaker, NMI), in bits 0-3 *)
  trace    : list access   (* cell accesses, newest first *)
}.

(** A device state the program can meet: 64 byte-valued cells and
    byte-valued registers. *)
Definition wf (h : hw) : Prop :=
  length (nvr h) = 64%nat /\ Forall is_byte (nvr h) /\
  is_byte (pb h) /\ is_byte (sysstat2 h) /\ is_byte (stat2_hi h).

Definition cell (h : hw) (a : Z) : Z := nvr h !!! Z.to_nat a.

(** Number of reads of cell [c], and of writes to cell [c], in a trace. *)
Fixpoint reads_of (c : Z) (t : list access) : nat :=
  match t with
  | [] => O
  | Rd a :: t' => if a =? c then S (reads_of c t') else reads_of c t'
  | Wr _ _ :: t' => reads_of c t'
  end.

Fixpoint writes_of (c : Z) (t : list access) : nat :=
  match t with
  | [] => O
  | Wr a _ :: t' => if a =? c then S (writes_of c t') else writes_of c t'
  | Rd _ :: t' => writes_of c t'
  end.

(** ** State monad over the hardware *)

Definition M (A : Type) : Type := hw -> A * hw.

Definition ret {A} (a : A) : M A := fun h => (a, h).

Definition bind {A B} (m : M A) (k : A -> M B) : M B :=
  fun h => let (a, h') := m h in k a h'.

Declare Scope hw_scope.
Delimit Scope hw_scope with hw.
Notation "x <- m ;; k" := (bind m (fun x => k))
  (at level 100, m at next level, right associativity) : hw_scope.
Notation "m ;;; k" := (bind m (fun _ => k))
  (at level 100, right associativity) : hw_scope.
Local Open Scope hw_scope.

(** Result and final state of running an operation. *)
Definition result {A} (m : M A) (h : hw) : A := fst (m h).
Definition exec {A} (m : M A) (h : hw) : hw := snd (m h).

(** [for (i = lo; ...; i++) body(i)] running [n] times. *)
Fixpoint for_each (n : nat) (i : Z) (body : Z -> M unit) : M unit :=
  match n with
  | O => ret tt
  | S n' => body i ;;; for_each n' (i + 1) body
  end.

(** ** Port I/O primitives *)

Definition CMOS_ADDR_PORT : Z := 0x70.
Definition CMOS_DATA_PORT : Z := 0x71.
Definition CMOS_SIZE : Z := 64.

Definition PORT_PB : Z := 0x61.
Definition PORT_STATUS2 : Z := 0x62.
Definition PORT_SYSSTAT2_WR : Z := 0x65.
Definition PB_NIBBLE_SEL : Z := 0x04.

(** What port 0x62 shows: with PB bit 2 clear the high nibble of the status
    latch in bits 3-0, with PB bit 2 set the low nibble; the upper bits carry
    unrelated status. *)
Definition status2_value (h : hw) : Z :=
  let nib := if Z.land (pb h) PB_NIBBLE_SEL =? 0
             then Z.land (Z.shiftr (sysstat2 h) 4) 0x0F
             else Z.land (sysstat2 h) 0x0F in
  Z.lor (Z.shiftl (Z.land (stat2_hi h) 0x0F) 4) nib.

Definition inb (port : Z) : M Z := fun h =>
  if port =? CMOS_DATA_PORT then
    (cell h (idx h),
     Hw (nvr h) (idx h) (pb h) (sysstat2 h) (stat2_hi h) (Rd (idx h) :: trace h))
  else if port =? CMOS_ADDR_PORT then (0xFF, h)
  else if port =? PORT_PB then (pb h, h)
  else if port =? PORT_STATUS2 then (status2_value h, h)
  else (0xFF, h).

Definition outb (val port : Z) : M unit := fun h =>
  let val := u8 val in
  if port =? CMOS_DATA_PORT then
    (tt, Hw (<[Z.to_nat (idx h) := val]> (nvr h)) (idx h) (pb h)
            (sysstat2 h) (stat2_hi h) (Wr (idx h) val :: trace h))
  else if port =? CMOS_ADDR_PORT then
    (tt, Hw (nvr h) val (pb h) (sysstat2 h) (stat2_hi h) (trace h))
  else if port =? PORT_PB then
    (tt, Hw (nvr h) (idx h) val (sysstat2 h) (stat2_hi h) (trace h))
  else if port =? PORT_SYSSTAT2_WR then
    (tt, Hw (nvr h) (idx h) (pb h) val (stat2_hi h) (trace h))
  else (tt, h).

(** The bus-settling write to port 0x80 changes nothing that is modelled. *)
Definition io_delay : M unit := ret tt.

(** ** CMOS read/write with PC1640 masking *)

Definition RTC_SECONDS : Z := 0x00.
Definition RTC_ALARM_SEC : Z := 0x01.
Definition RTC_MINUTES : Z := 0x02.
Definition RTC_ALARM_MIN : Z := 0x03.
Definition RTC_HOURS : Z := 0x04.
Definition RTC_ALARM_HRS : Z := 0x05.
Definition RTC_DAY_OF_WEEK : Z := 0x06.
Definition RTC_DAY_OF_MONTH : Z := 0x07.
Definition RTC_MONTH : Z := 0x08.
Definition RTC_YEAR : Z := 0x09.
Definition RTC_REG_A : Z := 0x0A.
Definition RTC_REG_B : Z := 0x0B.
Definition RTC_REG_C : Z := 0x0C.
Definition RTC_REG_D : Z := 0x0D.

Definition RTC_A_UIP : Z := 0x80.
Definition RTC_A_RS_MASK : Z := 0x0F.

Definition RTC_B_SET : Z := 0x80.
Definition RTC_B_PIE : Z := 0x40.
Definition RTC_B_AIE : Z := 0x20.
Definition RTC_B_UIE : Z := 0x10.
Definition RTC_B_SQWE : Z := 0x08.
Definition RTC_B_DM : Z := 0x04.
Definition RTC_B_24H : Z := 0x02.
Definition RTC_B_DSE : Z := 0x01.

Definition CMOS_DIAG : Z := 0x0E.
Definition CMOS_SHUTDOWN : Z := 0x0F.
Definition CMOS_FLOPPY : Z := 0x10.
Definition CMOS_DISK : Z := 0x12.
Definition CMOS_EQUIP : Z := 0x14.
Definition CMOS_BASEMEM_LO : Z := 0x15.
Definition CMOS_BASEMEM_HI : Z := 0x16.
Definition CMOS_EXTMEM_LO : Z := 0x17.
Definition CMOS_EXTMEM_HI : Z := 0x18.
Definition CMOS_DISK0_EXT : Z := 0x19.
Definition CMOS_DISK1_EXT : Z := 0x1A.
Definition CMOS_CHECKSUM_HI : Z := 0x2E.
Definition CMOS_CHECKSUM_LO : Z := 0x2F.
Definition CMOS_CENTURY : Z := 0x32.

Definition cmos_read (addr : Z) : M Z :=
  let addr := Z.land (u8 addr) 0x3F in
  outb addr CMOS_ADDR_PORT ;;;
  io_delay ;;;
  val <- inb CMOS_DATA_PORT ;;
  ret val.

Definition cmos_write (addr val : Z) : M unit :=
  let addr := Z.land (u8 addr) 0x3F in
  let val := u8 val in
  outb addr CMOS_ADDR_PORT ;;;
  io_delay ;;;
  outb val CMOS_DATA_PORT ;;;
  io_delay.

(** ** BCD conversion helpers *)

Definition bcd_to_bin (bcd : Z) : Z :=
  let bcd := u8 bcd in
  u8 (Z.shiftr bcd 4 * 10 + Z.land bcd 0x0F).

Definition bin_to_bcd (bin : Z) : Z :=
  let bin := u8 bin in
  u8 (Z.lor (Z.shiftl (bin / 10) 4) (bin mod 10)).

Definition rtc_is_bcd : M bool :=
  b <- cmos_read RTC_REG_B ;;
  ret (Z.land b RTC_B_DM =? 0).

Definition rtc_to_bin (val : Z) : M Z :=
  let val := u8 val in
  bcd <- rtc_is_bcd ;;
  ret (if bcd then bcd_to_bin val else val).

Definition bin_to_rtc (val : Z) : M Z :=
  let val := u8 val in
  bcd <- rtc_is_bcd ;;
  ret (if bcd then bin_to_bcd val else val).

(** Wait for the RTC update cycle: at most 10000 reads of Register A.  The
    argument is the number of retries left, [timeout - 1]; the result is the
    final value of [timeout], which the source only uses for a debug
    message. *)
Fixpoint rtc_wait_uip_loop (left : nat) : M Z :=
  a <- cmos_read RTC_REG_A ;;
  if Z.land a RTC_A_UIP =? 0 then ret (Z.of_nat (S left))
  else match left with
       | O => ret 0
       | S left' => rtc_wait_uip_loop left'
       end.

Definition rtc_wait_uip : M unit :=
  rtc_wait_uip_loop (Z.to_nat (10000 - 1)) ;;; ret tt.

(** ** Amstrad system status 2 *)

Definition amstrad_read_sysstat2 : M Z :=
  pb0 <- inb PORT_PB ;;
  outb (Z.land pb0 (Z.lnot PB_NIBBLE_SEL)) PORT_PB ;;;
  io_delay ;;;
  v1 <- inb PORT_STATUS2 ;;
  let hi := Z.land v1 0x0F in
  outb (Z.lor pb0 PB_NIBBLE_SEL) PORT_PB ;;;
  io_delay ;;;
  v2 <- inb PORT_STATUS2 ;;
  let lo := Z.land v2 0x0F in
  outb pb0 PORT_PB ;;;
  ret (u8 (Z.lor (Z.shiftl hi 4) lo)).

(** ** CMOS checksum (cells 0x10-0x2D) *)

Fixpoint calc_loop (n : nat) (i : Z) (sum : Z) : M Z :=
  match n with
  | O => ret sum
  | S n' => v <- cmos_read i ;; calc_loop n' (i + 1) (u16 (sum + v))
  end.

Definition cmos_calc_checksum : M Z :=
  calc_loop (Z.to_nat (0x2D + 1 - 0x10)) 0x10 0.

Definition cmos_verify_checksum : M bool :=
  calc <- cmos_calc_checksum ;;
  hi <- cmos_read CMOS_CHECKSUM_HI ;;
  lo <- cmos_read CMOS_CHECKSUM_LO ;;
  let stored := u16 (Z.lor (Z.shiftl hi 8) lo) in
  ret (calc =? stored).

Definition cmos_update_checksum : M unit :=
  sum <- cmos_calc_checksum ;;
  cmos_write CMOS_CHECKSUM_HI (Z.land (Z.shiftr sum 8) 0xFF) ;;;
  cmos_write CMOS_CHECKSUM_LO (Z.land sum 0xFF).

(** C truth value of an integer. *)
Definition nz (x : Z) : bool := negb (x =? 0).

(** ** Display: time and date *)

(** The values [show_time] hands to [printf], and the Register B snapshot
    that selects the mode line. *)
Record time_report : Type := TimeReport {
  t_sec : Z; t_min : Z; t_hrs : Z; t_dow : Z;
  t_dom : Z; t_mon : Z; t_yr : Z; t_cen : Z;
  t_regb : Z
}.

Definition show_time : M time_report :=
  rtc_wait_uip ;;;
  sec <- cmos_read RTC_SECONDS ;;
  min <- cmos_read RTC_MINUTES ;;
  hrs <- cmos_read RTC_HOURS ;;
  dow <- cmos_read RTC_DAY_OF_WEEK ;;
  dom <- cmos_read RTC_DAY_OF_MONTH ;;
  mon <- cmos_read RTC_MONTH ;;
  yr <- cmos_read RTC_YEAR ;;
  cen <- cmos_read CMOS_CENTURY ;;
  regb <- cmos_read RTC_REG_B ;;
  sec <- rtc_to_bin sec ;;
  min <- rtc_to_bin min ;;
  dom <- rtc_to_bin dom ;;
  mon <- rtc_to_bin mon ;;
  yr <- rtc_to_bin yr ;;
  cen <- rtc_to_bin cen ;;
  dow <- rtc_to_bin dow ;;
  hrs <- (if nz (Z.land regb RTC_B_24H) then
            rtc_to_bin hrs
          else
            let pm := Z.land hrs 0x80 in
            let hrs := u8 (Z.land hrs 0x7F) in
            hrs <- rtc_to_bin hrs ;;
            ret (if nz pm then (if hrs <? 12 then u8 (hrs + 12) else hrs)
                 else (if hrs =? 12 then 0 else hrs))) ;;
  let dow := if dow >? 7 then 0 else dow in
  let mon := if mon >? 12 then 0 else mon in
  ret (TimeReport sec min hrs dow dom mon yr cen regb).

(** ** Setters *)

(** [drv[0]]: the first character of a C string, NUL for the empty string. *)
Definition char0 (s : string) : ascii :=
  match s with
  | EmptyString => zero
  | String c _ => c
  end.

Definition is_char (c : ascii) (s : string) : bool := Ascii.eqb (char0 s) c.

(** [set_alarm]: the argument is the result of
    [sscanf(timestr, "%d:%d:%d", &hrs, &min, &sec)], [None] when fewer than
    three numbers were converted. *)
Definition set_alarm (parsed : option (Z * Z * Z)) : M Z :=
  match parsed with
  | None => ret 1
  | Some (hrs, min, sec) =>
      regb <- cmos_read RTC_REG_B ;;
      cmos_write RTC_REG_B (Z.lor regb RTC_B_SET) ;;;
      v <- (if sec <? 0 then ret 0xC0 else bin_to_rtc sec) ;;
      cmos_write RTC_ALARM_SEC v ;;;
      v <- (if min <? 0 then ret 0xC0 else bin_to_rtc min) ;;
      cmos_write RTC_ALARM_MIN v ;;;
      v <- (if hrs <? 0 then ret 0xC0 else bin_to_rtc hrs) ;;
      cmos_write RTC_ALARM_HRS v ;;;
      cmos_write RTC_REG_B (Z.land regb (Z.lnot RTC_B_SET)) ;;;
      ret 0
  end.

(** [set_floppy]: [type] is [atoi(typestr)]. *)
Definition set_floppy (drv : string) (type : Z) : M Z :=
  if (type <? 0) || (type >? 4) then ret 1
  else
    floppy <- cmos_read CMOS_FLOPPY ;;
    let chosen :=
      if is_char "A" drv || is_char "a" drv || is_char "0" drv then
        Some (u8 (Z.lor (Z.land floppy 0x0F) (Z.shiftl type 4)))
      else if is_char "B" drv || is_char "b" drv || is_char "1" drv then
        Some (u8 (Z.lor (Z.land floppy 0xF0) type))
      else None in
    match chosen with
    | None => ret 1
    | Some floppy =>
        cmos_write CMOS_FLOPPY floppy ;;;
        cmos_update_checksum ;;;
        ret 0
    end.

(** [set_harddisk]: [type] is [atoi(typestr)]. *)
Definition set_harddisk (drv : string) (type : Z) : M Z :=
  if (type <? 0) || (type >? 15) then ret 1
  else
    diskbyte <- cmos_read CMOS_DISK ;;
    let chosen :=
      if is_char "0" drv || is_char "C" drv || is_char "c" drv then
        Some (u8 (Z.lor (Z.land diskbyte 0x0F) (Z.shiftl type 4)))
      else if is_char "1" drv || is_char "D" drv || is_char "d" drv then
        Some (u8 (Z.lor (Z.land diskbyte 0xF0) type))
      else None in
    match chosen with
    | None => ret 1
    | Some diskbyte =>
        cmos_write CMOS_DISK diskbyte ;;;
        cmos_update_checksum ;;;
        ret 0
    end.

(** [set_equipment]: [val] is [atoi(valstr)]. *)
Definition set_equipment (field : string) (val : Z) : M Z :=
  equip <- cmos_read CMOS_EQUIP ;;
  let chosen :=
    if String.eqb field "fpu" || String.eqb field "coprocessor" ||
       String.eqb field "8087" then
      Some (if nz val then u8 (Z.lor equip 0x02)
            else u8 (Z.land equip (Z.lnot 0x02)))
    else if String.eqb field "video" then
      if (val <? 0) || (val >? 3) then None
      else Some (u8 (Z.lor (Z.land equip (Z.lnot 0x30))
                           (Z.shiftl (Z.land val 0x03) 4)))
    else if String.eqb field "floppy-count" then
      if (val <? 0) || (val >? 4) then None
      else if val =? 0 then
        let equip := u8 (Z.land equip (Z.lnot 0x01)) in
        Some (u8 (Z.land equip (Z.lnot 0xC0)))
      else
        let equip := u8 (Z.lor equip 0x01) in
        Some (u8 (Z.lor (Z.land equip (Z.lnot 0xC0))
                        (Z.shiftl (Z.land (val - 1) 0x03) 6)))
    else None in
  match chosen with
  | None => ret 1
  | Some equip =>
      cmos_write CMOS_EQUIP equip ;;;
      cmos_update_checksum ;;;
      ret 0
  end.

(** [set_basemem]: [kb] is [atoi(valstr)]. *)
Definition set_basemem (kb : Z) : M Z :=
  if (kb <? 64) || (kb >? 640) then ret 1
  else
    cmos_write CMOS_BASEMEM_LO (Z.land kb 0xFF) ;;;
    cmos_write CMOS_BASEMEM_HI (Z.land (Z.shiftr kb 8) 0xFF) ;;;
    cmos_update_checksum ;;;
    ret 0.

(** [raw_write]: [addr] and [val] are the [unsigned int] values obtained
    from [strtol]. *)
Definition raw_write (addr val : Z) : M Z :=
  if addr >=? CMOS_SIZE then ret 1
  else if val >? 0xFF then ret 1
  else
    cmos_write addr val ;;;
    (if (addr >=? 0x10) && (addr <=? 0x2D) then cmos_update_checksum
     else ret tt) ;;;
    ret 0.

(** [set_time]: the argument is the result of
    [sscanf(timestr, "%d:%d:%d", &hrs, &min, &sec)]. *)
Definition set_time (parsed : option (Z * Z * Z)) : M Z :=
  match parsed with
  | None => ret 1
  | Some (hrs, min, sec) =>
      if (hrs <? 0) || (hrs >? 23) || (min <? 0) || (min >? 59) ||
         (sec <? 0) || (sec >? 59) then ret 1
      else
        regb <- cmos_read RTC_REG_B ;;
        cmos_write RTC_REG_B (Z.lor regb RTC_B_SET) ;;;
        v <- bin_to_rtc sec ;; cmos_write RTC_SECONDS v ;;;
        v <- bin_to_rtc min ;; cmos_write RTC_MINUTES v ;;;
        v <- bin_to_rtc hrs ;; cmos_write RTC_HOURS v ;;;
        cmos_write RTC_REG_B (Z.land regb (Z.lnot RTC_B_SET)) ;;;
        ret 0
  end.

(** [set_date]: the argument is the result of
    [sscanf(datestr, "%d/%d/%d", &day, &mon, &year)].  The year has passed
    the range check when it is divided, so [/] and [mod] are C's. *)
Definition set_date (parsed : option (Z * Z * Z)) : M Z :=
  match parsed with
  | None => ret 1
  | Some (day, mon, year) =>
      if (day <? 1) || (day >? 31) || (mon <? 1) || (mon >? 12) ||
         (year <? 1980) || (year >? 2099) then ret 1
      else
        let cen := u8 (year / 100) in
        let yr := u8 (year mod 100) in
        regb <- cmos_read RTC_REG_B ;;
        cmos_write RTC_REG_B (Z.lor regb RTC_B_SET) ;;;
        v <- bin_to_rtc day ;; cmos_write RTC_DAY_OF_MONTH v ;;;
        v <- bin_to_rtc mon ;; cmos_write RTC_MONTH v ;;;
        v <- bin_to_rtc yr ;; cmos_write RTC_YEAR v ;;;
        v <- bin_to_rtc cen ;; cmos_write CMOS_CENTURY v ;;;
        cmos_write RTC_REG_B (Z.land regb (Z.lnot RTC_B_SET)) ;;;
        ret 0
  end.

(** [set_dow]: [dow] is [atoi(dowstr)]. *)
Definition set_dow (dow : Z) : M Z :=
  if (dow <? 1) || (dow >? 7) then ret 1
  else
    regb <- cmos_read RTC_REG_B ;;
    cmos_write RTC_REG_B (Z.lor regb RTC_B_SET) ;;;
    v <- bin_to_rtc dow ;; cmos_write RTC_DAY_OF_WEEK v ;;;
    cmos_write RTC_REG_B (Z.land regb (Z.lnot RTC_B_SET)) ;;;
    ret 0.

(** One flag of Register B switched on or off. *)
Definition set_flag (regb flag : Z) (on : bool) : Z :=
  if on then u8 (Z.lor regb flag) else u8 (Z.land regb (Z.lnot flag)).

(** [set_rtc_mode]: [val] is [atoi(valstr)]. *)
Definition set_rtc_mode (mode : string) (val : Z) : M Z :=
  regb <- cmos_read RTC_REG_B ;;
  if String.eqb mode "24h" then
    cmos_write RTC_REG_B (set_flag regb RTC_B_24H (nz val)) ;;; ret 0
  else if String.eqb mode "bcd" then
    cmos_write RTC_REG_B (set_flag regb RTC_B_DM (negb (nz val))) ;;; ret 0
  else if String.eqb mode "sqw" then
    cmos_write RTC_REG_B (set_flag regb RTC_B_SQWE (nz val)) ;;; ret 0
  else if String.eqb mode "dse" then
    cmos_write RTC_REG_B (set_flag regb RTC_B_DSE (nz val)) ;;; ret 0
  else if String.eqb mode "pie" then
    cmos_write RTC_REG_B (set_flag regb RTC_B_PIE (nz val)) ;;; ret 0
  else if String.eqb mode "uie" then
    cmos_write RTC_REG_B (set_flag regb RTC_B_UIE (nz val)) ;;; ret 0
  else if String.eqb mode "rate" then
    let rate := val in
    if (rate <? 0) || (rate >? 15) then ret 1
    else
      rega <- cmos_read RTC_REG_A ;;
      let rega := u8 (Z.lor (Z.land rega (Z.lnot RTC_A_RS_MASK))
                            (Z.land rate RTC_A_RS_MASK)) in
      cmos_write RTC_REG_A rega ;;;
      ret 0
  else ret 1.

(** ** Load CMOS *)

(** [load_cmos]: the argument is the content of the named file, [None] when
    it cannot be opened.  [fread] of the first [CMOS_SIZE] bytes succeeds on
    a file that passed the size check. *)
Definition load_cmos (file : option (list Z)) : M Z :=
  match file with
  | None => ret 1
  | Some content =>
      let fsize := Z.of_nat (length content) in
      if negb (fsize =? CMOS_SIZE) && negb (fsize =? 128) then ret 1
      else
        let data := take (Z.to_nat CMOS_SIZE) content in
        regb <- cmos_read RTC_REG_B ;;
        cmos_write RTC_REG_B (Z.lor regb RTC_B_SET) ;;;
        for_each (Z.to_nat CMOS_SIZE) 0 (fun i =>
          if (i =? RTC_REG_C) || (i =? RTC_REG_D) then ret tt
          else cmos_write i (data !!! Z.to_nat i)) ;;;
        cmos_write RTC_REG_B
          (Z.land (data !!! Z.to_nat RTC_REG_B) (Z.lnot RTC_B_SET)) ;;;
        ret 0
  end.

(** ** CMOS factory reset *)

Definition factory_reset : M unit :=
  regb <- cmos_read RTC_REG_B ;;
  cmos_write RTC_REG_B (Z.lor regb RTC_B_SET) ;;;
  cmos_write RTC_REG_A 0x26 ;;;
  cmos_write RTC_REG_B 0x02 ;;;
  cmos_write CMOS_DIAG 0x00 ;;;
  cmos_write CMOS_SHUTDOWN 0x00 ;;;
  cmos_write CMOS_FLOPPY 0x30 ;;;
  cmos_write CMOS_DISK 0x00 ;;;
  cmos_write CMOS_EQUIP 0x01 ;;;
  cmos_write CMOS_BASEMEM_LO 0x80 ;;;
  cmos_write CMOS_BASEMEM_HI 0x02 ;;;
  cmos_write CMOS_EXTMEM_LO 0x00 ;;;
  cmos_write CMOS_EXTMEM_HI 0x00 ;;;
  cmos_write CMOS_DISK0_EXT 0x00 ;;;
  cmos_write CMOS_DISK1_EXT 0x00 ;;;
  cmos_write CMOS_CENTURY 0x20 ;;;
  cmos_write RTC_ALARM_SEC 0xC0 ;;;
  cmos_write RTC_ALARM_MIN 0xC0 ;;;
  cmos_write RTC_ALARM_HRS 0xC0 ;;;
  for_each (Z.to_nat (0x2D + 1 - 0x1B)) 0x1B (fun i => cmos_write i 0x00) ;;;
  for_each (Z.to_nat (0x3F + 1 - 0x33)) 0x33 (fun i => cmos_write i 0x00) ;;;
  cmos_write RTC_REG_B 0x02 ;;;
  cmos_update_checksum.

(** ** CMOS fill range *)

(** [fill_cmos]: [start], [end_] and [val] are the [unsigned int] values
    obtained from [strtol]. *)
Definition fill_cmos (start end_ val : Z) : M Z :=
  if (start >=? CMOS_SIZE) || (end_ >=? CMOS_SIZE) || (start >? end_) then
    ret 1
  else if val >? 0xFF then ret 1
  else
    for_each (Z.to_nat (end_ + 1 - start)) start (fun i =>
      if (i =? RTC_REG_C) || (i =? RTC_REG_D) then ret tt
      else cmos_write i val) ;;;
    cmos_update_checksum ;;;
    ret 0.

(** * Further operations of [nvr.c] *)

(** The display functions return the values they print.  Where the source
    indexes a table, [index] makes the bounds explicit: [None] stands for an
    access outside the array. *)

Definition u32 (x : Z) : Z := x mod 4294967296.

Definition index {A} (table : list A) (i : Z) : option A :=
  if i <? 0 then None else table !! Z.to_nat i.

Definition RTC_A_DV_MASK : Z := 0x70.
Definition RTC_A_DV_SHIFT : Z := 4.

Definition PORT_KBD_DATA : Z := 0x60.
Definition PB_SPEAKER_GATE : Z := 0x01.
Definition PB_SPEAKER_ENABLE : Z := 0x02.
Definition PB_STATUS_MODE : Z := 0x80.
Definition PORT_PIT_CH2 : Z := 0x42.
Definition PORT_PIT_MODE : Z := 0x43.

(** ** Amstrad system status 1 *)

Definition amstrad_read_sysstat1 : M Z :=
  pb0 <- inb PORT_PB ;;
  outb (Z.lor pb0 PB_STATUS_MODE) PORT_PB ;;;
  io_delay ;;;
  val <- inb PORT_KBD_DATA ;;
  outb pb0 PORT_PB ;;;
  ret (u8 val).

(** ** Display: RTC status registers *)

Definition day_names : list string :=
  ["???"; "Sunday"; "Monday"; "Tuesday";
   "Wednesday"; "Thursday"; "Friday"; "Saturday"]%string.

Definition month_names : list string :=
  ["???"; "January"; "February"; "March"; "April";
   "May"; "June"; "July"; "August";
   "September"; "October"; "November"; "December"]%string.

Definition rate_freq : list string :=
  ["None"; "256 Hz"; "128 Hz"; "8192 Hz"; "4096 Hz"; "2048 Hz"; "1024 Hz";
   "512 Hz"; "256 Hz"; "128 Hz"; "64 Hz"; "32 Hz"; "16 Hz"; "8 Hz"; "4 Hz";
   "2 Hz"]%string.

Definition divider_name : list string :=
  ["4.194304 MHz (time base)"; "1.048576 MHz"; "32.768 kHz"; "Test: any";
   "Test: any"; "Reset / divider held"; "Reset / divider held";
   "Reset / divider held"]%string.

Record rtc_status_report : Type := RtcStatus {
  rs_rega : Z; rs_regb : Z; rs_regc : Z; rs_regd : Z;
  rs_divider : Z; rs_divider_name : option string;
  rs_rate : Z; rs_rate_name : option string
}.

Definition show_rtc_status : M rtc_status_report :=
  rega <- cmos_read RTC_REG_A ;;
  regb <- cmos_read RTC_REG_B ;;
  regc <- cmos_read RTC_REG_C ;;
  regd <- cmos_read RTC_REG_D ;;
  let dv := Z.shiftr (Z.land rega RTC_A_DV_MASK) RTC_A_DV_SHIFT in
  let rs := Z.land rega RTC_A_RS_MASK in
  ret (RtcStatus rega regb regc regd
                 dv (index divider_name dv) rs (index rate_freq rs)).

(** ** Display: alarm *)

(** One alarm field as printed: [**] or two digits. *)
Inductive alarm_field : Type :=
  | Wildcard
  | Digits (v : Z).

Inductive alarm_view : Type :=
  | AlarmNotSet
  | AlarmTime (hrs min sec : alarm_field).

Record alarm_report : Type := AlarmReport {
  al_view : alarm_view;
  al_irq : bool
}.

Definition show_alarm : M alarm_report :=
  rtc_wait_uip ;;;
  sec <- cmos_read RTC_ALARM_SEC ;;
  min <- cmos_read RTC_ALARM_MIN ;;
  hrs <- cmos_read RTC_ALARM_HRS ;;
  regb <- cmos_read RTC_REG_B ;;
  view <- (if (sec >=? 0xC0) && (min >=? 0xC0) && (hrs >=? 0xC0) then
             ret AlarmNotSet
           else
             h <- (if hrs >=? 0xC0 then ret Wildcard
                   else v <- rtc_to_bin hrs ;; ret (Digits v)) ;;
             m <- (if min >=? 0xC0 then ret Wildcard
                   else v <- rtc_to_bin min ;; ret (Digits v)) ;;
             s <- (if sec >=? 0xC0 then ret Wildcard
                   else v <- rtc_to_bin sec ;; ret (Digits v)) ;;
             ret (AlarmTime h m s)) ;;
  ret (AlarmReport view (nz (Z.land regb RTC_B_AIE))).

Definition alarm_enable (enable : Z) : M unit :=
  regb <- cmos_read RTC_REG_B ;;
  let regb := if nz enable then u8 (Z.lor regb RTC_B_AIE)
              else u8 (Z.land regb (Z.lnot RTC_B_AIE)) in
  cmos_write RTC_REG_B regb.

(** ** Display: floppy drives *)

Record floppy_report : Type := FloppyReport {
  fl_byte : Z; fl_a : Z; fl_b : Z; fl_ndrives : Z
}.

Definition show_floppy : M floppy_report :=
  floppy <- cmos_read CMOS_FLOPPY ;;
  equip <- cmos_read CMOS_EQUIP ;;
  let ndrives := if nz (Z.land equip 0x01)
                 then Z.land (Z.shiftr equip 6) 0x03 + 1 else 0 in
  ret (FloppyReport floppy (Z.land (Z.shiftr floppy 4) 0x0F)
                    (Z.land floppy 0x0F) ndrives).

(** ** Display: hard disk drives *)

Record hd_type_entry : Type := HdEntry {
  cyls : Z; heads : Z; precomp : Z; landing : Z; sectors : Z
}.

(** The table for types 1 to 15; [-1] in an [unsigned short] field is
    65535. *)
Definition hd_types : list hd_type_entry :=
  [HdEntry 306 4 128 305 17;
   HdEntry 615 4 300 615 17;
   HdEntry 615 6 300 615 17;
   HdEntry 940 8 512 940 17;
   HdEntry 940 6 512 940 17;
   HdEntry 615 4 (u16 (-1)) 615 17;
   HdEntry 462 8 256 511 17;
   HdEntry 733 5 (u16 (-1)) 733 17;
   HdEntry 900 15 (u16 (-1)) 901 17;
   HdEntry 820 3 (u16 (-1)) 820 17;
   HdEntry 855 5 (u16 (-1)) 855 17;
   HdEntry 855 7 (u16 (-1)) 855 17;
   HdEntry 306 8 128 319 17;
   HdEntry 733 7 (u16 (-1)) 733 17;
   HdEntry 0 0 0 0 0].

(** What is printed for one drive. *)
Inductive hd_view : Type :=
  | HdNotInstalled
  | HdExtended (ext : Z)
  | HdTyped (type cyl hds spt mb : Z)
  | HdBadIndex
  | HdUnknown (type : Z).

(** The block [show_harddisk] runs for drive 0 and again for drive 1.  The
    capacity is computed in [unsigned long]. *)
Definition hd_drive_view (type ext : Z) : hd_view :=
  if type =? 0 then HdNotInstalled
  else if type =? 0x0F then HdExtended ext
  else if type <=? 14 then
    match index hd_types (type - 1) with
    | Some e =>
        HdTyped type (cyls e) (heads e) (sectors e)
                (u32 (u32 (u32 (cyls e * heads e) * sectors e) * 512)
                 / u32 (1024 * 1024))
    | None => HdBadIndex
    end
  else HdUnknown type.

Record harddisk_report : Type := HarddiskReport {
  hd_byte : Z; hd_drive0 : hd_view; hd_drive1 : hd_view
}.

Definition show_harddisk : M harddisk_report :=
  diskbyte <- cmos_read CMOS_DISK ;;
  let type0 := u8 (Z.land (Z.shiftr diskbyte 4) 0x0F) in
  let type1 := u8 (Z.land diskbyte 0x0F) in
  ext0 <- cmos_read CMOS_DISK0_EXT ;;
  ext1 <- cmos_read CMOS_DISK1_EXT ;;
  ret (HarddiskReport diskbyte (hd_drive_view type0 ext0)
                      (hd_drive_view type1 ext1)).

(** ** Display: equipment byte *)

Record equipment_report : Type := EquipmentReport {
  eq_byte : Z; eq_floppy : bool; eq_fpu : bool;
  eq_reserved : Z; eq_video : Z; eq_nfloppy : Z
}.

Definition show_equipment : M equipment_report :=
  equip <- cmos_read CMOS_EQUIP ;;
  let nfloppy := if nz (Z.land equip 0x01)
                 then Z.land (Z.shiftr equip 6) 0x03 + 1 else 0 in
  ret (EquipmentReport equip (nz (Z.land equip 0x01)) (nz (Z.land equip 0x02))
                       (Z.land (Z.shiftr equip 2) 0x03)
                       (Z.land (Z.shiftr equip 4) 0x03) nfloppy).

(** ** Display: memory *)

Record memory_report : Type := MemoryReport { basemem : Z; extmem : Z }.

(** C leaves open which operand of [|] is evaluated first; the low byte is
    read first here.  The values do not depend on the order. *)
Definition show_memory : M memory_report :=
  lo <- cmos_read CMOS_BASEMEM_LO ;;
  hi <- cmos_read CMOS_BASEMEM_HI ;;
  let basemem := u16 (Z.lor lo (Z.shiftl (u16 hi) 8)) in
  lo <- cmos_read CMOS_EXTMEM_LO ;;
  hi <- cmos_read CMOS_EXTMEM_HI ;;
  let extmem := u16 (Z.lor lo (Z.shiftl (u16 hi) 8)) in
  ret (MemoryReport basemem extmem).

(** ** Diagnostics *)

Definition clear_diagnostics : M unit := cmos_write CMOS_DIAG 0x00.

(** ** Speaker *)

Definition speaker_on (freq : Z) : M unit :=
  let freq := u16 freq in
  let freq := if freq =? 0 then 1000 else freq in
  let divisor := u16 (u32 1193182 / u32 freq) in
  outb 0xB6 PORT_PIT_MODE ;;;
  io_delay ;;;
  outb (Z.land divisor 0xFF) PORT_PIT_CH2 ;;;
  io_delay ;;;
  outb (Z.land (Z.shiftr divisor 8) 0xFF) PORT_PIT_CH2 ;;;
  io_delay ;;;
  pb0 <- inb PORT_PB ;;
  outb (Z.lor (Z.lor pb0 PB_SPEAKER_GATE) PB_SPEAKER_ENABLE) PORT_PB.

Definition speaker_off : M unit :=
  pb0 <- inb PORT_PB ;;
  outb (Z.land pb0 (Z.lnot (Z.lor PB_SPEAKER_GATE PB_SPEAKER_ENABLE))) PORT_PB.

(** ** Reading the whole store *)

(** [for (i = ...; ...; i++) data[i] = cmos_read(i)], [n] times from [i]:
    the array that results. *)
Fixpoint read_cells (n : nat) (i : Z) : M (list Z) :=
  match n with
  | O => ret []
  | S n' =>
      v <- cmos_read i ;;
      rest <- read_cells n' (i + 1) ;;
      ret (v :: rest)
  end.


(** [raw_read]: [addr] is the [unsigned int] value obtained from [strtol];
    the cell is read once for each of the two conversions printed (in either
    order: both reads are of the same cell). *)
Definition raw_read (addr : Z) : M (Z * option (Z * Z)) :=
  if addr >=? CMOS_SIZE then ret (1, None)
  else
    v1 <- cmos_read addr ;;
    v2 <- cmos_read addr ;;
    ret (0, Some (v1, v2)).


(** The comparison loop of [compare_cmos] from [i] on: one entry (address,
    live byte, file byte) for each differing cell. *)
Fixpoint diff_loop (n : nat) (i : Z) (live file : list Z) : list (Z * Z * Z) :=
  match n with
  | O => []
  | S n' =>
      let l := live !!! Z.to_nat i in
      let f := file !!! Z.to_nat i in
      (if negb (l =? f) then [(i, l, f)] else []) ++
      diff_loop n' (i + 1) live file
  end.

(** [compare_cmos]: the argument is the content of the named file, [None]
    when it cannot be opened; [fread] fails on fewer than [CMOS_SIZE]
    bytes. *)
Definition compare_cmos (file : option (list Z)) : M (Z * list (Z * Z * Z)) :=
  match file with
  | None => ret (1, [])
  | Some content =>
      if Z.of_nat (length content) <? CMOS_SIZE then ret (1, [])
      else
        let file_data := take (Z.to_nat CMOS_SIZE) content in
        rtc_wait_uip ;;;
        live_data <- read_cells (Z.to_nat CMOS_SIZE) 0 ;;
        ret (0, diff_loop (Z.to_nat CMOS_SIZE) 0 live_data file_data)
  end.

(** The [checksum] command of [main]: verify, and recompute when invalid.
    The result says whether the checksum was valid. *)
Definition checksum_command : M bool :=
  ok <- cmos_verify_checksum ;;
  if ok then ret true
  else cmos_update_checksum ;;; ret false.

(** * Vocabulary of the specification *)

(** Definitions that the statements below use to describe what the code
    does.  None of them is part of the program. *)

(** ** Addresses *)

(** The cell that [cmos_read a] and [cmos_write a _] select. *)
Definition ca (a : Z) : Z := u8 (Z.land (u8 a) 0x3F).

(** The cells [load_cmos] and [fill_cmos] leave out. *)
Definition read_only (i : Z) : bool := (i =? RTC_REG_C) || (i =? RTC_REG_D).

(** ** Checksum *)

(** The value the loop of [cmos_calc_checksum] computes from the cells. *)
Fixpoint sum_from (s : list Z) (n : nat) (i sum : Z) : Z :=
  match n with
  | O => sum
  | S n' => sum_from s n' (i + 1) (u16 (sum + s !!! Z.to_nat i))
  end.

Definition checksum (s : list Z) : Z := sum_from s 30 0x10 0.

(** The unreduced sum of [n] cells from [i] on. *)
Fixpoint plain_sum (s : list Z) (n : nat) (i : Z) : Z :=
  match n with
  | O => 0
  | S n' => s !!! Z.to_nat i + plain_sum s n' (i + 1)
  end.

(** The two bytes [cmos_update_checksum] stores for the sum [c]. *)
Definition sum_hi (c : Z) : Z := u8 (u8 (Z.land (Z.shiftr c 8) 0xFF)).
Definition sum_lo (c : Z) : Z := u8 (u8 (Z.land c 0xFF)).

(** A store with the checksum of its covered range written in. *)
Definition with_checksum (s : list Z) : list Z :=
  <[47%nat := sum_lo (checksum s)]> (<[46%nat := sum_hi (checksum s)]> s).

(** Trace and address register left behind by [n] consecutive reads. *)
Fixpoint loop_reads (n : nat) (i : Z) (t : list access) : list access :=
  match n with
  | O => t
  | S n' => loop_reads n' (i + 1) (Rd i :: t)
  end.

Fixpoint loop_idx (n : nat) (i x : Z) : Z :=
  match n with
  | O => x
  | S n' => loop_idx n' (i + 1) i
  end.

(** The run of [m] from [h] ends with a checksum recompute, and the stored
    checksum is valid afterwards. *)
Definition ends_with_update {A} (m : M A) (h : hw) : Prop :=
  (exists hm, exec m h = exec cmos_update_checksum hm) /\
  result cmos_verify_checksum (exec m h) = true.

(** ** Time display *)

(** Number of reads of Register A made by [rtc_wait_uip]: one when no update
    is in progress, the whole budget otherwise. *)
Definition uip_reads (h : hw) : nat :=
  if Z.land (cell h RTC_REG_A) RTC_A_UIP =? 0 then 1%nat
  else S (Z.to_nat (10000 - 1)).

(** The hour [show_time] prints, from the stored hour byte and Register B. *)
Definition shown_hours (h : hw) : Z :=
  let raw := cell h RTC_HOURS in
  if nz (Z.land (cell h RTC_REG_B) RTC_B_24H) then result (rtc_to_bin raw) h
  else
    let d := result (rtc_to_bin (u8 (Z.land raw 0x7F))) h in
    if nz (Z.land raw 0x80) then (if d <? 12 then u8 (d + 12) else d)
    else (if d =? 12 then 0 else d).

(** A decoded value, replaced by 0 when it exceeds the table bound. *)
Definition clamp (bound v : Z) : Z := if v >? bound then 0 else v.

(** ** Writes *)

(** The loop bodies of [load_cmos], [fill_cmos] and [factory_reset]: write
    [f i] to cell [i] unless [skip i]. *)
Definition write_body (skip : Z -> bool) (f : Z -> Z) : Z -> M unit :=
  fun i => if skip i then ret tt else cmos_write i (f i).

(** Between [h] and [h'] no cell was written. *)
Definition no_write (h h' : hw) : Prop :=
  nvr h' = nvr h /\ forall c, writes_of c (trace h') = writes_of c (trace h).

(** The cells [factory_reset] writes before the checksum, in program order
    (Register B, written three times, appears with its final value). *)
Definition factory_defaults : list (Z * Z) :=
  [(RTC_REG_A, 0x26); (RTC_REG_B, 0x02); (CMOS_DIAG, 0x00);
   (CMOS_SHUTDOWN, 0x00); (CMOS_FLOPPY, 0x30); (CMOS_DISK, 0x00);
   (CMOS_EQUIP, 0x01); (CMOS_BASEMEM_LO, 0x80); (CMOS_BASEMEM_HI, 0x02);
   (CMOS_EXTMEM_LO, 0x00); (CMOS_EXTMEM_HI, 0x00); (CMOS_DISK0_EXT, 0x00);
   (CMOS_DISK1_EXT, 0x00); (CMOS_CENTURY, 0x20); (RTC_ALARM_SEC, 0xC0);
   (RTC_ALARM_MIN, 0xC0); (RTC_ALARM_HRS, 0xC0)] ++
  List.map (fun a => (a, 0x00)) (seqZ 0x1B 19) ++
  List.map (fun a => (a, 0x00)) (seqZ 0x33 13).

Definition with_defaults (s : list Z) : list Z :=
  List.fold_left (fun s p => <[Z.to_nat (fst p) := snd p]> s)
                 factory_defaults s.

(** ** Codec and checksum as functions of the stored bytes *)

(** [bin_to_rtc] and [rtc_to_bin] when Register B holds [regb]. *)
Definition enc (regb v : Z) : Z :=
  if Z.land regb RTC_B_DM =? 0 then bin_to_bcd (u8 v) else u8 v.

Definition dec (regb v : Z) : Z :=
  if Z.land regb RTC_B_DM =? 0 then bcd_to_bin (u8 v) else u8 v.

(** What [cmos_verify_checksum] answers on the store [s]. *)
Definition valid_checksum (s : list Z) : bool :=
  checksum s =? u16 (Z.lor (Z.shiftl (s !!! 46%nat) 8) (s !!! 47%nat)).

(** The alarm field [set_alarm] stores for the number [v]. *)
Definition alarm_field_of (v : Z) : alarm_field :=
  if v <? 0 then Wildcard else Digits v.

(** One field of the alarm as [show_alarm] prints it, from the stored byte
    [v] and Register B. *)
Definition shown_field (regb v : Z) : alarm_field :=
  if v >=? 0xC0 then Wildcard else Digits (dec regb v).

(** The alarm [show_alarm] prints for the three stored alarm bytes. *)
Definition shown_alarm (regb hrs min sec : Z) : alarm_view :=
  if (sec >=? 0xC0) && (min >=? 0xC0) && (hrs >=? 0xC0) then AlarmNotSet
  else AlarmTime (shown_field regb hrs) (shown_field regb min)
                 (shown_field regb sec).

(** The eight single-bit masks of a register. *)
Definition reg_bits : list Z := [0x01; 0x02; 0x04; 0x08; 0x10; 0x20; 0x40; 0x80].

(** What [show_equipment] prints for the equipment byte [equip]. *)
Definition equipment_of (equip : Z) : equipment_report :=
  EquipmentReport equip (nz (Z.land equip 0x01)) (nz (Z.land equip 0x02))
                  (Z.land (Z.shiftr equip 2) 0x03)
                  (Z.land (Z.shiftr equip 4) 0x03)
                  (if nz (Z.land equip 0x01)
                   then Z.land (Z.shiftr equip 6) 0x03 + 1 else 0).

(** The cells [factory_reset] never writes, the checksum cells apart. *)
Definition reset_untouched : list Z :=
  [RTC_SECONDS; RTC_MINUTES; RTC_HOURS; RTC_DAY_OF_WEEK; RTC_DAY_OF_MONTH;
   RTC_MONTH; RTC_YEAR; RTC_REG_C; RTC_REG_D; 0x11; 0x13; 0x30; 0x31].

(** ** Sample devices *)

(** A store in 24-hour BCD mode: Tuesday 17 November 2026, 12:34:56, no
    alarm, 720 KB drive A, a type 2 hard disk, 640 KB of base memory, and a
    stale checksum. *)
Definition sample_nvr : list Z :=
  [0x56; 0xC0; 0x34; 0xC0; 0x12; 0xC0; 0x03; 0x17; 0x11; 0x26] ++
  [0x26; 0x02; 0x00; 0x80] ++
  [0x00; 0x00; 0x30; 0x00; 0x20; 0x00; 0x41; 0x80; 0x02] ++
  replicate 4 0x00 ++ [0x07] ++ replicate 17 0x00 ++ [0xFF; 0x12; 0x34] ++
  replicate 2 0x00 ++ [0x20] ++ replicate 12 0x00 ++ [0xAA].

Definition sample_hw : hw := Hw sample_nvr 0 0x4C 0xA7 0x06 [].

(** The sample device switched to 12-hour mode, with hour byte 0x92: the PM
    bit and BCD 12. *)
Definition sample_hw_12h : hw :=
  Hw (<[4%nat := 0x92]> (<[11%nat := 0x00]> sample_nvr)) 0 0x4C 0xA7 0x06 [].

(** An image whose Register B byte has the SET bit on. *)
Definition sample_image : list Z := replicate 64 0x85.

(** * Properties *)

(** ** Bytes and finite checks *)

Lemma u8_byte x : is_byte x -> u8 x = x.
Proof. intros Hx. apply Z.mod_small. exact Hx. Qed.

Lemma u8_is_byte x : is_byte (u8 x).
Proof. unfold is_byte, u8. apply Z.mod_pos_bound. lia. Qed.

Lemma u8_idem x : u8 (u8 x) = u8 x.
Proof. apply u8_byte, u8_is_byte. Qed.

Lemma u16_small x : 0 <= x < 65536 -> u16 x = x.
Proof. intros Hx. apply Z.mod_small. exact Hx. Qed.

Lemma u16_range x : 0 <= u16 x < 65536.
Proof. unfold u16. apply Z.mod_pos_bound. lia. Qed.

(** A boolean property checked on [0 .. n-1] holds on that range. *)
Lemma range_check (P : Z -> bool) (n : nat) :
  List.forallb P (List.map Z.of_nat (List.seq 0 n)) = true ->
  forall x, 0 <= x < Z.of_nat n -> P x = true.
Proof.
  intros Hall x Hx.
  rewrite List.forallb_forall in Hall. apply Hall.
  apply List.in_map_iff. exists (Z.to_nat x). split; [lia|].
  apply List.in_seq. lia.
Qed.

Lemma byte_check (P : Z -> bool) :
  List.forallb P (List.map Z.of_nat (List.seq 0 256)) = true ->
  forall x, is_byte x -> P x = true.
Proof. intros Hall x Hx. apply (range_check P 256 Hall). exact Hx. Qed.

Lemma ca_range a : 0 <= ca a < 64.
Proof.
  unfold ca. change 0x3F with (Z.ones 6).
  rewrite Z.land_ones by lia.
  change (2 ^ 6) with 64.
  assert (0 <= u8 a mod 64 < 64) as Hm by (apply Z.mod_pos_bound; lia).
  rewrite u8_byte; [lia | unfold is_byte; lia].
Qed.

Lemma ca_small a : 0 <= a < 64 -> ca a = a.
Proof.
  intros Ha. unfold ca. change 0x3F with (Z.ones 6).
  rewrite Z.land_ones by lia. change (2 ^ 6) with 64.
  rewrite (u8_byte a) by (unfold is_byte; lia).
  rewrite (Z.mod_small a 64) by lia.
  apply u8_byte. unfold is_byte. lia.
Qed.

(** ** Running monadic code *)

Lemma run_bind {A B} (m : M A) (k : A -> M B) h :
  bind m k h = k (result m h) (exec m h).
Proof. unfold bind, result, exec. destruct (m h). reflexivity. Qed.

Lemma result_bind {A B} (m : M A) (k : A -> M B) h :
  result (bind m k) h = result (k (result m h)) (exec m h).
Proof. unfold result at 1. rewrite run_bind. reflexivity. Qed.

Lemma exec_bind {A B} (m : M A) (k : A -> M B) h :
  exec (bind m k) h = exec (k (result m h)) (exec m h).
Proof. unfold exec at 1. rewrite run_bind. reflexivity. Qed.

Lemma result_ret {A} (a : A) h : result (ret a) h = a.
Proof. reflexivity. Qed.

Lemma exec_ret {A} (a : A) h : exec (ret a) h = h.
Proof. reflexivity. Qed.

Lemma cmos_read_run a h :
  cmos_read a h =
  (cell h (ca a),
   Hw (nvr h) (ca a) (pb h) (sysstat2 h) (stat2_hi h) (Rd (ca a) :: trace h)).
Proof. reflexivity. Qed.

Lemma cmos_write_run a v h :
  cmos_write a v h =
  (tt, Hw (<[Z.to_nat (ca a) := u8 (u8 v)]> (nvr h)) (ca a) (pb h)
          (sysstat2 h) (stat2_hi h) (Wr (ca a) (u8 (u8 v)) :: trace h)).
Proof. reflexivity. Qed.

Lemma result_cmos_read a h : result (cmos_read a) h = cell h (ca a).
Proof. reflexivity. Qed.

Lemma exec_cmos_read a h :
  exec (cmos_read a) h =
  Hw (nvr h) (ca a) (pb h) (sysstat2 h) (stat2_hi h) (Rd (ca a) :: trace h).
Proof. reflexivity. Qed.

Lemma exec_cmos_write a v h :
  exec (cmos_write a v) h =
  Hw (<[Z.to_nat (ca a) := u8 (u8 v)]> (nvr h)) (ca a) (pb h)
     (sysstat2 h) (stat2_hi h) (Wr (ca a) (u8 (u8 v)) :: trace h).
Proof. reflexivity. Qed.

(** ** The BCD codec *)

Lemma bcd_roundtrip b : 0 <= b <= 99 -> bcd_to_bin (bin_to_bcd b) = b.
Proof.
  intros Hb.
  apply Z.eqb_eq.
  apply (range_check (fun b => bcd_to_bin (bin_to_bcd b) =? b) 100).
  - vm_compute. reflexivity.
  - lia.
Qed.

Lemma result_rtc_is_bcd h :
  result rtc_is_bcd h = (Z.land (cell h RTC_REG_B) RTC_B_DM =? 0).
Proof. reflexivity. Qed.

Lemma result_rtc_to_bin v h :
  result (rtc_to_bin v) h =
  if Z.land (cell h RTC_REG_B) RTC_B_DM =? 0 then bcd_to_bin (u8 v) else u8 v.
Proof. reflexivity. Qed.

Lemma result_bin_to_rtc v h :
  result (bin_to_rtc v) h =
  if Z.land (cell h RTC_REG_B) RTC_B_DM =? 0 then bin_to_bcd (u8 v) else u8 v.
Proof. reflexivity. Qed.

Lemma exec_rtc_to_bin v h : exec (rtc_to_bin v) h = exec (cmos_read RTC_REG_B) h.
Proof. reflexivity. Qed.

Lemma exec_bin_to_rtc v h : exec (bin_to_rtc v) h = exec (cmos_read RTC_REG_B) h.
Proof. reflexivity. Qed.

(** C5.  Decoding the BCD encoding of any [b] in 0..99 gives [b] back; and
    when Register B selects binary data mode (DM bit set), both directions
    of the RTC codec return every byte value 0..255 unchanged. *)
Theorem C5_bcd_roundtrip_binary_identity :
  (forall b, 0 <= b <= 99 -> bcd_to_bin (bin_to_bcd b) = b) /\
  (forall h v, Z.land (cell h RTC_REG_B) RTC_B_DM <> 0 -> 0 <= v <= 255 ->
     result (rtc_to_bin v) h = v /\ result (bin_to_rtc v) h = v).
Proof.
  split.
  - exact bcd_roundtrip.
  - intros h v Hdm Hv.
    rewrite result_rtc_to_bin, result_bin_to_rtc.
    apply Z.eqb_neq in Hdm. rewrite Hdm.
    rewrite u8_byte by (unfold is_byte; lia). split; reflexivity.
Qed.

Lemma range_check2 (P : Z -> Z -> bool) (n m : nat) :
  List.forallb
    (fun x => List.forallb (P x) (List.map Z.of_nat (List.seq 0 m)))
    (List.map Z.of_nat (List.seq 0 n)) = true ->
  forall x y, 0 <= x < Z.of_nat n -> 0 <= y < Z.of_nat m -> P x y = true.
Proof.
  intros Hall x y Hx Hy.
  apply (range_check (P x) m); [|exact Hy].
  apply (range_check
           (fun x => List.forallb (P x) (List.map Z.of_nat (List.seq 0 m))) n
           Hall x Hx).
Qed.

(** ** Amstrad system status 2 *)

Lemma nibble_sel_clear p :
  is_byte p -> (Z.land (u8 (Z.land p (Z.lnot PB_NIBBLE_SEL))) PB_NIBBLE_SEL =? 0) = true.
Proof.
  apply (byte_check
    (fun p => Z.land (u8 (Z.land p (Z.lnot PB_NIBBLE_SEL))) PB_NIBBLE_SEL =? 0)).
  vm_compute. reflexivity.
Qed.

Lemma nibble_sel_set p :
  is_byte p -> (Z.land (u8 (Z.lor p PB_NIBBLE_SEL)) PB_NIBBLE_SEL =? 0) = false.
Proof.
  intros Hp. apply negb_true_iff. revert p Hp.
  apply (byte_check
    (fun p => negb (Z.land (u8 (Z.lor p PB_NIBBLE_SEL)) PB_NIBBLE_SEL =? 0))).
  vm_compute. reflexivity.
Qed.

Lemma nibbles_recombine sh ss :
  is_byte sh -> is_byte ss ->
  Z.lor
    (Z.shiftl
       (Z.land (Z.lor (Z.shiftl (Z.land sh 0x0F) 4)
                      (Z.land (Z.shiftr ss 4) 0x0F)) 0x0F) 4)
    (Z.land (Z.lor (Z.shiftl (Z.land sh 0x0F) 4) (Z.land ss 0x0F)) 0x0F)
  = ss.
Proof.
  intros Hsh Hss. apply Z.eqb_eq. revert sh ss Hsh Hss.
  apply (range_check2
    (fun sh ss =>
       Z.lor
         (Z.shiftl
            (Z.land (Z.lor (Z.shiftl (Z.land sh 0x0F) 4)
                           (Z.land (Z.shiftr ss 4) 0x0F)) 0x0F) 4)
         (Z.land (Z.lor (Z.shiftl (Z.land sh 0x0F) 4) (Z.land ss 0x0F))
                 0x0F) =? ss) 256 256).
  vm_compute. reflexivity.
Qed.

(** C9.  The nibble-interleaved read returns [(hi << 4) | lo], where [hi]
    and [lo] are the low four bits read from port 0x62 with the nibble
    select bit of PB cleared and set; that value is the status latch; and on
    return PB holds the value it held before (indeed the whole device state
    is as before). *)
Theorem C9_sysstat2_read_combines_and_restores_pb h :
  wf h ->
  let hi :=
    Z.land (result (inb PORT_STATUS2)
              (exec (outb (Z.land (pb h) (Z.lnot PB_NIBBLE_SEL)) PORT_PB) h))
           0x0F in
  let lo :=
    Z.land (result (inb PORT_STATUS2)
              (exec (outb (Z.lor (pb h) PB_NIBBLE_SEL) PORT_PB) h))
           0x0F in
  result amstrad_read_sysstat2 h = Z.lor (Z.shiftl hi 4) lo /\
  result amstrad_read_sysstat2 h = sysstat2 h /\
  pb (exec amstrad_read_sysstat2 h) = pb h /\
  exec amstrad_read_sysstat2 h = h.
Proof.
  intros (Hlen & Hb & Hpb & Hss & Hhi).
  destruct h as [s i p ss sh t]. cbn [nvr idx pb sysstat2 stat2_hi trace] in *.
  unfold amstrad_read_sysstat2, exec, result, bind, inb, outb, io_delay, ret.
  cbn. unfold status2_value. cbn [pb sysstat2 stat2_hi].
  rewrite (nibble_sel_clear p Hpb), (nibble_sel_set p Hpb).
  rewrite (u8_byte p Hpb).
  rewrite (nibbles_recombine sh ss Hhi Hss).
  rewrite (u8_byte ss Hss). repeat split; reflexivity.
Qed.

Lemma C9_witness :
  wf sample_hw /\
  result amstrad_read_sysstat2 sample_hw = 0xA7 /\
  pb (exec amstrad_read_sysstat2 sample_hw) = 0x4C.
Proof.
  assert (wf sample_hw) as Hwf.
  { unfold wf, is_byte. cbn. repeat split; try lia.
    repeat constructor; lia. }
  split; [exact Hwf|].
  destruct (C9_sysstat2_read_combines_and_restores_pb sample_hw Hwf)
    as (_ & Hres & Hpb & _).
  split; [exact Hres | exact Hpb].
Defined.

Ltac solve_wf :=
  unfold wf, is_byte; cbn; repeat split; try lia; repeat constructor; lia.

(** ** The checksum engine *)

Lemma calc_loop_run n : forall i sum h,
  0 <= i -> i + Z.of_nat n <= 64 ->
  calc_loop n i sum h =
  (sum_from (nvr h) n i sum,
   Hw (nvr h) (loop_idx n i (idx h)) (pb h) (sysstat2 h) (stat2_hi h)
      (loop_reads n i (trace h))).
Proof.
  induction n as [|n IH]; intros i sum h Hi Hn.
  - destruct h. reflexivity.
  - cbn [calc_loop sum_from loop_idx loop_reads].
    rewrite run_bind, result_cmos_read, exec_cmos_read.
    rewrite (ca_small i) by lia.
    rewrite IH by lia. reflexivity.
Qed.

Lemma cmos_calc_checksum_run h :
  cmos_calc_checksum h =
  (checksum (nvr h),
   Hw (nvr h) 0x2D (pb h) (sysstat2 h) (stat2_hi h)
      (loop_reads 30 0x10 (trace h))).
Proof.
  unfold cmos_calc_checksum.
  change (Z.to_nat (0x2D + 1 - 0x10)) with 30%nat.
  rewrite calc_loop_run by lia. unfold checksum.
  change (loop_idx 30 16 (idx h)) with 0x2D. reflexivity.
Qed.

Lemma cmos_update_checksum_run h :
  cmos_update_checksum h =
  (tt,
   Hw (<[47%nat := sum_lo (checksum (nvr h))]>
         (<[46%nat := sum_hi (checksum (nvr h))]> (nvr h)))
      0x2F (pb h) (sysstat2 h) (stat2_hi h)
      (Wr 0x2F (sum_lo (checksum (nvr h))) ::
       Wr 0x2E (sum_hi (checksum (nvr h))) ::
       loop_reads 30 0x10 (trace h))).
Proof.
  unfold cmos_update_checksum.
  rewrite run_bind. unfold result, exec. rewrite cmos_calc_checksum_run.
  cbn [fst snd]. rewrite run_bind. unfold result, exec.
  rewrite !cmos_write_run. cbn [fst snd nvr idx pb sysstat2 stat2_hi trace].
  change (ca CMOS_CHECKSUM_HI) with 0x2E.
  change (ca CMOS_CHECKSUM_LO) with 0x2F.
  change (Z.to_nat 0x2E) with 46%nat.
  change (Z.to_nat 0x2F) with 47%nat.
  unfold sum_hi, sum_lo. reflexivity.
Qed.

Lemma cmos_verify_checksum_run h :
  result cmos_verify_checksum h =
  (checksum (nvr h) =?
   u16 (Z.lor (Z.shiftl (nvr h !!! 46%nat) 8) (nvr h !!! 47%nat))).
Proof.
  unfold cmos_verify_checksum.
  rewrite result_bind. unfold result at 2, exec. rewrite cmos_calc_checksum_run.
  cbn [fst snd]. reflexivity.
Qed.

Lemma sum_from_range s n : forall i sum,
  0 <= sum < 65536 -> 0 <= sum_from s n i sum < 65536.
Proof.
  induction n as [|n IH]; intros i sum Hs; cbn [sum_from].
  - exact Hs.
  - apply IH, u16_range.
Qed.

Lemma checksum_range s : 0 <= checksum s < 65536.
Proof. apply sum_from_range. lia. Qed.

Lemma sum_from_plain s n : forall i sum,
  0 <= sum < 65536 -> sum_from s n i sum = u16 (sum + plain_sum s n i).
Proof.
  induction n as [|n IH]; intros i sum Hs; cbn [sum_from plain_sum].
  - rewrite Z.add_0_r, u16_small by exact Hs. reflexivity.
  - rewrite IH by apply u16_range. unfold u16.
    rewrite Zplus_mod_idemp_l. f_equal. lia.
Qed.

Lemma checksum_plain s : checksum s = u16 (plain_sum s 30 0x10).
Proof. unfold checksum. rewrite sum_from_plain by lia. reflexivity. Qed.

Lemma plain_sum_insert_out s k v n : forall i,
  0 <= i -> (Z.of_nat k < i \/ i + Z.of_nat n <= Z.of_nat k) ->
  plain_sum (<[k := v]> s) n i = plain_sum s n i.
Proof.
  induction n as [|n IH]; intros i Hi Hk; cbn [plain_sum].
  - reflexivity.
  - rewrite list_lookup_total_insert_ne by lia.
    rewrite IH by lia. reflexivity.
Qed.

Lemma plain_sum_insert_in s k v n : forall i,
  0 <= i -> (k < length s)%nat ->
  i <= Z.of_nat k < i + Z.of_nat n ->
  plain_sum (<[k := v]> s) n i = plain_sum s n i - s !!! k + v.
Proof.
  induction n as [|n IH]; intros i Hi Hlen Hk; cbn [plain_sum].
  - lia.
  - destruct (Z.eq_dec i (Z.of_nat k)) as [->|Hne].
    + rewrite Nat2Z.id.
      rewrite list_lookup_total_insert_eq by exact Hlen.
      rewrite plain_sum_insert_out by lia. lia.
    + rewrite list_lookup_total_insert_ne by lia.
      rewrite IH by lia. lia.
Qed.

Lemma lookup_total_byte (s : list Z) (k : nat) :
  Forall is_byte s -> (k < length s)%nat -> is_byte (s !!! k).
Proof.
  intros Hall Hk.
  destruct (lookup_lt_is_Some_2 s k Hk) as [x Hx].
  rewrite (list_lookup_total_correct s k x Hx).
  exact (Forall_lookup_1 _ _ _ _ Hall Hx).
Qed.

Lemma plain_sum_bound s n : forall i,
  Forall is_byte s -> 0 <= i -> i + Z.of_nat n <= Z.of_nat (length s) ->
  0 <= plain_sum s n i <= 255 * Z.of_nat n.
Proof.
  induction n as [|n IH]; intros i Hall Hi Hn; cbn [plain_sum].
  - lia.
  - assert (is_byte (s !!! Z.to_nat i)) as Hb
      by (apply lookup_total_byte; [exact Hall | lia]).
    specialize (IH (i + 1) Hall ltac:(lia) ltac:(lia)).
    unfold is_byte in Hb. lia.
Qed.

Lemma checksum_insert_out s k v :
  (k < 16 \/ 46 <= k)%nat -> checksum (<[k := v]> s) = checksum s.
Proof.
  intros Hk. rewrite !checksum_plain.
  rewrite plain_sum_insert_out by lia. reflexivity.
Qed.

(** The two bytes written by [cmos_update_checksum] recombine to the sum. *)
Lemma stored_recombine c :
  0 <= c < 65536 ->
  u16 (Z.lor (Z.shiftl (sum_hi c) 8) (sum_lo c)) = c.
Proof.
  intros Hc.
  assert (c = 256 * (c / 256) + c mod 256) as Hsplit
    by (apply Z.div_mod; lia).
  assert (0 <= c / 256 < 256) as Hq
    by (split; [apply Z.div_pos; lia | apply Z.div_lt_upper_bound; lia]).
  assert (0 <= c mod 256 < 256) as Hr by (apply Z.mod_pos_bound; lia).
  remember (c / 256) as q eqn:Eq. remember (c mod 256) as r eqn:Er.
  clear Eq Er Hc. subst c.
  apply Z.eqb_eq. revert q r Hq Hr.
  apply (range_check2
    (fun q r => u16 (Z.lor (Z.shiftl (sum_hi (256 * q + r)) 8)
                           (sum_lo (256 * q + r))) =? 256 * q + r) 256 256).
  vm_compute. reflexivity.
Qed.

(** After [cmos_update_checksum] the stored checksum matches. *)
Lemma update_then_verify h :
  length (nvr h) = 64%nat ->
  result cmos_verify_checksum (exec cmos_update_checksum h) = true.
Proof.
  intros Hlen. unfold exec. rewrite cmos_update_checksum_run. cbn [snd].
  rewrite cmos_verify_checksum_run. cbn [nvr].
  rewrite !checksum_insert_out by lia.
  rewrite list_lookup_total_insert_ne by lia.
  rewrite list_lookup_total_insert_eq by lia.
  rewrite list_lookup_total_insert_eq by (rewrite length_insert; lia).
  rewrite stored_recombine by apply checksum_range.
  apply Z.eqb_refl.
Qed.

(** ** Well-formedness is preserved *)

Lemma wf_cmos_write a v h : wf h -> wf (exec (cmos_write a v) h).
Proof.
  intros (Hlen & Hb & Hrest). rewrite exec_cmos_write.
  unfold wf. cbn [nvr pb sysstat2 stat2_hi].
  rewrite length_insert. split; [exact Hlen|]. split; [|exact Hrest].
  apply Forall_insert; [exact Hb | apply u8_is_byte].
Qed.

Lemma wf_cmos_read a h : wf h -> wf (exec (cmos_read a) h).
Proof. intros Hwf. rewrite exec_cmos_read. exact Hwf. Qed.

Lemma wf_update_checksum h : wf h -> wf (exec cmos_update_checksum h).
Proof.
  intros (Hlen & Hb & Hrest). unfold exec. rewrite cmos_update_checksum_run.
  unfold wf. cbn [snd nvr pb sysstat2 stat2_hi].
  rewrite !length_insert. split; [exact Hlen|]. split; [|exact Hrest].
  apply Forall_insert; [apply Forall_insert|]; try exact Hb; apply u8_is_byte.
Qed.

Create HintDb hw_wf.
#[local] Hint Resolve wf_cmos_write wf_cmos_read wf_update_checksum : hw_wf.

(** Changing one covered cell of a store with a valid checksum to another
    byte value invalidates the checksum. *)
Lemma change_breaks_checksum h a v :
  wf h -> result cmos_verify_checksum h = true ->
  0x10 <= a <= 0x2D -> is_byte v -> v <> cell h a ->
  result cmos_verify_checksum (exec (cmos_write a v) h) = false.
Proof.
  intros Hwf Hok Ha Hv Hne.
  pose proof (wf_cmos_write a v h Hwf) as Hwf'.
  destruct Hwf as (Hlen & Hb & _). destruct Hwf' as (Hlen' & Hb' & _).
  rewrite cmos_verify_checksum_run in Hok. apply Z.eqb_eq in Hok.
  rewrite cmos_verify_checksum_run.
  rewrite exec_cmos_write in *. cbn [nvr] in *.
  rewrite (ca_small a) in * by lia.
  rewrite !u8_idem, (u8_byte v Hv) in *.
  rewrite !list_lookup_total_insert_ne by lia.
  rewrite <- Hok. apply Z.eqb_neq.
  rewrite !checksum_plain.
  pose proof (plain_sum_bound (nvr h) 30 0x10 Hb ltac:(lia) ltac:(lia)) as B1.
  pose proof (plain_sum_bound _ 30 0x10 Hb' ltac:(lia) ltac:(lia)) as B2.
  rewrite !u16_small by lia.
  rewrite plain_sum_insert_in by lia.
  unfold cell in Hne. lia.
Qed.

(** C1.  For every store contents, verify succeeds right after update; and
    if one cell in 0x10..0x2D is then changed to a different byte value
    without a further update, verify fails. *)
Theorem C1_update_then_verify_and_single_change h :
  wf h ->
  result cmos_verify_checksum (exec cmos_update_checksum h) = true /\
  (forall a v,
     0x10 <= a <= 0x2D -> 0 <= v <= 255 ->
     v <> cell (exec cmos_update_checksum h) a ->
     result cmos_verify_checksum
       (exec (cmos_write a v) (exec cmos_update_checksum h)) = false).
Proof.
  intros Hwf.
  assert (result cmos_verify_checksum (exec cmos_update_checksum h) = true)
    as Hok by (apply update_then_verify, Hwf).
  split; [exact Hok|].
  intros a v Ha Hv Hne.
  apply change_breaks_checksum; try assumption.
  - apply wf_update_checksum, Hwf.
  - unfold is_byte. lia.
Qed.

Lemma C1_witness :
  wf sample_hw /\
  result cmos_verify_checksum (exec cmos_update_checksum sample_hw) = true /\
  result cmos_verify_checksum
    (exec (cmos_write 0x14 0x42) (exec cmos_update_checksum sample_hw)) = false.
Proof.
  assert (wf sample_hw) as Hwf by solve_wf.
  split; [exact Hwf|].
  destruct (C1_update_then_verify_and_single_change sample_hw Hwf)
    as (Hok & Hchg).
  split; [exact Hok|].
  apply Hchg; [lia | lia | vm_compute; discriminate].
Defined.

(** ** Symbolic execution of straight-line code *)

Lemma cell_Hw s i p ss sh t a : cell (Hw s i p ss sh t) a = s !!! Z.to_nat a.
Proof. reflexivity. Qed.

Ltac hw_simpl := cbv beta; cbn [nvr idx pb sysstat2 stat2_hi trace fst snd].

(** A state that can be copied freely: a variable or an explicit record. *)
Ltac simple_state h :=
  first [ is_var h | match h with Hw _ _ _ _ _ _ => idtac end ].

Ltac run1 :=
  match goal with
  | |- context [result (rtc_to_bin ?v) ?h] =>
      simple_state h; rewrite (result_rtc_to_bin v h)
  | |- context [exec (rtc_to_bin ?v) ?h] =>
      simple_state h; rewrite (exec_rtc_to_bin v h)
  | |- context [result (bin_to_rtc ?v) ?h] =>
      simple_state h; rewrite (result_bin_to_rtc v h)
  | |- context [exec (bin_to_rtc ?v) ?h] =>
      simple_state h; rewrite (exec_bin_to_rtc v h)
  | |- context [result (cmos_read ?a) ?h] =>
      simple_state h; rewrite (result_cmos_read a h)
  | |- context [exec (cmos_read ?a) ?h] =>
      simple_state h; rewrite (exec_cmos_read a h)
  | |- context [exec (cmos_write ?a ?v) ?h] =>
      simple_state h; rewrite (exec_cmos_write a v h)
  | |- context [result (ret ?a) ?h] => rewrite (result_ret a h)
  | |- context [exec (ret ?a) ?h] => rewrite (exec_ret a h)
  | |- context [result (bind ?m ?k) ?h] =>
      simple_state h; rewrite (result_bind m k h)
  | |- context [exec (bind ?m ?k) ?h] =>
      simple_state h; rewrite (exec_bind m k h)
  | |- context [cell (Hw ?s ?i ?p ?ss ?sh ?t) ?a] =>
      rewrite (cell_Hw s i p ss sh t a)
  end.

Ltac run := repeat (run1; hw_simpl).

(** Replace [ca a] by its value when [a] is a constant address. *)
Ltac ca_norm :=
  repeat match goal with
         | |- context [ca ?a] =>
             let v := eval vm_compute in a in
             match v with
             | Z0 => idtac
             | Zpos _ => idtac
             end;
             let w := eval vm_compute in (ca a) in
             change (ca a) with w
         end.

(** ** Counting accesses in a trace *)

Lemma reads_of_app c t1 t2 :
  reads_of c (t1 ++ t2) = (reads_of c t1 + reads_of c t2)%nat.
Proof.
  induction t1 as [|[a|a v] t1 IH]; cbn [app reads_of]; [reflexivity| |exact IH].
  destruct (a =? c); rewrite IH; reflexivity.
Qed.

Lemma writes_of_app c t1 t2 :
  writes_of c (t1 ++ t2) = (writes_of c t1 + writes_of c t2)%nat.
Proof.
  induction t1 as [|[a|a v] t1 IH]; cbn [app writes_of]; [reflexivity|exact IH|].
  destruct (a =? c); rewrite IH; reflexivity.
Qed.

Lemma reads_of_replicate_ne c a k :
  a <> c -> reads_of c (replicate k (Rd a)) = O.
Proof.
  intros Hne. induction k as [|k IH]; cbn [replicate reads_of]; [reflexivity|].
  apply Z.eqb_neq in Hne. rewrite Hne. exact IH.
Qed.

Lemma writes_of_replicate_rd c a k : writes_of c (replicate k (Rd a)) = O.
Proof. induction k as [|k IH]; cbn [replicate writes_of]; [reflexivity|exact IH]. Qed.

Lemma writes_of_loop_reads c n : forall i t,
  writes_of c (loop_reads n i t) = writes_of c t.
Proof.
  induction n as [|n IH]; intros i t; cbn [loop_reads]; [reflexivity|].
  rewrite IH. reflexivity.
Qed.

(** ** Waiting for the update cycle *)

Lemma replicate_snoc_cons {A} (x : A) k t :
  replicate k x ++ x :: t = replicate (S k) x ++ t.
Proof. induction k as [|k IH]; cbn; [reflexivity | rewrite IH; reflexivity]. Qed.

Lemma rtc_wait_uip_loop_exec n : forall h,
  exec (rtc_wait_uip_loop n) h =
  Hw (nvr h) RTC_REG_A (pb h) (sysstat2 h) (stat2_hi h)
     (replicate (if Z.land (cell h RTC_REG_A) RTC_A_UIP =? 0 then 1%nat else S n)
                (Rd RTC_REG_A) ++ trace h).
Proof.
  induction n as [|n IH]; intros h.
  - cbn [rtc_wait_uip_loop]. rewrite exec_bind, result_cmos_read, exec_cmos_read.
    change (ca RTC_REG_A) with RTC_REG_A.
    destruct (Z.land (cell h RTC_REG_A) RTC_A_UIP =? 0); reflexivity.
  - cbn [rtc_wait_uip_loop]. rewrite exec_bind, result_cmos_read, exec_cmos_read.
    change (ca RTC_REG_A) with RTC_REG_A.
    destruct (Z.land (cell h RTC_REG_A) RTC_A_UIP =? 0) eqn:E; [reflexivity|].
    rewrite IH. cbn [nvr idx pb sysstat2 stat2_hi trace].
    unfold cell in *. cbn [nvr]. rewrite E.
    rewrite (replicate_snoc_cons (Rd RTC_REG_A) (S n)). reflexivity.
Qed.

Lemma exec_rtc_wait_uip h :
  exec rtc_wait_uip h =
  Hw (nvr h) RTC_REG_A (pb h) (sysstat2 h) (stat2_hi h)
     (replicate (uip_reads h) (Rd RTC_REG_A) ++ trace h).
Proof.
  unfold rtc_wait_uip. rewrite exec_bind, exec_ret.
  apply rtc_wait_uip_loop_exec.
Qed.

(** ** The time display *)

Lemma show_time_exec h :
  exec show_time h =
  Hw (nvr h) RTC_REG_B (pb h) (sysstat2 h) (stat2_hi h)
     (replicate 8 (Rd RTC_REG_B) ++
      [Rd RTC_REG_B; Rd CMOS_CENTURY; Rd RTC_YEAR; Rd RTC_MONTH;
       Rd RTC_DAY_OF_MONTH; Rd RTC_DAY_OF_WEEK; Rd RTC_HOURS; Rd RTC_MINUTES;
       Rd RTC_SECONDS] ++
      replicate (uip_reads h) (Rd RTC_REG_A) ++ trace h).
Proof.
  unfold show_time. rewrite exec_bind, exec_rtc_wait_uip.
  run.
  destruct (nz _); run; ca_norm; reflexivity.
Qed.

Lemma show_time_result h :
  result show_time h =
  TimeReport (result (rtc_to_bin (cell h RTC_SECONDS)) h)
             (result (rtc_to_bin (cell h RTC_MINUTES)) h)
             (shown_hours h)
             (clamp 7 (result (rtc_to_bin (cell h RTC_DAY_OF_WEEK)) h))
             (result (rtc_to_bin (cell h RTC_DAY_OF_MONTH)) h)
             (clamp 12 (result (rtc_to_bin (cell h RTC_MONTH)) h))
             (result (rtc_to_bin (cell h RTC_YEAR)) h)
             (result (rtc_to_bin (cell h CMOS_CENTURY)) h)
             (cell h RTC_REG_B).
Proof.
  unfold shown_hours, clamp.
  unfold show_time. rewrite result_bind, exec_rtc_wait_uip.
  run. ca_norm. unfold cell.
  destruct (nz _); run; ca_norm; reflexivity.
Qed.

Lemma rtc_to_bin_nonneg v h : 0 <= result (rtc_to_bin v) h.
Proof.
  rewrite result_rtc_to_bin.
  destruct (_ =? 0); [unfold bcd_to_bin|]; apply u8_is_byte.
Qed.

Lemma rtc_to_bin_u8 v h : result (rtc_to_bin (u8 v)) h = result (rtc_to_bin v) h.
Proof. rewrite !result_rtc_to_bin, u8_idem. reflexivity. Qed.

Lemma land_7F_byte x : u8 (Z.land x 0x7F) = Z.land x 0x7F.
Proof.
  apply u8_byte. unfold is_byte.
  change 0x7F with (Z.ones 7). rewrite Z.land_ones by lia.
  pose proof (Z.mod_pos_bound x (2 ^ 7) ltac:(lia)) as Hm.
  change (2 ^ 7) with 128 in *. lia.
Qed.

(** The printed hour without the intermediate truncations. *)
Lemma shown_hours_eq h :
  shown_hours h =
  let raw := cell h RTC_HOURS in
  if nz (Z.land (cell h RTC_REG_B) RTC_B_24H) then result (rtc_to_bin raw) h
  else
    let d := result (rtc_to_bin (Z.land raw 0x7F)) h in
    if nz (Z.land raw 0x80) then (if d <? 12 then d + 12 else d)
    else (if d =? 12 then 0 else d).
Proof.
  unfold shown_hours. cbv zeta.
  rewrite land_7F_byte.
  pose proof (rtc_to_bin_nonneg (Z.land (cell h RTC_HOURS) 0x7F) h) as Hd.
  destruct (nz (Z.land (cell h RTC_REG_B) RTC_B_24H)); [reflexivity|].
  destruct (nz (Z.land (cell h RTC_HOURS) 0x80)); [|reflexivity].
  destruct (Z.ltb_spec (result (rtc_to_bin (Z.land (cell h RTC_HOURS) 0x7F)) h) 12);
    [|reflexivity].
  apply u8_byte. unfold is_byte. lia.
Qed.

(** C4, as the code has it.  [show_time] reads Register B nine times: once
    into the snapshot [regb], which selects the 12/24-hour branch and the
    mode line, and once more inside each of the eight [rtc_to_bin] calls.
    The store is not written in between, so all eight fields are decoded
    under the one data mode that Register B holds. *)
Theorem C4_show_time_reads_mode_per_field h :
  let r := result show_time h in
  let dec v := result (rtc_to_bin v) h in
  let dow := dec (cell h RTC_DAY_OF_WEEK) in
  let mon := dec (cell h RTC_MONTH) in
  reads_of RTC_REG_B (trace (exec show_time h)) =
    (9 + reads_of RTC_REG_B (trace h))%nat /\
  nvr (exec show_time h) = nvr h /\
  t_regb r = cell h RTC_REG_B /\
  t_sec r = dec (cell h RTC_SECONDS) /\
  t_min r = dec (cell h RTC_MINUTES) /\
  t_dom r = dec (cell h RTC_DAY_OF_MONTH) /\
  t_yr r = dec (cell h RTC_YEAR) /\
  t_cen r = dec (cell h CMOS_CENTURY) /\
  t_dow r = (if dow >? 7 then 0 else dow) /\
  t_mon r = (if mon >? 12 then 0 else mon) /\
  t_hrs r =
    (if nz (Z.land (cell h RTC_REG_B) RTC_B_24H) then dec (cell h RTC_HOURS)
     else
       let d := dec (Z.land (cell h RTC_HOURS) 0x7F) in
       if nz (Z.land (cell h RTC_HOURS) 0x80)
       then (if d <? 12 then d + 12 else d)
       else (if d =? 12 then 0 else d)).
Proof.
  intros r dec dow mon. subst r dec dow mon.
  rewrite (show_time_exec h), (show_time_result h).
  cbn [trace nvr t_regb t_sec t_min t_dom t_yr t_cen t_dow t_mon t_hrs].
  rewrite shown_hours_eq. unfold clamp.
  rewrite !reads_of_app.
  rewrite (reads_of_replicate_ne RTC_REG_B RTC_REG_A) by discriminate.
  repeat split; reflexivity.
Qed.

(** The single read of Register B that C4 states does not hold: on the
    sample device [show_time] does not read cell 0x0B exactly once. *)
Lemma C4_counterexample :
  reads_of RTC_REG_B (trace (exec show_time sample_hw)) <> 1%nat.
Proof. vm_compute. discriminate. Qed.

(** C6.  In 12-hour mode the top bit of the raw hour byte is PM: a decoded
    12 with PM set stays 12, a decoded 12 with PM clear becomes 0, and a
    decoded PM value below 12 gets 12 added. *)
Theorem C6_hour_folding_12h h :
  Z.land (cell h RTC_REG_B) RTC_B_24H = 0 ->
  let raw := cell h RTC_HOURS in
  let d := result (rtc_to_bin (Z.land raw 0x7F)) h in
  let hrs := t_hrs (result show_time h) in
  (Z.land raw 0x80 <> 0 -> d = 12 -> hrs = 12) /\
  (Z.land raw 0x80 = 0 -> d = 12 -> hrs = 0) /\
  (Z.land raw 0x80 <> 0 -> d < 12 -> hrs = d + 12).
Proof.
  intros H12 raw d hrs. subst hrs.
  rewrite (show_time_result h). cbn [t_hrs]. rewrite shown_hours_eq. cbv zeta.
  fold raw. fold d. unfold nz. rewrite H12. cbn [Z.eqb negb].
  repeat split.
  - intros Hpm Hd. apply Z.eqb_neq in Hpm. rewrite Hpm, Hd. reflexivity.
  - intros Ham Hd. rewrite Ham, Hd. reflexivity.
  - intros Hpm Hd. apply Z.eqb_neq in Hpm. rewrite Hpm. cbn [negb].
    apply Z.ltb_lt in Hd. rewrite Hd. reflexivity.
Qed.

Lemma C6_witness :
  Z.land (cell sample_hw_12h RTC_REG_B) RTC_B_24H = 0 /\
  t_hrs (result show_time sample_hw_12h) = 12.
Proof.
  split; [reflexivity|].
  destruct (C6_hour_folding_12h sample_hw_12h eq_refl) as (Hnoon & _ & _).
  apply Hnoon; [vm_compute; discriminate | reflexivity].
Defined.

(** ** Loops that write a range of cells *)

Lemma for_each_S n i body h :
  exec (for_each (S n) i body) h =
  exec (for_each n (i + 1) body) (exec (body i) h).
Proof. cbn [for_each]. rewrite exec_bind. reflexivity. Qed.

Lemma cell_cmos_write a v b h :
  length (nvr h) = 64%nat -> 0 <= a < 64 -> 0 <= b < 64 ->
  cell (exec (cmos_write a v) h) b = if b =? a then u8 v else cell h b.
Proof.
  intros Hlen Ha Hb. rewrite exec_cmos_write. unfold cell. cbn [nvr].
  rewrite (ca_small a) by lia. rewrite u8_idem.
  destruct (Z.eqb_spec b a) as [->|Hne].
  - apply list_lookup_total_insert_eq. lia.
  - apply list_lookup_total_insert_ne. lia.
Qed.

Lemma length_cmos_write a v h :
  length (nvr (exec (cmos_write a v) h)) = length (nvr h).
Proof. rewrite exec_cmos_write. cbn [nvr]. apply length_insert. Qed.

(** Case analysis on every integer comparison in the goal. *)
Ltac zcases :=
  repeat match goal with
         | |- context [?x <=? ?y] => destruct (Z.leb_spec x y)
         | |- context [?x <? ?y] => destruct (Z.ltb_spec x y)
         | |- context [?x =? ?y] => destruct (Z.eqb_spec x y)
         end;
  cbn [andb orb negb]; try lia.

Section WriteLoops.

(** A loop whose body writes [f i] to every cell [i] not excluded by
    [skip]. *)
Variable skip : Z -> bool.
Variable f : Z -> Z.

Lemma wf_write_body i h : wf h -> wf (exec (write_body skip f i) h).
Proof.
  intros Hwf. unfold write_body. destruct (skip i).
  - exact Hwf.
  - apply wf_cmos_write, Hwf.
Qed.

Lemma wf_write_loop n : forall i h,
  wf h -> wf (exec (for_each n i (write_body skip f)) h).
Proof.
  induction n as [|n IH]; intros i h Hwf.
  - exact Hwf.
  - rewrite for_each_S. apply IH, wf_write_body, Hwf.
Qed.

Lemma write_loop_cell n : forall i h a,
  length (nvr h) = 64%nat -> 0 <= i -> i + Z.of_nat n <= 64 -> 0 <= a < 64 ->
  cell (exec (for_each n i (write_body skip f)) h) a =
  if (i <=? a) && (a <? i + Z.of_nat n) && negb (skip a) then u8 (f a)
  else cell h a.
Proof.
  induction n as [|n IH]; intros i h a Hlen Hi Hn Ha.
  - cbn [for_each]. rewrite exec_ret. zcases; reflexivity.
  - rewrite for_each_S.
    assert (length (nvr (exec (write_body skip f i) h)) = 64%nat) as Hlen1.
    { unfold write_body. destruct (skip i); [exact Hlen|].
      rewrite length_cmos_write. exact Hlen. }
    rewrite IH by lia.
    assert (cell (exec (write_body skip f i) h) a =
            if (a =? i) && negb (skip i) then u8 (f i) else cell h a) as ->.
    { unfold write_body. destruct (skip i).
      - rewrite andb_false_r. reflexivity.
      - rewrite cell_cmos_write by lia. rewrite andb_true_r. reflexivity. }
    zcases; subst; try reflexivity; destruct (skip _); reflexivity.
Qed.

Lemma write_loop_writes c n : forall i h,
  0 <= i -> i + Z.of_nat n <= 64 ->
  writes_of c (trace (exec (for_each n i (write_body skip f)) h)) =
  Nat.add
    (if (i <=? c) && (c <? i + Z.of_nat n) && negb (skip c) then 1%nat
     else 0%nat)
    (writes_of c (trace h)).
Proof.
  induction n as [|n IH]; intros i h Hi Hn.
  - cbn [for_each]. rewrite exec_ret. zcases; reflexivity.
  - rewrite for_each_S. rewrite IH by lia.
    assert (writes_of c (trace (exec (write_body skip f i) h)) =
            Nat.add (if (i =? c) && negb (skip i) then 1%nat else 0%nat)
                    (writes_of c (trace h))) as ->.
    { unfold write_body. destruct (skip i).
      - rewrite andb_false_r. reflexivity.
      - rewrite exec_cmos_write. cbn [trace writes_of].
        rewrite (ca_small i) by lia. rewrite andb_true_r.
        destruct (i =? c); reflexivity. }
    zcases; subst; try reflexivity; destruct (skip _); reflexivity.
Qed.

End WriteLoops.

(** ** Setters over the checksum-covered range *)

Lemma ends_with_update_bind {A B} (m : M A) (k : A -> M B) h :
  ends_with_update (k (result m h)) (exec m h) -> ends_with_update (bind m k) h.
Proof. unfold ends_with_update. rewrite exec_bind. exact (fun H => H). Qed.

Lemma ends_with_update_tail h :
  wf h -> ends_with_update (cmos_update_checksum ;;; ret 0) h.
Proof.
  intros Hwf. unfold ends_with_update. rewrite exec_bind, exec_ret. split.
  - exists h. reflexivity.
  - apply update_then_verify, Hwf.
Qed.

Lemma set_floppy_ends_with_update drv type h :
  wf h -> result (set_floppy drv type) h = 0 ->
  ends_with_update (set_floppy drv type) h.
Proof.
  intros Hwf. unfold set_floppy.
  destruct ((type <? 0) || (type >? 4)); [discriminate|].
  intros Hres. apply ends_with_update_bind. rewrite result_bind in Hres.
  revert Hres. cbv zeta.
  destruct (is_char "A" drv || is_char "a" drv || is_char "0" drv);
    [|destruct (is_char "B" drv || is_char "b" drv || is_char "1" drv);
      [|discriminate]];
    intros _; apply ends_with_update_bind, ends_with_update_tail;
    auto with hw_wf.
Qed.

Lemma set_harddisk_ends_with_update drv type h :
  wf h -> result (set_harddisk drv type) h = 0 ->
  ends_with_update (set_harddisk drv type) h.
Proof.
  intros Hwf. unfold set_harddisk.
  destruct ((type <? 0) || (type >? 15)); [discriminate|].
  intros Hres. apply ends_with_update_bind. rewrite result_bind in Hres.
  revert Hres. cbv zeta.
  destruct (is_char "0" drv || is_char "C" drv || is_char "c" drv);
    [|destruct (is_char "1" drv || is_char "D" drv || is_char "d" drv);
      [|discriminate]];
    intros _; apply ends_with_update_bind, ends_with_update_tail;
    auto with hw_wf.
Qed.

Lemma set_equipment_ends_with_update field val h :
  wf h -> result (set_equipment field val) h = 0 ->
  ends_with_update (set_equipment field val) h.
Proof.
  intros Hwf. unfold set_equipment.
  intros Hres. apply ends_with_update_bind. rewrite result_bind in Hres.
  revert Hres. cbv zeta.
  match goal with
  | |- context [match ?c with Some _ => _ | None => _ end] => destruct c
  end; [|discriminate].
  intros _; apply ends_with_update_bind, ends_with_update_tail.
  auto with hw_wf.
Qed.

Lemma set_basemem_ends_with_update kb h :
  wf h -> result (set_basemem kb) h = 0 -> ends_with_update (set_basemem kb) h.
Proof.
  intros Hwf. unfold set_basemem.
  destruct ((kb <? 64) || (kb >? 640)); [discriminate|].
  intros _. do 2 apply ends_with_update_bind. apply ends_with_update_tail.
  auto with hw_wf.
Qed.

Lemma raw_write_ends_with_update addr val h :
  wf h -> 0x10 <= addr <= 0x2D -> result (raw_write addr val) h = 0 ->
  ends_with_update (raw_write addr val) h.
Proof.
  intros Hwf Ha. unfold raw_write.
  destruct (addr >=? CMOS_SIZE); [discriminate|].
  destruct (val >? 0xFF); [discriminate|].
  intros _. apply ends_with_update_bind.
  assert ((addr >=? 0x10) && (addr <=? 0x2D) = true) as ->.
  { apply andb_true_iff. split; [apply Z.geb_le | apply Z.leb_le]; lia. }
  apply ends_with_update_tail. auto with hw_wf.
Qed.

Lemma fill_cmos_ends_with_update start end_ val h :
  wf h -> result (fill_cmos start end_ val) h = 0 ->
  ends_with_update (fill_cmos start end_ val) h.
Proof.
  intros Hwf. unfold fill_cmos.
  destruct ((start >=? CMOS_SIZE) || (end_ >=? CMOS_SIZE) || (start >? end_));
    [discriminate|].
  destruct (val >? 0xFF); [discriminate|].
  intros _. apply ends_with_update_bind, ends_with_update_tail.
  apply (wf_write_loop (fun i => (i =? RTC_REG_C) || (i =? RTC_REG_D))
                       (fun _ => val)), Hwf.
Qed.

(** C3.  Every successful setter that writes inside 0x10..0x2D finishes with
    the checksum recompute as its last change to the store, so the stored
    checksum verifies on the resulting store. *)
Theorem C3_covered_setters_end_with_checksum_update h :
  wf h ->
  (forall drv type, result (set_floppy drv type) h = 0 ->
     ends_with_update (set_floppy drv type) h) /\
  (forall drv type, result (set_harddisk drv type) h = 0 ->
     ends_with_update (set_harddisk drv type) h) /\
  (forall field val, result (set_equipment field val) h = 0 ->
     ends_with_update (set_equipment field val) h) /\
  (forall kb, result (set_basemem kb) h = 0 ->
     ends_with_update (set_basemem kb) h) /\
  (forall addr val, 0x10 <= addr <= 0x2D -> result (raw_write addr val) h = 0 ->
     ends_with_update (raw_write addr val) h) /\
  (forall start end_ val, result (fill_cmos start end_ val) h = 0 ->
     ends_with_update (fill_cmos start end_ val) h).
Proof.
  intros Hwf.
  split; [intros; apply set_floppy_ends_with_update; assumption|].
  split; [intros; apply set_harddisk_ends_with_update; assumption|].
  split; [intros; apply set_equipment_ends_with_update; assumption|].
  split; [intros; apply set_basemem_ends_with_update; assumption|].
  split; [intros; apply raw_write_ends_with_update; assumption|].
  intros; apply fill_cmos_ends_with_update; assumption.
Qed.

Lemma C3_witness :
  wf sample_hw /\
  result (set_floppy "A" 4) sample_hw = 0 /\
  result cmos_verify_checksum (exec (set_floppy "A" 4) sample_hw) = true.
Proof.
  assert (wf sample_hw) as Hwf by solve_wf.
  split; [exact Hwf|]. split; [reflexivity|].
  destruct (C3_covered_setters_end_with_checksum_update sample_hw Hwf)
    as (Hfloppy & _).
  apply (Hfloppy "A"%string 4). reflexivity.
Defined.

(** ** Rejected input *)

Ltac split_branches :=
  repeat match goal with
         | |- context [match ?c with Some _ => _ | None => _ end] => destruct c
         | |- context [if ?c then _ else _] => destruct c
         end.

Ltac reject_or_succeed :=
  split_branches; run; intros Hne;
  first [ exfalso; apply Hne; reflexivity
        | split; [reflexivity | intros ?; reflexivity] ].

(** Every setter other than [set_alarm] that reports failure has written
    nothing: the store is as it was. *)
Lemma rejected_setters_write_nothing h :
  (forall p, result (set_time p) h <> 0 -> no_write h (exec (set_time p) h)) /\
  (forall p, result (set_date p) h <> 0 -> no_write h (exec (set_date p) h)) /\
  (forall d, result (set_dow d) h <> 0 -> no_write h (exec (set_dow d) h)) /\
  (forall drv t, result (set_floppy drv t) h <> 0 ->
     no_write h (exec (set_floppy drv t) h)) /\
  (forall drv t, result (set_harddisk drv t) h <> 0 ->
     no_write h (exec (set_harddisk drv t) h)) /\
  (forall f v, result (set_equipment f v) h <> 0 ->
     no_write h (exec (set_equipment f v) h)) /\
  (forall kb, result (set_basemem kb) h <> 0 ->
     no_write h (exec (set_basemem kb) h)) /\
  (forall m v, result (set_rtc_mode m v) h <> 0 ->
     no_write h (exec (set_rtc_mode m v) h)) /\
  (forall a v, result (raw_write a v) h <> 0 ->
     no_write h (exec (raw_write a v) h)).
Proof.
  split. { intros [[[hrs min] sec]|]; unfold set_time; reject_or_succeed. }
  split. { intros [[[day mon] year]|]; unfold set_date; reject_or_succeed. }
  split. { intros d. unfold set_dow. reject_or_succeed. }
  split. { intros drv t. unfold set_floppy. cbv zeta. reject_or_succeed. }
  split. { intros drv t. unfold set_harddisk. cbv zeta. reject_or_succeed. }
  split. { intros f v. unfold set_equipment. cbv zeta. reject_or_succeed. }
  split. { intros kb. unfold set_basemem. reject_or_succeed. }
  split. { intros m v. unfold set_rtc_mode. cbv zeta. reject_or_succeed. }
  intros a v. unfold raw_write. reject_or_succeed.
Qed.

(** [set_alarm] accepts whatever three numbers were parsed. *)
Lemma set_alarm_never_rejects hrs min sec h :
  result (set_alarm (Some (hrs, min, sec))) h = 0.
Proof.
  unfold set_alarm.
  destruct (sec <? 0), (min <? 0), (hrs <? 0); run; reflexivity.
Qed.

(** C2, where the code departs from it.  Given the out-of-range time
    25:61:61, [set_alarm] reports success and writes the three alarm cells,
    while [set_time] rejects the same input and leaves the device alone. *)
Theorem C2_set_alarm_accepts_out_of_range :
  let h' := exec (set_alarm (Some (25, 61, 61))) sample_hw in
  result (set_alarm (Some (25, 61, 61))) sample_hw = 0 /\
  cell h' RTC_ALARM_HRS = 0x25 /\
  cell h' RTC_ALARM_MIN = 0x61 /\
  cell h' RTC_ALARM_SEC = 0x61 /\
  nvr h' <> nvr sample_hw /\
  writes_of RTC_ALARM_HRS (trace h') = 1%nat /\
  result (set_time (Some (25, 61, 61))) sample_hw = 1 /\
  exec (set_time (Some (25, 61, 61))) sample_hw = sample_hw.
Proof. vm_compute. repeat split; try reflexivity. discriminate. Qed.

(** ** Snapshot import *)

Lemma writes_cmos_write a v c h :
  0 <= a < 64 ->
  writes_of c (trace (exec (cmos_write a v) h)) =
  Nat.add (if a =? c then 1%nat else 0%nat) (writes_of c (trace h)).
Proof.
  intros Ha. rewrite exec_cmos_write. cbn [trace writes_of].
  rewrite (ca_small a) by lia. destruct (a =? c); reflexivity.
Qed.

Lemma writes_cmos_read a c h :
  writes_of c (trace (exec (cmos_read a) h)) = writes_of c (trace h).
Proof. rewrite exec_cmos_read. reflexivity. Qed.

Lemma cell_cmos_read a b h : cell (exec (cmos_read a) h) b = cell h b.
Proof. rewrite exec_cmos_read. reflexivity. Qed.

Lemma length_cmos_read a h : length (nvr (exec (cmos_read a) h)) = length (nvr h).
Proof. rewrite exec_cmos_read. reflexivity. Qed.

Lemma load_cmos_run content h :
  length content = 64%nat ->
  result (load_cmos (Some content)) h = 0 /\
  exec (load_cmos (Some content)) h =
  exec (cmos_write RTC_REG_B
          (Z.land (content !!! Z.to_nat RTC_REG_B) (Z.lnot RTC_B_SET)))
    (exec (for_each 64 0
             (write_body read_only (fun i => content !!! Z.to_nat i)))
       (exec (cmos_write RTC_REG_B (Z.lor (cell h RTC_REG_B) RTC_B_SET))
          (exec (cmos_read RTC_REG_B) h))).
Proof.
  intros Hlen. unfold load_cmos. rewrite Hlen.
  change (negb (Z.of_nat 64 =? CMOS_SIZE) && negb (Z.of_nat 64 =? 128))
    with false.
  cbv iota zeta.
  rewrite (take_ge content) by (rewrite Hlen; reflexivity).
  change (Z.to_nat CMOS_SIZE) with 64%nat.
  rewrite !result_bind, !exec_bind, result_ret, exec_ret.
  rewrite result_cmos_read. change (ca RTC_REG_B) with RTC_REG_B.
  split; reflexivity.
Qed.

Lemma clear_set_bit_byte x :
  is_byte x -> u8 (Z.land x (Z.lnot RTC_B_SET)) = Z.land x (Z.lnot RTC_B_SET).
Proof.
  intros Hx. apply Z.eqb_eq. revert x Hx.
  apply (byte_check
    (fun x => u8 (Z.land x (Z.lnot RTC_B_SET)) =? Z.land x (Z.lnot RTC_B_SET))).
  vm_compute. reflexivity.
Qed.

(** C7, as the code has it.  After a successful import of a 64-byte image,
    every cell other than Register B and the two read-only cells 0x0C and
    0x0D equals the imported byte; Register B holds the imported Register B
    byte with the SET bit cleared; and the two read-only cells are not
    written. *)
Theorem C7_load_cmos_image content h :
  wf h -> length content = 64%nat -> Forall is_byte content ->
  let h' := exec (load_cmos (Some content)) h in
  result (load_cmos (Some content)) h = 0 /\
  (forall a, 0 <= a < 64 ->
     a <> RTC_REG_B -> a <> RTC_REG_C -> a <> RTC_REG_D ->
     cell h' a = content !!! Z.to_nat a) /\
  cell h' RTC_REG_B =
    Z.land (content !!! Z.to_nat RTC_REG_B) (Z.lnot RTC_B_SET) /\
  (forall c, c = RTC_REG_C \/ c = RTC_REG_D ->
     writes_of c (trace h') = writes_of c (trace h) /\ cell h' c = cell h c).
Proof.
  intros Hwf Hlen Hbytes h'. subst h'.
  destruct (load_cmos_run content h Hlen) as [Hres Hexec].
  split; [exact Hres|]. rewrite Hexec. clear Hres Hexec.
  set (h1 := exec (cmos_write RTC_REG_B _) (exec (cmos_read RTC_REG_B) h)).
  assert (wf h1) as Hwf1 by (apply wf_cmos_write, wf_cmos_read, Hwf).
  set (body := write_body read_only (fun i => content !!! Z.to_nat i)).
  assert (wf (exec (for_each 64 0 body) h1)) as Hwf2
    by (apply wf_write_loop, Hwf1).
  assert (forall a, 0 <= a < 64 -> is_byte (content !!! Z.to_nat a)) as Hb.
  { intros a Ha. apply lookup_total_byte; [exact Hbytes | lia]. }
  split; [|split].
  - intros a Ha HB HC HD.
    rewrite cell_cmos_write by (unfold RTC_REG_B; first [apply Hwf2 | lia]).
    assert ((a =? RTC_REG_B) = false) as -> by (apply Z.eqb_neq; exact HB).
    subst body. rewrite write_loop_cell by (first [apply Hwf1 | lia]).
    unfold read_only.
    assert ((a =? RTC_REG_C) = false) as -> by (apply Z.eqb_neq; exact HC).
    assert ((a =? RTC_REG_D) = false) as -> by (apply Z.eqb_neq; exact HD).
    replace ((0 <=? a) && (a <? 0 + Z.of_nat 64)) with true
      by (symmetry; apply andb_true_iff; split;
          [apply Z.leb_le | apply Z.ltb_lt]; lia).
    cbn [andb orb negb]. apply u8_byte, Hb, Ha.
  - rewrite cell_cmos_write by (unfold RTC_REG_B; first [apply Hwf2 | lia]).
    rewrite Z.eqb_refl. apply clear_set_bit_byte, Hb. unfold RTC_REG_B. lia.
  - intros c Hc.
    assert (read_only c = true /\ c <> RTC_REG_B /\ 0 <= c < 64)
      as (Hro & HcB & Hrange).
    { destruct Hc as [-> | ->]; repeat split; try reflexivity;
        unfold RTC_REG_C, RTC_REG_D, RTC_REG_B; lia. }
    assert ((RTC_REG_B =? c) = false) as HBc by (apply Z.eqb_neq; congruence).
    assert ((c =? RTC_REG_B) = false) as HcB' by (apply Z.eqb_neq; exact HcB).
    split.
    + rewrite writes_cmos_write by (unfold RTC_REG_B; lia). rewrite HBc.
      subst body. rewrite write_loop_writes by lia. rewrite Hro.
      rewrite andb_false_r. subst h1.
      rewrite writes_cmos_write by (unfold RTC_REG_B; lia). rewrite HBc.
      rewrite writes_cmos_read. reflexivity.
    + rewrite cell_cmos_write by (unfold RTC_REG_B; first [apply Hwf2 | lia]).
      rewrite HcB'. subst body.
      rewrite write_loop_cell by (first [apply Hwf1 | lia]). rewrite Hro.
      rewrite andb_false_r. subst h1.
      rewrite cell_cmos_write
        by (unfold RTC_REG_B; first [rewrite length_cmos_read; apply Hwf | lia]).
      rewrite HcB'. apply cell_cmos_read.
Qed.

(** C7 excepts only cells 0x0C and 0x0D, but Register B is a third
    exception: after importing [sample_image] it differs from the imported
    byte. *)
Lemma C7_counterexample :
  ~ (forall a, 0 <= a < 64 -> a <> RTC_REG_C -> a <> RTC_REG_D ->
       cell (exec (load_cmos (Some sample_image)) sample_hw) a =
       sample_image !!! Z.to_nat a).
Proof.
  intros Hall.
  specialize (Hall RTC_REG_B ltac:(unfold RTC_REG_B; lia)
                   ltac:(discriminate) ltac:(discriminate)).
  vm_compute in Hall. discriminate.
Qed.

Lemma C7_witness :
  wf sample_hw /\ length sample_image = 64%nat /\
  Forall is_byte sample_image /\
  result (load_cmos (Some sample_image)) sample_hw = 0 /\
  cell (exec (load_cmos (Some sample_image)) sample_hw) RTC_REG_B =
    Z.land (sample_image !!! Z.to_nat RTC_REG_B) (Z.lnot RTC_B_SET).
Proof.
  assert (wf sample_hw) as Hwf by solve_wf.
  assert (Forall is_byte sample_image) as Hb
    by (unfold is_byte; repeat constructor; lia).
  split; [exact Hwf|]. split; [reflexivity|]. split; [exact Hb|].
  destruct (C7_load_cmos_image sample_image sample_hw Hwf eq_refl Hb)
    as (Hres & _ & HregB & _).
  split; [exact Hres | exact HregB].
Defined.

(** ** Range fill *)

Lemma cell_update_checksum a h :
  length (nvr h) = 64%nat -> 0 <= a < 64 ->
  cell (exec cmos_update_checksum h) a =
  if a =? CMOS_CHECKSUM_LO then sum_lo (checksum (nvr h))
  else if a =? CMOS_CHECKSUM_HI then sum_hi (checksum (nvr h))
  else cell h a.
Proof.
  intros Hlen Ha. unfold exec. rewrite cmos_update_checksum_run.
  cbn [snd]. unfold cell. cbn [nvr].
  destruct (Z.eqb_spec a CMOS_CHECKSUM_LO) as [->|HLO].
  - apply list_lookup_total_insert_eq. rewrite length_insert, Hlen.
    unfold CMOS_CHECKSUM_LO. lia.
  - rewrite list_lookup_total_insert_ne by (unfold CMOS_CHECKSUM_LO in HLO; lia).
    destruct (Z.eqb_spec a CMOS_CHECKSUM_HI) as [->|HHI].
    + apply list_lookup_total_insert_eq. rewrite Hlen.
      unfold CMOS_CHECKSUM_HI. lia.
    + apply list_lookup_total_insert_ne. unfold CMOS_CHECKSUM_HI in HHI. lia.
Qed.

Lemma writes_update_checksum c h :
  c <> CMOS_CHECKSUM_HI -> c <> CMOS_CHECKSUM_LO ->
  writes_of c (trace (exec cmos_update_checksum h)) = writes_of c (trace h).
Proof.
  intros HHI HLO. unfold exec. rewrite cmos_update_checksum_run.
  cbn [snd trace writes_of].
  assert ((0x2F =? c) = false) as ->
    by (apply Z.eqb_neq; unfold CMOS_CHECKSUM_LO in HLO; congruence).
  assert ((0x2E =? c) = false) as ->
    by (apply Z.eqb_neq; unfold CMOS_CHECKSUM_HI in HHI; congruence).
  apply writes_of_loop_reads.
Qed.

Lemma fill_cmos_run start end_ val h :
  0 <= start <= end_ -> end_ < 64 -> 0 <= val <= 255 ->
  result (fill_cmos start end_ val) h = 0 /\
  exec (fill_cmos start end_ val) h =
  exec cmos_update_checksum
    (exec (for_each (Z.to_nat (end_ + 1 - start)) start
             (write_body read_only (fun _ => val))) h).
Proof.
  intros Hs He Hv. unfold fill_cmos.
  assert ((start >=? CMOS_SIZE) || (end_ >=? CMOS_SIZE) || (start >? end_)
          = false) as ->.
  { unfold CMOS_SIZE. rewrite !Z.geb_leb, Z.gtb_ltb, !orb_false_iff.
    repeat split; [apply Z.leb_gt | apply Z.leb_gt | apply Z.ltb_ge]; lia. }
  assert ((val >? 0xFF) = false) as ->
    by (rewrite Z.gtb_ltb; apply Z.ltb_ge; lia).
  rewrite !result_bind, !exec_bind, result_ret, exec_ret.
  split; reflexivity.
Qed.

(** C10, as the code has it.  For valid arguments [fill_cmos] never writes
    cells 0x0C and 0x0D, which keep their content; every other cell of
    [start, end] receives the value, except the two checksum cells 0x2E and
    0x2F, which the closing checksum update overwrites with the recomputed
    sum. *)
Theorem C10_fill_cmos_skips_read_only start end_ val h :
  wf h -> 0 <= start <= end_ -> end_ < 64 -> 0 <= val <= 255 ->
  let h' := exec (fill_cmos start end_ val) h in
  result (fill_cmos start end_ val) h = 0 /\
  (forall c, c = RTC_REG_C \/ c = RTC_REG_D ->
     writes_of c (trace h') = writes_of c (trace h) /\ cell h' c = cell h c) /\
  (forall a, start <= a <= end_ ->
     a <> RTC_REG_C -> a <> RTC_REG_D ->
     a <> CMOS_CHECKSUM_HI -> a <> CMOS_CHECKSUM_LO ->
     cell h' a = val) /\
  result cmos_verify_checksum h' = true.
Proof.
  intros Hwf Hs He Hv h'. subst h'.
  destruct (fill_cmos_run start end_ val h Hs He Hv) as [Hres Hexec].
  split; [exact Hres|]. rewrite Hexec. clear Hres Hexec.
  set (n := Z.to_nat (end_ + 1 - start)).
  assert (start + Z.of_nat n <= 64) as Hn by (subst n; lia).
  assert (wf (exec (for_each n start (write_body read_only (fun _ => val))) h))
    as Hwf1 by (apply wf_write_loop, Hwf).
  split; [|split].
  - intros c Hc.
    assert (read_only c = true /\ 0 <= c < 64 /\
            c <> CMOS_CHECKSUM_HI /\ c <> CMOS_CHECKSUM_LO)
      as (Hro & Hrange & HHI & HLO).
    { destruct Hc as [-> | ->]; repeat split; try reflexivity;
        unfold RTC_REG_C, RTC_REG_D; try lia; discriminate. }
    split.
    + rewrite writes_update_checksum by assumption.
      rewrite write_loop_writes by lia. rewrite Hro, andb_false_r. reflexivity.
    + rewrite cell_update_checksum by (first [apply Hwf1 | lia]).
      assert ((c =? CMOS_CHECKSUM_LO) = false) as ->
        by (apply Z.eqb_neq; exact HLO).
      assert ((c =? CMOS_CHECKSUM_HI) = false) as ->
        by (apply Z.eqb_neq; exact HHI).
      rewrite write_loop_cell by (first [apply Hwf | lia]).
      rewrite Hro, andb_false_r. reflexivity.
  - intros a Ha HC HD HHI HLO.
    rewrite cell_update_checksum by (first [apply Hwf1 | lia]).
    assert ((a =? CMOS_CHECKSUM_LO) = false) as ->
      by (apply Z.eqb_neq; exact HLO).
    assert ((a =? CMOS_CHECKSUM_HI) = false) as ->
      by (apply Z.eqb_neq; exact HHI).
    rewrite write_loop_cell by (first [apply Hwf | lia]).
    unfold read_only.
    assert ((a =? RTC_REG_C) = false) as -> by (apply Z.eqb_neq; exact HC).
    assert ((a =? RTC_REG_D) = false) as -> by (apply Z.eqb_neq; exact HD).
    replace ((start <=? a) && (a <? start + Z.of_nat n)) with true
      by (symmetry; apply andb_true_iff; split;
          [apply Z.leb_le | apply Z.ltb_lt]; subst n; lia).
    cbn [andb orb negb]. apply u8_byte. unfold is_byte. lia.
  - apply update_then_verify, Hwf1.
Qed.

(** C10 excepts only cells 0x0C and 0x0D, but filling 0x2E..0x2F with 0xFF
    leaves the checksum of the covered range in those two cells, not 0xFF. *)
Lemma C10_counterexample :
  ~ (forall a, 0x2E <= a <= 0x2F -> a <> RTC_REG_C -> a <> RTC_REG_D ->
       cell (exec (fill_cmos 0x2E 0x2F 0xFF) sample_hw) a = 0xFF).
Proof.
  intros Hall.
  specialize (Hall 0x2E ltac:(lia) ltac:(discriminate) ltac:(discriminate)).
  vm_compute in Hall. discriminate.
Qed.

Lemma C10_witness :
  wf sample_hw /\
  result (fill_cmos 0x0A 0x10 0x55) sample_hw = 0 /\
  cell (exec (fill_cmos 0x0A 0x10 0x55) sample_hw) RTC_REG_C =
    cell sample_hw RTC_REG_C /\
  cell (exec (fill_cmos 0x0A 0x10 0x55) sample_hw) CMOS_DIAG = 0x55.
Proof.
  assert (wf sample_hw) as Hwf by solve_wf.
  split; [exact Hwf|].
  destruct (C10_fill_cmos_skips_read_only 0x0A 0x10 0x55 sample_hw Hwf
              ltac:(lia) ltac:(lia) ltac:(lia))
    as (Hres & Hro & Hfill & _).
  split; [exact Hres|]. split.
  - apply (Hro RTC_REG_C). left. reflexivity.
  - apply Hfill; unfold CMOS_DIAG; [lia | discriminate ..].
Defined.

(** ** Factory reset *)

Ltac explode_store s Hlen :=
  do 64 (destruct s as [|? s]; [discriminate Hlen|]);
  destruct s; [|discriminate Hlen].

Lemma nvr_update_checksum h :
  nvr (exec cmos_update_checksum h) = with_checksum (nvr h).
Proof. unfold exec. rewrite cmos_update_checksum_run. reflexivity. Qed.

Lemma factory_reset_exec h :
  length (nvr h) = 64%nat ->
  exists i t,
    exec factory_reset h =
    exec cmos_update_checksum
      (Hw (with_defaults (nvr h)) i (pb h) (sysstat2 h) (stat2_hi h) t).
Proof.
  intros Hlen. destruct h as [s i p ss sh t].
  cbn [nvr pb sysstat2 stat2_hi] in *.
  unfold factory_reset.
  change (Z.to_nat (0x2D + 1 - 0x1B)) with 19%nat.
  change (Z.to_nat (0x3F + 1 - 0x33)) with 13%nat.
  cbn [for_each]. run. ca_norm.
  match goal with
  | |- exists _ _, exec _ (Hw ?L ?i' _ _ _ ?t') = _ =>
      exists i', t'; replace L with (with_defaults s); [reflexivity|]
  end.
  explode_store s Hlen. vm_compute. reflexivity.
Qed.

Lemma fold_inserts_wf (tbl : list (Z * Z)) : forall s,
  List.forallb (fun p => (0 <=? snd p) && (snd p <? 256)) tbl = true ->
  Forall is_byte s ->
  let s' := List.fold_left (fun s p => <[Z.to_nat (fst p) := snd p]> s) tbl s in
  length s' = length s /\ Forall is_byte s'.
Proof.
  induction tbl as [|[a v] tbl IH]; intros s Hok Hb; cbn [List.fold_left].
  - split; [reflexivity | exact Hb].
  - cbn [List.forallb fst snd] in *.
    apply andb_true_iff in Hok as [Hv Hok].
    apply andb_true_iff in Hv as [Hv0 Hv1].
    apply Z.leb_le in Hv0. apply Z.ltb_lt in Hv1.
    destruct (IH (<[Z.to_nat a := v]> s) Hok) as [Hlen Hb'].
    + apply Forall_insert; [exact Hb | unfold is_byte; lia].
    + rewrite length_insert in Hlen. split; assumption.
Qed.

Lemma with_defaults_wf s :
  Forall is_byte s ->
  length (with_defaults s) = length s /\ Forall is_byte (with_defaults s).
Proof.
  intros Hb. apply (fold_inserts_wf factory_defaults s); [|exact Hb].
  vm_compute. reflexivity.
Qed.

(** The defaults do not touch the checksum cells, and writing them again
    changes nothing. *)
Lemma with_defaults_again s a b :
  length s = 64%nat ->
  with_defaults (<[47%nat := a]> (<[46%nat := b]> (with_defaults s))) =
  <[47%nat := a]> (<[46%nat := b]> (with_defaults s)).
Proof. intros Hlen. explode_store s Hlen. vm_compute. reflexivity. Qed.

Lemma with_checksum_again s :
  with_checksum (with_checksum s) = with_checksum s.
Proof.
  unfold with_checksum at 1.
  assert (checksum (with_checksum s) = checksum s) as ->.
  { unfold with_checksum. rewrite !checksum_insert_out by lia. reflexivity. }
  unfold with_checksum.
  rewrite (list_insert_insert_ne _ 46 47) by lia.
  rewrite !list_insert_insert_eq. reflexivity.
Qed.

Lemma nvr_factory_reset h :
  length (nvr h) = 64%nat ->
  nvr (exec factory_reset h) = with_checksum (with_defaults (nvr h)).
Proof.
  intros Hlen. destruct (factory_reset_exec h Hlen) as (i & t & ->).
  apply nvr_update_checksum.
Qed.

Lemma wf_factory_reset h : wf h -> wf (exec factory_reset h).
Proof.
  intros Hwf. pose proof Hwf as (Hlen & Hb & Hrest).
  destruct (factory_reset_exec h Hlen) as (i & t & ->).
  apply wf_update_checksum. unfold wf. cbn [nvr pb sysstat2 stat2_hi].
  destruct (with_defaults_wf (nvr h) Hb) as [Hlen' Hb'].
  rewrite Hlen'. repeat split; try assumption; apply Hrest.
Qed.

Lemma verify_after_factory_reset h :
  wf h -> result cmos_verify_checksum (exec factory_reset h) = true.
Proof.
  intros Hwf. pose proof Hwf as (Hlen & Hb & _).
  destruct (factory_reset_exec h Hlen) as (i & t & ->).
  apply update_then_verify. cbn [nvr].
  destruct (with_defaults_wf (nvr h) Hb) as [Hlen' _].
  rewrite Hlen'. exact Hlen.
Qed.

(** C8.  [factory_reset] is idempotent on the store: a second run leaves
    the store as the first run left it, and the checksum verifies after
    each run. *)
Theorem C8_factory_reset_idempotent h :
  wf h ->
  let h1 := exec factory_reset h in
  let h2 := exec factory_reset h1 in
  nvr h2 = nvr h1 /\
  result cmos_verify_checksum h1 = true /\
  result cmos_verify_checksum h2 = true.
Proof.
  intros Hwf h1 h2. subst h1 h2.
  pose proof (wf_factory_reset h Hwf) as Hwf1.
  split; [|split].
  - rewrite (nvr_factory_reset (exec factory_reset h)) by apply Hwf1.
    rewrite (nvr_factory_reset h) by apply Hwf.
    unfold with_checksum at 2.
    rewrite with_defaults_again by apply Hwf.
    apply with_checksum_again.
  - apply verify_after_factory_reset, Hwf.
  - apply verify_after_factory_reset, Hwf1.
Qed.

Lemma C8_witness :
  wf sample_hw /\
  nvr (exec factory_reset (exec factory_reset sample_hw)) =
    nvr (exec factory_reset sample_hw) /\
  result cmos_verify_checksum (exec factory_reset sample_hw) = true.
Proof.
  assert (wf sample_hw) as Hwf by solve_wf.
  split; [exact Hwf|].
  destruct (C8_factory_reset_idempotent sample_hw Hwf) as (Hsame & Hok & _).
  split; [exact Hsame | exact Hok].
Defined.

(** * Further properties *)

(** ** Tools *)

(** Write the indices of list updates as numerals. *)
Ltac nat_norm :=
  repeat match goal with
         | |- context [Z.to_nat (Zpos ?p)] =>
             let n := eval vm_compute in (Z.to_nat (Zpos p)) in
             change (Z.to_nat (Zpos p)) with n
         | |- context [Z.to_nat Z0] => change (Z.to_nat Z0) with O
         end.

(** Resolve lookups in a store given by updates at constant indices. *)
Ltac look :=
  repeat first
    [ rewrite list_lookup_total_insert_eq by (rewrite ?length_insert; lia)
    | rewrite list_lookup_total_insert_ne by lia ].

Lemma result_verify h :
  result cmos_verify_checksum h = valid_checksum (nvr h).
Proof. apply cmos_verify_checksum_run. Qed.

Lemma exec_verify h :
  exec cmos_verify_checksum h =
  Hw (nvr h) CMOS_CHECKSUM_LO (pb h) (sysstat2 h) (stat2_hi h)
     (Rd CMOS_CHECKSUM_LO :: Rd CMOS_CHECKSUM_HI ::
      loop_reads 30 0x10 (trace h)).
Proof.
  unfold cmos_verify_checksum.
  rewrite exec_bind. unfold result at 1, exec at 2.
  rewrite cmos_calc_checksum_run. cbn [fst snd].
  rewrite exec_bind, exec_cmos_read, result_cmos_read.
  cbn [nvr idx pb sysstat2 stat2_hi trace].
  rewrite exec_bind, exec_cmos_read. reflexivity.
Qed.

Lemma valid_checksum_insert_out s k v :
  (k < 16 \/ 48 <= k)%nat ->
  valid_checksum (<[k := v]> s) = valid_checksum s.
Proof.
  intros Hk. unfold valid_checksum.
  rewrite checksum_insert_out by lia.
  rewrite !list_lookup_total_insert_ne by lia. reflexivity.
Qed.

Lemma checksum_exact s :
  length s = 64%nat -> Forall is_byte s ->
  checksum s = plain_sum s 30 0x10 /\ 0 <= plain_sum s 30 0x10 <= 7650.
Proof.
  intros Hlen Hb.
  pose proof (plain_sum_bound s 30 0x10 Hb ltac:(lia) ltac:(lia)) as B.
  split; [|lia]. rewrite checksum_plain. apply u16_small. lia.
Qed.

(** ** The checksum engine, continued *)

(** X1.  The checksum loop returns the plain arithmetic sum of cells
    0x10..0x2D: with byte-valued cells the 16-bit accumulator never wraps,
    the sum is at most 30 * 255; the loop only reads. *)
Theorem X1_calc_checksum_is_exact_sum h :
  wf h ->
  result cmos_calc_checksum h = plain_sum (nvr h) 30 0x10 /\
  0 <= result cmos_calc_checksum h <= 7650 /\
  no_write h (exec cmos_calc_checksum h).
Proof.
  intros (Hlen & Hb & _).
  unfold result, exec. rewrite cmos_calc_checksum_run. cbn [fst snd].
  destruct (checksum_exact (nvr h) Hlen Hb) as [-> B].
  split; [reflexivity|]. split; [exact B|].
  split; [reflexivity|]. intros c. cbn [trace]. apply writes_of_loop_reads.
Qed.

Lemma X1_witness :
  wf sample_hw /\ result cmos_calc_checksum sample_hw = 537.
Proof.
  assert (wf sample_hw) as Hwf by solve_wf.
  split; [exact Hwf|].
  destruct (X1_calc_checksum_is_exact_sum sample_hw Hwf) as (Hsum & _).
  rewrite Hsum. reflexivity.
Defined.

(** X2.  [cmos_update_checksum] changes no cell other than 0x2E and 0x2F,
    and a second update right after the first leaves the store as it is. *)
Theorem X2_update_checksum_frame_and_idempotent h :
  wf h ->
  (forall a, 0 <= a < 64 -> a <> CMOS_CHECKSUM_HI -> a <> CMOS_CHECKSUM_LO ->
     cell (exec cmos_update_checksum h) a = cell h a) /\
  nvr (exec cmos_update_checksum (exec cmos_update_checksum h)) =
    nvr (exec cmos_update_checksum h).
Proof.
  intros (Hlen & _). split.
  - intros a Ha HHI HLO. rewrite cell_update_checksum by assumption.
    apply Z.eqb_neq in HHI, HLO. rewrite HHI, HLO. reflexivity.
  - rewrite !nvr_update_checksum. apply with_checksum_again.
Qed.

Lemma X2_witness :
  wf sample_hw /\
  cell (exec cmos_update_checksum sample_hw) CMOS_EQUIP =
    cell sample_hw CMOS_EQUIP.
Proof.
  assert (wf sample_hw) as Hwf by solve_wf.
  split; [exact Hwf|].
  destruct (X2_update_checksum_frame_and_idempotent sample_hw Hwf) as (Hframe & _).
  apply Hframe; unfold CMOS_EQUIP; [lia | discriminate | discriminate].
Defined.

(** X3.  The [checksum] command leaves a valid checksum behind; when the
    checksum was already valid it says so and writes nothing. *)
Theorem X3_checksum_command_repairs h :
  wf h ->
  result cmos_verify_checksum (exec checksum_command h) = true /\
  result checksum_command h = result cmos_verify_checksum h /\
  (result cmos_verify_checksum h = true -> no_write h (exec checksum_command h)).
Proof.
  intros Hwf. unfold checksum_command.
  rewrite exec_bind, result_bind.
  destruct (result cmos_verify_checksum h) eqn:Hok.
  - rewrite exec_ret, result_ret. rewrite exec_verify.
    split; [|split; [reflexivity|]].
    + rewrite result_verify in *. exact Hok.
    + intros _. split; [reflexivity|]. intros c. cbn [trace writes_of].
      unfold CMOS_CHECKSUM_LO, CMOS_CHECKSUM_HI. cbn [writes_of].
      apply writes_of_loop_reads.
  - rewrite exec_bind, exec_ret, result_bind, result_ret.
    split; [|split; [reflexivity | discriminate]].
    apply update_then_verify. rewrite exec_verify. cbn [nvr]. apply Hwf.
Qed.

Lemma X3_witness :
  wf sample_hw /\
  result cmos_verify_checksum sample_hw = false /\
  result cmos_verify_checksum (exec checksum_command sample_hw) = true.
Proof.
  assert (wf sample_hw) as Hwf by solve_wf.
  split; [exact Hwf|]. split; [reflexivity|].
  apply (X3_checksum_command_repairs sample_hw Hwf).
Defined.

(** Run an operation and show that its updates, all at constant cells
    outside 0x10..0x2F, leave the verdict on the checksum as it was. *)
Ltac keeps_verdict :=
  split_branches; run; ca_norm; nat_norm;
  rewrite ?valid_checksum_insert_out by lia; reflexivity.

(** X4.  The clock, alarm, diagnostic and control-register operations write
    only outside 0x10..0x2F, so whatever they are given, and whether they
    succeed or reject, [cmos_verify_checksum] answers afterwards as it did
    before; the same holds for a raw write outside that range. *)
Theorem X4_clock_operations_keep_checksum_verdict h :
  (forall p, result cmos_verify_checksum (exec (set_time p) h) =
             result cmos_verify_checksum h) /\
  (forall p, result cmos_verify_checksum (exec (set_date p) h) =
             result cmos_verify_checksum h) /\
  (forall d, result cmos_verify_checksum (exec (set_dow d) h) =
             result cmos_verify_checksum h) /\
  (forall p, result cmos_verify_checksum (exec (set_alarm p) h) =
             result cmos_verify_checksum h) /\
  (forall e, result cmos_verify_checksum (exec (alarm_enable e) h) =
             result cmos_verify_checksum h) /\
  (forall m v, result cmos_verify_checksum (exec (set_rtc_mode m v) h) =
               result cmos_verify_checksum h) /\
  result cmos_verify_checksum (exec clear_diagnostics h) =
    result cmos_verify_checksum h /\
  (forall a v, 0 <= a < 0x10 \/ 0x30 <= a ->
     result cmos_verify_checksum (exec (raw_write a v) h) =
     result cmos_verify_checksum h).
Proof.
  destruct h as [s i p ss sh t].
  split. { intros [[[hrs min] sec]|]; rewrite !result_verify;
           unfold set_time; keeps_verdict. }
  split. { intros [[[day mon] year]|]; rewrite !result_verify;
           unfold set_date; cbv zeta; keeps_verdict. }
  split. { intros d. rewrite !result_verify. unfold set_dow. keeps_verdict. }
  split. { intros [[[hrs min] sec]|]; rewrite !result_verify;
           unfold set_alarm; keeps_verdict. }
  split. { intros e. rewrite !result_verify. unfold alarm_enable. cbv zeta.
           keeps_verdict. }
  split. { intros m v. rewrite !result_verify. unfold set_rtc_mode. cbv zeta.
           keeps_verdict. }
  split. { rewrite !result_verify. unfold clear_diagnostics. keeps_verdict. }
  intros a v Ha. rewrite !result_verify. unfold raw_write.
  destruct (Z.geb_spec a CMOS_SIZE) as [Hge|Hlt]; [run; reflexivity|].
  destruct (v >? 0xFF); [run; reflexivity|].
  unfold CMOS_SIZE in Hlt.
  replace ((a >=? 0x10) && (a <=? 0x2D)) with false
    by (symmetry; apply andb_false_iff; zcases; lia).
  run. rewrite (ca_small a) by lia.
  apply valid_checksum_insert_out. lia.
Qed.

Lemma X4_witness :
  (0 <= 0x0E < 0x10 \/ 0x30 <= 0x0E) /\
  result cmos_verify_checksum (exec (raw_write 0x0E 0x80) sample_hw) =
  result cmos_verify_checksum sample_hw.
Proof.
  assert (0 <= 0x0E < 0x10 \/ 0x30 <= 0x0E) as Ha by (left; lia).
  split; [exact Ha|].
  apply (X4_clock_operations_keep_checksum_verdict sample_hw); exact Ha.
Defined.

(** ** Raw access *)




(** ** The RTC codec under the mode bit of Register B *)

Lemma result_bin_to_rtc_enc v h :
  result (bin_to_rtc v) h = enc (cell h RTC_REG_B) v.
Proof. reflexivity. Qed.

Lemma result_rtc_to_bin_dec v h :
  result (rtc_to_bin v) h = dec (cell h RTC_REG_B) v.
Proof. reflexivity. Qed.

(** Symbolic execution that keeps the codec folded. *)
Ltac crun1 :=
  first
    [ match goal with
      | |- context [result (bin_to_rtc ?v) ?h] =>
          simple_state h; rewrite (result_bin_to_rtc_enc v h)
      | |- context [result (rtc_to_bin ?v) ?h] =>
          simple_state h; rewrite (result_rtc_to_bin_dec v h)
      end
    | run1 ].

Ltac crun := repeat (crun1; hw_simpl).

(** Indices of list updates as numerals, constants included. *)
Ltac idx_norm :=
  repeat match goal with
         | |- context [Z.to_nat ?a] =>
             let v := eval vm_compute in a in
             match v with
             | Z0 => idtac
             | Zpos _ => idtac
             end;
             let n := eval vm_compute in (Z.to_nat a) in
             progress change (Z.to_nat a) with n
         end.

Lemma enc_is_byte r v : is_byte (enc r v).
Proof.
  unfold enc. destruct (_ =? _); [unfold bin_to_bcd|]; apply u8_is_byte.
Qed.

Lemma u8_enc r v : u8 (enc r v) = enc r v.
Proof. apply u8_byte, enc_is_byte. Qed.

Lemma land_set_bit r m :
  is_byte r -> 0 <= m < 128 ->
  Z.land (u8 (u8 (Z.lor r RTC_B_SET))) m = Z.land r m.
Proof.
  intros Hr Hm. apply Z.eqb_eq. revert r m Hr Hm.
  apply (range_check2
    (fun r m => Z.land (u8 (u8 (Z.lor r RTC_B_SET))) m =? Z.land r m)
    256 128).
  vm_compute. reflexivity.
Qed.

Lemma land_clear_set_bit r m :
  is_byte r -> 0 <= m < 128 ->
  Z.land (Z.land r (Z.lnot RTC_B_SET)) m = Z.land r m.
Proof.
  intros Hr Hm. apply Z.eqb_eq. revert r m Hr Hm.
  apply (range_check2
    (fun r m => Z.land (Z.land r (Z.lnot RTC_B_SET)) m =? Z.land r m)
    256 128).
  vm_compute. reflexivity.
Qed.

Lemma u8_clear_set_bit r :
  is_byte r -> u8 (u8 (Z.land r (Z.lnot RTC_B_SET))) = Z.land r (Z.lnot RTC_B_SET).
Proof. intros Hr. rewrite u8_idem. apply clear_set_bit_byte. exact Hr. Qed.

Lemma enc_set r v : is_byte r -> enc (u8 (u8 (Z.lor r RTC_B_SET))) v = enc r v.
Proof.
  intros Hr. unfold enc.
  rewrite land_set_bit by (assumption || (unfold RTC_B_DM; lia)). reflexivity.
Qed.

Lemma dec_clear r v : is_byte r -> dec (Z.land r (Z.lnot RTC_B_SET)) v = dec r v.
Proof.
  intros Hr. unfold dec.
  rewrite land_clear_set_bit by (assumption || (unfold RTC_B_DM; lia)).
  reflexivity.
Qed.

Lemma dec_enc r v : 0 <= v <= 99 -> dec r (enc r v) = v.
Proof.
  intros Hv. unfold dec, enc. destruct (_ =? _).
  - rewrite (u8_byte v) by (unfold is_byte; lia).
    rewrite (u8_byte (bin_to_bcd v)) by (unfold bin_to_bcd; apply u8_is_byte).
    apply bcd_roundtrip. exact Hv.
  - rewrite u8_idem. apply u8_byte. unfold is_byte. lia.
Qed.

(** The code of a number below 100 is at most 0x99: its two top bits are
    never both set, so it is no wildcard. *)
Lemma enc_below_wildcard r v : 0 <= v <= 99 -> 0 <= enc r v < 0xC0.
Proof.
  intros Hv. unfold enc. destruct (_ =? _).
  - assert ((0 <=? bin_to_bcd (u8 v)) && (bin_to_bcd (u8 v) <? 0xC0) = true) as H.
    { apply (range_check
        (fun v => (0 <=? bin_to_bcd (u8 v)) && (bin_to_bcd (u8 v) <? 0xC0)) 100);
        [vm_compute; reflexivity | lia]. }
    apply andb_true_iff in H. destruct H as [H1 H2].
    apply Z.leb_le in H1. apply Z.ltb_lt in H2. lia.
  - rewrite u8_byte by (unfold is_byte; lia). lia.
Qed.

(** The code of an hour 0..23 has a clear top bit. *)
Lemma enc_hour_bits r v :
  0 <= v <= 23 -> Z.land (enc r v) 0x80 = 0 /\ Z.land (enc r v) 0x7F = enc r v.
Proof.
  intros Hv. unfold enc. destruct (_ =? _).
  - assert ((Z.land (bin_to_bcd (u8 v)) 0x80 =? 0) &&
            (Z.land (bin_to_bcd (u8 v)) 0x7F =? bin_to_bcd (u8 v)) = true) as H.
    { apply (range_check
        (fun v => (Z.land (bin_to_bcd (u8 v)) 0x80 =? 0) &&
                  (Z.land (bin_to_bcd (u8 v)) 0x7F =? bin_to_bcd (u8 v))) 24);
        [vm_compute; reflexivity | lia]. }
    apply andb_true_iff in H. destruct H as [H1 H2].
    apply Z.eqb_eq in H1, H2. split; assumption.
  - assert ((Z.land (u8 v) 0x80 =? 0) && (Z.land (u8 v) 0x7F =? u8 v) = true) as H.
    { apply (range_check
        (fun v => (Z.land (u8 v) 0x80 =? 0) && (Z.land (u8 v) 0x7F =? u8 v)) 24);
        [vm_compute; reflexivity | lia]. }
    apply andb_true_iff in H. destruct H as [H1 H2].
    apply Z.eqb_eq in H1, H2. split; assumption.
Qed.

Lemma cell_nvr h a : cell h a = nvr h !!! Z.to_nat a.
Proof. reflexivity. Qed.

(** ** Setting and showing the clock *)

Lemma set_time_run hrs min sec h :
  length (nvr h) = 64%nat -> is_byte (cell h RTC_REG_B) ->
  0 <= hrs <= 23 -> 0 <= min <= 59 -> 0 <= sec <= 59 ->
  result (set_time (Some (hrs, min, sec))) h = 0 /\
  nvr (exec (set_time (Some (hrs, min, sec))) h) =
  <[11%nat := Z.land (cell h RTC_REG_B) (Z.lnot RTC_B_SET)]>
    (<[4%nat := enc (cell h RTC_REG_B) hrs]>
       (<[2%nat := enc (cell h RTC_REG_B) min]>
          (<[0%nat := enc (cell h RTC_REG_B) sec]>
             (<[11%nat := u8 (Z.lor (cell h RTC_REG_B) RTC_B_SET)]> (nvr h))))).
Proof.
  intros Hlen Hb Hh Hm Hs. destruct h as [s i p ss sh t].
  cbn [nvr] in Hlen. rewrite cell_Hw in *. cbn [nvr].
  unfold set_time.
  replace ((hrs <? 0) || (hrs >? 23) || (min <? 0) || (min >? 59) ||
           (sec <? 0) || (sec >? 59)) with false
    by (symmetry; rewrite !orb_false_iff; zcases; repeat split; lia).
  crun. split; [reflexivity|].
  ca_norm. idx_norm. look. change (is_byte (s !!! 11%nat)) in Hb.
  rewrite !(enc_set _ _ Hb), !u8_idem, !u8_enc.
  rewrite (clear_set_bit_byte _ Hb). reflexivity.
Qed.

(** Look a cell up in a store given by updates at constant cells. *)
Ltac cell_lookup Hnvr :=
  rewrite cell_nvr, Hnvr; idx_norm; look; try reflexivity.

(** X7.  After [set_time] has accepted h:m:s, [show_time] reports the
    minutes and seconds just set and leaves the date fields as they were;
    Register B is back with its SET bit cleared.  The hour reads back as set
    when the clock runs in 24-hour mode; in 12-hour mode [set_time] stores
    the hour without a PM bit, so 12 is shown as 0 and every other hour as
    set. *)
Theorem X7_set_time_then_show_time hrs min sec h :
  wf h -> 0 <= hrs <= 23 -> 0 <= min <= 59 -> 0 <= sec <= 59 ->
  result (set_time (Some (hrs, min, sec))) h = 0 /\
  t_sec (result show_time (exec (set_time (Some (hrs, min, sec))) h)) = sec /\
  t_min (result show_time (exec (set_time (Some (hrs, min, sec))) h)) = min /\
  t_hrs (result show_time (exec (set_time (Some (hrs, min, sec))) h)) =
    (if nz (Z.land (cell h RTC_REG_B) RTC_B_24H) then hrs
     else if hrs =? 12 then 0 else hrs) /\
  t_regb (result show_time (exec (set_time (Some (hrs, min, sec))) h)) =
    Z.land (cell h RTC_REG_B) (Z.lnot RTC_B_SET) /\
  (let shown := result show_time (exec (set_time (Some (hrs, min, sec))) h) in
   (t_dow shown, t_dom shown, t_mon shown, t_yr shown, t_cen shown)) =
  (let before := result show_time h in
   (t_dow before, t_dom before, t_mon before, t_yr before, t_cen before)).
Proof.
  intros (Hlen & Hbytes & _) Hh Hm Hs.
  assert (is_byte (cell h RTC_REG_B)) as Hb
    by (apply lookup_total_byte;
        [exact Hbytes | rewrite Hlen; unfold RTC_REG_B; lia]).
  destruct (set_time_run hrs min sec h Hlen Hb Hh Hm Hs) as [Hres Hnvr].
  split; [exact Hres|].
  set (h' := exec (set_time (Some (hrs, min, sec))) h) in *.
  set (r := cell h RTC_REG_B) in *.
  assert (cell h' RTC_REG_B = Z.land r (Z.lnot RTC_B_SET)) as HB
    by cell_lookup Hnvr.
  assert (cell h' RTC_SECONDS = enc r sec) as H0 by cell_lookup Hnvr.
  assert (cell h' RTC_MINUTES = enc r min) as H2 by cell_lookup Hnvr.
  assert (cell h' RTC_HOURS = enc r hrs) as H4 by cell_lookup Hnvr.
  assert (forall a, In a [RTC_DAY_OF_WEEK; RTC_DAY_OF_MONTH; RTC_MONTH;
                          RTC_YEAR; CMOS_CENTURY] -> cell h' a = cell h a) as Hd.
  { intros a Ha. cbn [In] in Ha.
    repeat (destruct Ha as [<-|Ha]; [cell_lookup Hnvr|]). destruct Ha. }
  cbv zeta. rewrite (show_time_result h'), (show_time_result h).
  cbn [t_sec t_min t_hrs t_regb t_dow t_dom t_mon t_yr t_cen].
  rewrite shown_hours_eq. cbv zeta.
  rewrite !result_rtc_to_bin_dec, HB, H0, H2, H4.
  rewrite !(dec_clear _ _ Hb).
  rewrite (land_clear_set_bit _ _ Hb) by (unfold RTC_B_24H; lia).
  destruct (enc_hour_bits r hrs Hh) as [Hpm Hlow]. rewrite Hpm, Hlow.
  rewrite !dec_enc by lia.
  rewrite !Hd by (cbn [In]; tauto).
  split; [reflexivity|]. split; [reflexivity|]. split; [reflexivity|].
  split; reflexivity.
Qed.

Lemma X7_witness :
  wf sample_hw_12h /\ 0 <= 12 <= 23 /\ 0 <= 30 <= 59 /\ 0 <= 15 <= 59 /\
  t_min (result show_time (exec (set_time (Some (12, 30, 15))) sample_hw_12h)) = 30 /\
  t_hrs (result show_time (exec (set_time (Some (12, 30, 15))) sample_hw_12h)) = 0.
Proof.
  assert (wf sample_hw_12h) as Hwf by solve_wf.
  split; [exact Hwf|]. split; [lia|]. split; [lia|]. split; [lia|].
  destruct (X7_set_time_then_show_time 12 30 15 sample_hw_12h Hwf
              ltac:(lia) ltac:(lia) ltac:(lia))
    as (_ & _ & Hmin & Hhrs & _).
  split; [exact Hmin | exact Hhrs].
Defined.

Lemma regb_is_byte h : wf h -> is_byte (cell h RTC_REG_B).
Proof.
  intros (Hlen & Hbytes & _). apply lookup_total_byte;
    [exact Hbytes | rewrite Hlen; unfold RTC_REG_B; lia].
Qed.

Lemma set_date_run day mon year h :
  length (nvr h) = 64%nat -> is_byte (cell h RTC_REG_B) ->
  1 <= day <= 31 -> 1 <= mon <= 12 -> 1980 <= year <= 2099 ->
  result (set_date (Some (day, mon, year))) h = 0 /\
  nvr (exec (set_date (Some (day, mon, year))) h) =
  <[11%nat := Z.land (cell h RTC_REG_B) (Z.lnot RTC_B_SET)]>
    (<[50%nat := enc (cell h RTC_REG_B) (year / 100)]>
       (<[9%nat := enc (cell h RTC_REG_B) (year mod 100)]>
          (<[8%nat := enc (cell h RTC_REG_B) mon]>
             (<[7%nat := enc (cell h RTC_REG_B) day]>
                (<[11%nat := u8 (Z.lor (cell h RTC_REG_B) RTC_B_SET)]>
                   (nvr h)))))).
Proof.
  intros Hlen Hb Hd Hm Hy. destruct h as [s i p ss sh t].
  cbn [nvr] in Hlen. rewrite cell_Hw in *. cbn [nvr].
  unfold set_date.
  replace ((day <? 1) || (day >? 31) || (mon <? 1) || (mon >? 12) ||
           (year <? 1980) || (year >? 2099)) with false
    by (symmetry; rewrite !orb_false_iff; zcases; repeat split; lia).
  cbv zeta. crun. split; [reflexivity|].
  ca_norm. idx_norm. look. change (is_byte (s !!! 11%nat)) in Hb.
  rewrite !(enc_set _ _ Hb), !u8_idem, !u8_enc.
  rewrite (clear_set_bit_byte _ Hb).
  assert (0 <= year / 100 < 256) by (split; [apply Z.div_pos; lia|
    apply Z.div_lt_upper_bound; lia]).
  assert (0 <= year mod 100 < 100) by (apply Z.mod_pos_bound; lia).
  unfold enc.
  rewrite !(u8_byte (year / 100)), !(u8_byte (year mod 100))
    by (unfold is_byte; lia).
  reflexivity.
Qed.

(** X8.  After [set_date] has accepted day/month/year, [show_time] reports
    that day and month, and the century and two-digit year it prints side
    by side make up the year that was set; the time of day and the day of
    the week are shown as before. *)
Theorem X8_set_date_then_show_time day mon year h :
  wf h -> 1 <= day <= 31 -> 1 <= mon <= 12 -> 1980 <= year <= 2099 ->
  result (set_date (Some (day, mon, year))) h = 0 /\
  (let shown := result show_time (exec (set_date (Some (day, mon, year))) h) in
   t_dom shown = day /\ t_mon shown = mon /\
   t_yr shown = year mod 100 /\ t_cen shown = year / 100 /\
   100 * t_cen shown + t_yr shown = year) /\
  (let shown := result show_time (exec (set_date (Some (day, mon, year))) h) in
   (t_sec shown, t_min shown, t_hrs shown, t_dow shown)) =
  (let before := result show_time h in
   (t_sec before, t_min before, t_hrs before, t_dow before)).
Proof.
  intros Hwf Hd Hm Hy.
  pose proof (regb_is_byte h Hwf) as Hb. destruct Hwf as (Hlen & _).
  destruct (set_date_run day mon year h Hlen Hb Hd Hm Hy) as [Hres Hnvr].
  split; [exact Hres|].
  set (h' := exec (set_date (Some (day, mon, year))) h) in *.
  set (r := cell h RTC_REG_B) in *.
  assert (cell h' RTC_REG_B = Z.land r (Z.lnot RTC_B_SET)) as HB
    by cell_lookup Hnvr.
  assert (cell h' RTC_DAY_OF_MONTH = enc r day) as H7 by cell_lookup Hnvr.
  assert (cell h' RTC_MONTH = enc r mon) as H8 by cell_lookup Hnvr.
  assert (cell h' RTC_YEAR = enc r (year mod 100)) as H9 by cell_lookup Hnvr.
  assert (cell h' CMOS_CENTURY = enc r (year / 100)) as H50 by cell_lookup Hnvr.
  assert (forall a, In a [RTC_SECONDS; RTC_MINUTES; RTC_HOURS; RTC_DAY_OF_WEEK] ->
            cell h' a = cell h a) as Hkeep.
  { intros a Ha. cbn [In] in Ha.
    repeat (destruct Ha as [<-|Ha]; [cell_lookup Hnvr|]). destruct Ha. }
  assert (0 <= year / 100 <= 99) by (split; [apply Z.div_pos; lia|
    apply Z.lt_succ_r, Z.div_lt_upper_bound; lia]).
  assert (0 <= year mod 100 < 100) by (apply Z.mod_pos_bound; lia).
  cbv zeta. rewrite (show_time_result h'), (show_time_result h).
  cbn [t_sec t_min t_hrs t_dow t_dom t_mon t_yr t_cen].
  rewrite !shown_hours_eq. cbv zeta.
  rewrite !result_rtc_to_bin_dec, HB, H7, H8, H9, H50.
  rewrite !(dec_clear _ _ Hb).
  rewrite (land_clear_set_bit _ _ Hb) by (unfold RTC_B_24H; lia).
  rewrite !dec_enc by lia.
  rewrite !Hkeep by (cbn [In]; tauto).
  unfold clamp. replace (mon >? 12) with false by (zcases; lia).
  split; [|reflexivity].
  split; [reflexivity|]. split; [reflexivity|]. split; [reflexivity|].
  split; [reflexivity|].
  rewrite (Z.div_mod year 100) at 3 by lia. lia.
Qed.

Lemma X8_witness :
  wf sample_hw /\ 1 <= 29 <= 31 /\ 1 <= 2 <= 12 /\ 1980 <= 2024 <= 2099 /\
  t_cen (result show_time (exec (set_date (Some (29, 2, 2024))) sample_hw)) = 20 /\
  t_yr (result show_time (exec (set_date (Some (29, 2, 2024))) sample_hw)) = 24.
Proof.
  assert (wf sample_hw) as Hwf by solve_wf.
  split; [exact Hwf|]. split; [lia|]. split; [lia|]. split; [lia|].
  destruct (X8_set_date_then_show_time 29 2 2024 sample_hw Hwf
              ltac:(lia) ltac:(lia) ltac:(lia))
    as (_ & (_ & _ & Hyr & Hcen & _) & _).
  split; [exact Hcen | exact Hyr].
Defined.

Lemma set_dow_run dow h :
  length (nvr h) = 64%nat -> is_byte (cell h RTC_REG_B) -> 1 <= dow <= 7 ->
  result (set_dow dow) h = 0 /\
  nvr (exec (set_dow dow) h) =
  <[11%nat := Z.land (cell h RTC_REG_B) (Z.lnot RTC_B_SET)]>
    (<[6%nat := enc (cell h RTC_REG_B) dow]>
       (<[11%nat := u8 (Z.lor (cell h RTC_REG_B) RTC_B_SET)]> (nvr h))).
Proof.
  intros Hlen Hb Hd. destruct h as [s i p ss sh t].
  cbn [nvr] in Hlen. rewrite cell_Hw in *. cbn [nvr].
  unfold set_dow.
  replace ((dow <? 1) || (dow >? 7)) with false
    by (symmetry; rewrite !orb_false_iff; zcases; repeat split; lia).
  crun. split; [reflexivity|].
  ca_norm. idx_norm. look. change (is_byte (s !!! 11%nat)) in Hb.
  rewrite !(enc_set _ _ Hb), !u8_idem, !u8_enc.
  rewrite (clear_set_bit_byte _ Hb). reflexivity.
Qed.

(** X9.  After [set_dow] has accepted a day number 1..7, [show_time]
    reports that day of the week, the name it prints is the entry of
    [day_names] at that number, and every other field is shown as
    before. *)
Theorem X9_set_dow_then_show_time dow h :
  wf h -> 1 <= dow <= 7 ->
  result (set_dow dow) h = 0 /\
  t_dow (result show_time (exec (set_dow dow) h)) = dow /\
  is_Some (index day_names (t_dow (result show_time (exec (set_dow dow) h)))) /\
  (let shown := result show_time (exec (set_dow dow) h) in
   (t_sec shown, t_min shown, t_hrs shown, t_dom shown, t_mon shown,
    t_yr shown, t_cen shown)) =
  (let before := result show_time h in
   (t_sec before, t_min before, t_hrs before, t_dom before, t_mon before,
    t_yr before, t_cen before)).
Proof.
  intros Hwf Hd.
  pose proof (regb_is_byte h Hwf) as Hb. destruct Hwf as (Hlen & _).
  destruct (set_dow_run dow h Hlen Hb Hd) as [Hres Hnvr].
  split; [exact Hres|].
  set (h' := exec (set_dow dow) h) in *.
  set (r := cell h RTC_REG_B) in *.
  assert (cell h' RTC_REG_B = Z.land r (Z.lnot RTC_B_SET)) as HB
    by cell_lookup Hnvr.
  assert (cell h' RTC_DAY_OF_WEEK = enc r dow) as H6 by cell_lookup Hnvr.
  assert (forall a, In a [RTC_SECONDS; RTC_MINUTES; RTC_HOURS; RTC_DAY_OF_MONTH;
                          RTC_MONTH; RTC_YEAR; CMOS_CENTURY] ->
            cell h' a = cell h a) as Hkeep.
  { intros a Ha. cbn [In] in Ha.
    repeat (destruct Ha as [<-|Ha]; [cell_lookup Hnvr|]). destruct Ha. }
  cbv zeta. rewrite (show_time_result h'), (show_time_result h).
  cbn [t_sec t_min t_hrs t_dow t_dom t_mon t_yr t_cen].
  rewrite !shown_hours_eq. cbv zeta.
  rewrite !result_rtc_to_bin_dec, HB, H6.
  rewrite !(dec_clear _ _ Hb).
  rewrite (land_clear_set_bit _ _ Hb) by (unfold RTC_B_24H; lia).
  rewrite !dec_enc by lia.
  rewrite !Hkeep by (cbn [In]; tauto).
  unfold clamp at 1 2. replace (dow >? 7) with false by (zcases; lia).
  split; [reflexivity|]. split; [|reflexivity].
  unfold index. replace (dow <? 0) with false by (zcases; lia).
  apply lookup_lt_is_Some_2. cbn [day_names length]. lia.
Qed.

Lemma X9_witness :
  wf sample_hw /\ 1 <= 7 <= 7 /\
  t_dow (result show_time (exec (set_dow 7) sample_hw)) = 7.
Proof.
  assert (wf sample_hw) as Hwf by solve_wf.
  split; [exact Hwf|]. split; [lia|].
  apply (X9_set_dow_then_show_time 7 sample_hw Hwf). lia.
Defined.

(** ** The alarm *)

Lemma show_alarm_result h :
  result show_alarm h =
  AlarmReport
    (shown_alarm (cell h RTC_REG_B) (cell h RTC_ALARM_HRS)
                 (cell h RTC_ALARM_MIN) (cell h RTC_ALARM_SEC))
    (nz (Z.land (cell h RTC_REG_B) RTC_B_AIE)).
Proof.
  unfold show_alarm. rewrite result_bind, exec_rtc_wait_uip.
  destruct h as [s i p ss sh t]. hw_simpl. crun. ca_norm.
  unfold shown_alarm, shown_field. idx_norm.
  destruct (s !!! 1%nat >=? 0xC0); destruct (s !!! 3%nat >=? 0xC0);
    destruct (s !!! 5%nat >=? 0xC0);
    cbn [andb]; crun; idx_norm; reflexivity.
Qed.

Lemma set_alarm_run hrs min sec h :
  length (nvr h) = 64%nat -> is_byte (cell h RTC_REG_B) ->
  result (set_alarm (Some (hrs, min, sec))) h = 0 /\
  nvr (exec (set_alarm (Some (hrs, min, sec))) h) =
  <[11%nat := Z.land (cell h RTC_REG_B) (Z.lnot RTC_B_SET)]>
    (<[5%nat := if hrs <? 0 then 0xC0 else enc (cell h RTC_REG_B) hrs]>
       (<[3%nat := if min <? 0 then 0xC0 else enc (cell h RTC_REG_B) min]>
          (<[1%nat := if sec <? 0 then 0xC0 else enc (cell h RTC_REG_B) sec]>
             (<[11%nat := u8 (Z.lor (cell h RTC_REG_B) RTC_B_SET)]> (nvr h))))).
Proof.
  intros Hlen Hb. destruct h as [s i p ss sh t].
  cbn [nvr] in Hlen. rewrite cell_Hw in *. cbn [nvr].
  change (is_byte (s !!! 11%nat)) in Hb.
  unfold set_alarm.
  destruct (sec <? 0); destruct (min <? 0); destruct (hrs <? 0);
    crun; (split; [reflexivity|]);
    ca_norm; idx_norm; look;
    rewrite ?(enc_set _ _ Hb), !u8_idem, ?u8_enc;
    rewrite (clear_set_bit_byte _ Hb); reflexivity.
Qed.

(** X10.  [set_alarm] followed by [show_alarm]: a negative number is shown
    as a wildcard, a number 0..99 is shown as given, and when all three are
    negative the alarm is reported as not set; the enable flag shown is that
    of Register B before the call. *)
Theorem X10_set_alarm_then_show_alarm hrs min sec h :
  wf h -> hrs <= 99 -> min <= 99 -> sec <= 99 ->
  result show_alarm (exec (set_alarm (Some (hrs, min, sec))) h) =
  AlarmReport
    (if (hrs <? 0) && (min <? 0) && (sec <? 0) then AlarmNotSet
     else AlarmTime (alarm_field_of hrs) (alarm_field_of min)
                    (alarm_field_of sec))
    (nz (Z.land (cell h RTC_REG_B) RTC_B_AIE)).
Proof.
  intros Hwf Hh Hm Hs.
  pose proof (regb_is_byte h Hwf) as Hb. destruct Hwf as (Hlen & _).
  destruct (set_alarm_run hrs min sec h Hlen Hb) as [_ Hnvr].
  set (h' := exec (set_alarm (Some (hrs, min, sec))) h) in *.
  set (r := cell h RTC_REG_B) in *.
  assert (cell h' RTC_REG_B = Z.land r (Z.lnot RTC_B_SET)) as HB
    by cell_lookup Hnvr.
  assert (cell h' RTC_ALARM_SEC = if sec <? 0 then 0xC0 else enc r sec) as H1
    by cell_lookup Hnvr.
  assert (cell h' RTC_ALARM_MIN = if min <? 0 then 0xC0 else enc r min) as H3
    by cell_lookup Hnvr.
  assert (cell h' RTC_ALARM_HRS = if hrs <? 0 then 0xC0 else enc r hrs) as H5
    by cell_lookup Hnvr.
  rewrite show_alarm_result, HB, H1, H3, H5.
  rewrite (land_clear_set_bit _ _ Hb) by (unfold RTC_B_AIE; lia).
  f_equal. unfold shown_alarm, shown_field, alarm_field_of.
  rewrite !(dec_clear _ _ Hb).
  assert (forall v, v <= 99 ->
            ((if v <? 0 then 0xC0 else enc r v) >=? 0xC0) = (v <? 0)) as Hwild.
  { intros v Hv. destruct (Z.ltb_spec v 0); [reflexivity|].
    pose proof (enc_below_wildcard r v ltac:(lia)). zcases; lia. }
  rewrite !Hwild by assumption.
  destruct (Z.ltb_spec hrs 0); destruct (Z.ltb_spec min 0);
    destruct (Z.ltb_spec sec 0); cbn [andb];
    rewrite ?dec_enc by lia; reflexivity.
Qed.

Lemma X10_witness :
  wf sample_hw /\ -1 <= 99 /\ 30 <= 99 /\ 0 <= 99 /\
  al_view (result show_alarm (exec (set_alarm (Some (-1, 30, 0))) sample_hw)) =
  AlarmTime Wildcard (Digits 30) (Digits 0).
Proof.
  assert (wf sample_hw) as Hwf by solve_wf.
  split; [exact Hwf|]. split; [lia|]. split; [lia|]. split; [lia|].
  rewrite (X10_set_alarm_then_show_alarm (-1) 30 0 sample_hw Hwf
             ltac:(lia) ltac:(lia) ltac:(lia)).
  reflexivity.
Defined.

(** ** Single flags of the control registers *)

Lemma set_flag_bits r f on :
  is_byte r -> In f reg_bits ->
  nz (Z.land (u8 (u8 (set_flag r f on))) f) = on /\
  (forall m, In m reg_bits -> m <> f ->
     Z.land (u8 (u8 (set_flag r f on))) m = Z.land r m).
Proof.
  intros Hr Hf.
  assert (forallb (fun f =>
            forallb (fun on =>
              Bool.eqb (nz (Z.land (u8 (u8 (set_flag r f on))) f)) on &&
              forallb (fun m =>
                (m =? f) ||
                (Z.land (u8 (u8 (set_flag r f on))) m =? Z.land r m)) reg_bits)
              [true; false]) reg_bits = true) as Hall.
  { revert r Hr. apply byte_check. vm_compute. reflexivity. }
  rewrite forallb_forall in Hall. specialize (Hall f Hf).
  rewrite forallb_forall in Hall.
  assert (In on [true; false]) as Hon by (destruct on; cbn; tauto).
  specialize (Hall on Hon). apply andb_true_iff in Hall.
  destruct Hall as [Hset Hrest]. split.
  - apply Bool.eqb_prop. exact Hset.
  - intros m Hm Hne. rewrite forallb_forall in Hrest.
    specialize (Hrest m Hm). apply orb_true_iff in Hrest.
    destruct Hrest as [Heq|Heq]; apply Z.eqb_eq in Heq; [contradiction|exact Heq].
Qed.

Lemma flag_write_cells f on h :
  wf h -> In f reg_bits ->
  nz (Z.land (cell (exec (cmos_write RTC_REG_B
                            (set_flag (cell h RTC_REG_B) f on))
                      (exec (cmos_read RTC_REG_B) h)) RTC_REG_B) f) = on /\
  (forall m, In m reg_bits -> m <> f ->
     Z.land (cell (exec (cmos_write RTC_REG_B
                           (set_flag (cell h RTC_REG_B) f on))
                     (exec (cmos_read RTC_REG_B) h)) RTC_REG_B) m =
     Z.land (cell h RTC_REG_B) m) /\
  (forall a, 0 <= a < 64 -> a <> RTC_REG_B ->
     cell (exec (cmos_write RTC_REG_B (set_flag (cell h RTC_REG_B) f on))
             (exec (cmos_read RTC_REG_B) h)) a = cell h a).
Proof.
  intros Hwf Hf. pose proof (regb_is_byte h Hwf) as Hb.
  destruct Hwf as (Hlen & _).
  assert (forall a, 0 <= a < 64 ->
            cell (exec (cmos_write RTC_REG_B (set_flag (cell h RTC_REG_B) f on))
                    (exec (cmos_read RTC_REG_B) h)) a =
            if a =? RTC_REG_B then u8 (set_flag (cell h RTC_REG_B) f on)
            else cell h a) as Hc.
  { intros a Ha. rewrite cell_cmos_write
      by (rewrite ?length_cmos_read; (assumption || (unfold RTC_REG_B; lia))).
    rewrite cell_cmos_read. reflexivity. }
  destruct (set_flag_bits (cell h RTC_REG_B) f on Hb Hf) as [Hset Hrest].
  rewrite u8_idem in Hset.
  split; [|split].
  - rewrite Hc by (unfold RTC_REG_B; lia). rewrite Z.eqb_refl. exact Hset.
  - intros m Hm Hne. rewrite Hc by (unfold RTC_REG_B; lia).
    rewrite Z.eqb_refl. rewrite <- (Hrest m Hm Hne), u8_idem. reflexivity.
  - intros a Ha Hne. rewrite Hc by exact Ha.
    apply Z.eqb_neq in Hne. rewrite Hne. reflexivity.
Qed.

(** Bounds and distinctness of named cells. *)
Ltac addr :=
  cbv [RTC_SECONDS RTC_ALARM_SEC RTC_MINUTES RTC_ALARM_MIN RTC_HOURS
       RTC_ALARM_HRS RTC_DAY_OF_WEEK RTC_DAY_OF_MONTH RTC_MONTH RTC_YEAR
       RTC_REG_A RTC_REG_B RTC_REG_C RTC_REG_D CMOS_DIAG CMOS_SHUTDOWN
       CMOS_FLOPPY CMOS_DISK CMOS_EQUIP CMOS_BASEMEM_LO CMOS_BASEMEM_HI
       CMOS_EXTMEM_LO CMOS_EXTMEM_HI CMOS_DISK0_EXT CMOS_DISK1_EXT
       CMOS_CHECKSUM_HI CMOS_CHECKSUM_LO CMOS_CENTURY CMOS_SIZE] in *; lia.

(** Membership in [reg_bits], and distinctness of two constant masks. *)
Ltac bits :=
  first [ solve [vm_compute; tauto]
        | solve [vm_compute; intros Hbits; discriminate Hbits] ].

Lemma alarm_enable_exec e h :
  exec (alarm_enable e) h =
  exec (cmos_write RTC_REG_B (set_flag (cell h RTC_REG_B) RTC_B_AIE (nz e)))
    (exec (cmos_read RTC_REG_B) h).
Proof.
  unfold alarm_enable. rewrite exec_bind, result_cmos_read. reflexivity.
Qed.

(** X11.  [alarm_enable] switches the alarm interrupt flag that
    [show_alarm] reports on for a non-zero argument and off for zero; the
    alarm time shown, the other seven bits of Register B and every other
    cell stay as they were. *)
Theorem X11_alarm_enable_changes_only_the_flag e h :
  wf h ->
  al_irq (result show_alarm (exec (alarm_enable e) h)) = nz e /\
  al_view (result show_alarm (exec (alarm_enable e) h)) =
    al_view (result show_alarm h) /\
  (forall m, In m reg_bits -> m <> RTC_B_AIE ->
     Z.land (cell (exec (alarm_enable e) h) RTC_REG_B) m =
     Z.land (cell h RTC_REG_B) m) /\
  (forall a, 0 <= a < 64 -> a <> RTC_REG_B ->
     cell (exec (alarm_enable e) h) a = cell h a).
Proof.
  intros Hwf. rewrite alarm_enable_exec.
  destruct (flag_write_cells RTC_B_AIE (nz e) h Hwf) as (Hset & Hrest & Hframe).
  { bits. }
  rewrite !show_alarm_result. cbn [al_irq al_view].
  split; [exact Hset|]. split; [|split; [exact Hrest | exact Hframe]].
  rewrite (Hframe RTC_ALARM_HRS), (Hframe RTC_ALARM_MIN),
    (Hframe RTC_ALARM_SEC) by addr.
  unfold shown_alarm, shown_field, dec.
  rewrite (Hrest RTC_B_DM) by bits. reflexivity.
Qed.

Lemma X11_witness :
  wf sample_hw /\
  al_irq (result show_alarm sample_hw) = false /\
  al_irq (result show_alarm (exec (alarm_enable 1) sample_hw)) = true.
Proof.
  assert (wf sample_hw) as Hwf by solve_wf.
  split; [exact Hwf|]. split; [reflexivity|].
  apply (X11_alarm_enable_changes_only_the_flag 1 sample_hw Hwf).
Defined.

(** Decide comparisons of constant strings. *)
Ltac str_eval :=
  repeat match goal with
         | |- context [String.eqb ?a ?b] =>
             let v := eval vm_compute in (String.eqb a b) in
             match v with
             | true => idtac
             | false => idtac
             end;
             change (String.eqb a b) with v; cbv iota
         end.

Lemma set_rtc_mode_flag mode f on val h :
  In (mode, f, on)
     [("24h"%string, RTC_B_24H, nz val); ("bcd"%string, RTC_B_DM, negb (nz val));
      ("sqw"%string, RTC_B_SQWE, nz val); ("dse"%string, RTC_B_DSE, nz val);
      ("pie"%string, RTC_B_PIE, nz val); ("uie"%string, RTC_B_UIE, nz val)] ->
  result (set_rtc_mode mode val) h = 0 /\
  exec (set_rtc_mode mode val) h =
  exec (cmos_write RTC_REG_B (set_flag (cell h RTC_REG_B) f on))
    (exec (cmos_read RTC_REG_B) h).
Proof.
  intros Hin. cbn [In] in Hin. unfold set_rtc_mode.
  rewrite result_bind, exec_bind, result_cmos_read.
  change (ca RTC_REG_B) with RTC_REG_B.
  repeat (destruct Hin as [Heq|Hin];
          [ injection Heq as <- <- <-; str_eval;
            rewrite result_bind, exec_bind, result_ret, exec_ret;
            split; reflexivity |]).
  destruct Hin.
Qed.

(** X12.  [set_rtc_mode] with one of the flag names switches exactly that
    bit of Register B, on for a non-zero value and off for zero, except
    that [bcd] works the other way round on the data-mode bit: [bcd 1]
    clears it.  The other seven bits and all other cells are as before; in
    particular the stored time bytes are not converted. *)
Theorem X12_set_rtc_mode_switches_one_flag mode f on val h :
  wf h ->
  In (mode, f, on)
     [("24h"%string, RTC_B_24H, nz val); ("bcd"%string, RTC_B_DM, negb (nz val));
      ("sqw"%string, RTC_B_SQWE, nz val); ("dse"%string, RTC_B_DSE, nz val);
      ("pie"%string, RTC_B_PIE, nz val); ("uie"%string, RTC_B_UIE, nz val)] ->
  result (set_rtc_mode mode val) h = 0 /\
  nz (Z.land (cell (exec (set_rtc_mode mode val) h) RTC_REG_B) f) = on /\
  (forall m, In m reg_bits -> m <> f ->
     Z.land (cell (exec (set_rtc_mode mode val) h) RTC_REG_B) m =
     Z.land (cell h RTC_REG_B) m) /\
  (forall a, 0 <= a < 64 -> a <> RTC_REG_B ->
     cell (exec (set_rtc_mode mode val) h) a = cell h a).
Proof.
  intros Hwf Hin.
  destruct (set_rtc_mode_flag mode f on val h Hin) as [Hres ->].
  split; [exact Hres|].
  apply flag_write_cells; [exact Hwf|].
  cbn [In] in Hin.
  repeat (destruct Hin as [Heq|Hin]; [injection Heq as _ <- _; bits|]).
  destruct Hin.
Qed.

Lemma X12_witness :
  wf sample_hw /\
  nz (Z.land (cell sample_hw RTC_REG_B) RTC_B_DM) = false /\
  nz (Z.land (cell (exec (set_rtc_mode "bcd" 0) sample_hw) RTC_REG_B) RTC_B_DM)
    = true /\
  cell (exec (set_rtc_mode "bcd" 0) sample_hw) RTC_SECONDS =
    cell sample_hw RTC_SECONDS.
Proof.
  assert (wf sample_hw) as Hwf by solve_wf.
  split; [exact Hwf|]. split; [reflexivity|].
  destruct (X12_set_rtc_mode_switches_one_flag
              "bcd"%string RTC_B_DM (negb (nz 0)) 0 sample_hw Hwf)
    as (_ & Hset & _ & Hframe).
  { cbn [In]. right. left. reflexivity. }
  split; [exact Hset|]. apply Hframe; addr.
Defined.

Lemma show_rtc_status_result h :
  result show_rtc_status h =
  RtcStatus (cell h RTC_REG_A) (cell h RTC_REG_B) (cell h RTC_REG_C)
            (cell h RTC_REG_D)
            (Z.shiftr (Z.land (cell h RTC_REG_A) RTC_A_DV_MASK) RTC_A_DV_SHIFT)
            (index divider_name
               (Z.shiftr (Z.land (cell h RTC_REG_A) RTC_A_DV_MASK) RTC_A_DV_SHIFT))
            (Z.land (cell h RTC_REG_A) RTC_A_RS_MASK)
            (index rate_freq (Z.land (cell h RTC_REG_A) RTC_A_RS_MASK)).
Proof.
  destruct h as [s i p ss sh t]. unfold show_rtc_status. cbv zeta.
  run. ca_norm. reflexivity.
Qed.

Lemma rate_bits r v :
  is_byte r -> 0 <= v <= 15 ->
  Z.land (u8 (u8 (Z.lor (Z.land r (Z.lnot RTC_A_RS_MASK))
                        (Z.land v RTC_A_RS_MASK)))) RTC_A_RS_MASK = v /\
  Z.land (u8 (u8 (Z.lor (Z.land r (Z.lnot RTC_A_RS_MASK))
                        (Z.land v RTC_A_RS_MASK)))) 0xF0 = Z.land r 0xF0.
Proof.
  intros Hr Hv.
  assert ((Z.land (u8 (u8 (Z.lor (Z.land r (Z.lnot RTC_A_RS_MASK))
                                 (Z.land v RTC_A_RS_MASK)))) RTC_A_RS_MASK =? v) &&
          (Z.land (u8 (u8 (Z.lor (Z.land r (Z.lnot RTC_A_RS_MASK))
                                 (Z.land v RTC_A_RS_MASK)))) 0xF0 =? Z.land r 0xF0)
          = true) as H.
  { apply (range_check2
      (fun r v =>
         (Z.land (u8 (u8 (Z.lor (Z.land r (Z.lnot RTC_A_RS_MASK))
                                (Z.land v RTC_A_RS_MASK)))) RTC_A_RS_MASK =? v) &&
         (Z.land (u8 (u8 (Z.lor (Z.land r (Z.lnot RTC_A_RS_MASK))
                                (Z.land v RTC_A_RS_MASK)))) 0xF0 =? Z.land r 0xF0))
      256 16); [vm_compute; reflexivity | exact Hr | lia]. }
  apply andb_true_iff in H. destruct H as [H1 H2].
  apply Z.eqb_eq in H1, H2. split; assumption.
Qed.

(** X13.  [set_rtc_mode rate v] with v in 0..15 makes [show_rtc_status]
    report rate v with its entry of the frequency table, keeps the divider
    and update-in-progress bits of Register A, and changes no other
    cell. *)
Theorem X13_set_rate_then_show_rtc_status v h :
  wf h -> 0 <= v <= 15 ->
  result (set_rtc_mode "rate" v) h = 0 /\
  rs_rate (result show_rtc_status (exec (set_rtc_mode "rate" v) h)) = v /\
  rs_rate_name (result show_rtc_status (exec (set_rtc_mode "rate" v) h)) =
    rate_freq !! Z.to_nat v /\
  is_Some (rate_freq !! Z.to_nat v) /\
  rs_divider (result show_rtc_status (exec (set_rtc_mode "rate" v) h)) =
    rs_divider (result show_rtc_status h) /\
  Z.land (cell (exec (set_rtc_mode "rate" v) h) RTC_REG_A) 0xF0 =
    Z.land (cell h RTC_REG_A) 0xF0 /\
  (forall a, 0 <= a < 64 -> a <> RTC_REG_A ->
     cell (exec (set_rtc_mode "rate" v) h) a = cell h a).
Proof.
  intros (Hlen & Hbytes & _) Hv.
  assert (is_byte (cell h RTC_REG_A)) as Ha
    by (apply lookup_total_byte; [exact Hbytes | rewrite Hlen; addr]).
  destruct (rate_bits (cell h RTC_REG_A) v Ha Hv) as [Hrate Hhigh].
  assert (result (set_rtc_mode "rate" v) h = 0 /\
          forall a, 0 <= a < 64 ->
            cell (exec (set_rtc_mode "rate" v) h) a =
            if a =? RTC_REG_A
            then u8 (u8 (Z.lor (Z.land (cell h RTC_REG_A) (Z.lnot RTC_A_RS_MASK))
                               (Z.land v RTC_A_RS_MASK)))
            else cell h a) as [Hres Hc].
  { destruct h as [s i p ss sh t]. cbn [nvr] in Hlen.
    unfold set_rtc_mode. cbv zeta.
    rewrite result_bind, exec_bind. str_eval.
    replace ((v <? 0) || (v >? 15)) with false
      by (symmetry; rewrite orb_false_iff; zcases; split; lia).
    run. ca_norm. split; [reflexivity|].
    intros a Ha'. rewrite !cell_Hw. idx_norm.
    destruct (Z.eqb_spec a RTC_REG_A) as [->|Hne].
    - idx_norm. look. rewrite !u8_idem. reflexivity.
    - rewrite list_lookup_total_insert_ne by (revert Hne; addr). reflexivity. }
  split; [exact Hres|].
  rewrite !show_rtc_status_result. cbn [rs_rate rs_rate_name rs_divider].
  rewrite (Hc RTC_REG_A) by addr. rewrite Z.eqb_refl.
  rewrite Hrate. split; [reflexivity|].
  split. { unfold index. replace (v <? 0) with false by (zcases; lia). reflexivity. }
  split. { apply lookup_lt_is_Some_2. cbn [rate_freq length]. lia. }
  split.
  { unfold RTC_A_DV_MASK.
    assert (forall x, Z.land x 0x70 = Z.land (Z.land x 0xF0) 0x70) as Hmask
      by (intros x; rewrite <- Z.land_assoc; reflexivity).
    rewrite (Hmask (u8 _)), Hhigh, <- Hmask. reflexivity. }
  split; [exact Hhigh|].
  intros a Ha' Hne. rewrite Hc by exact Ha'.
  apply Z.eqb_neq in Hne. rewrite Hne. reflexivity.
Qed.

Lemma X13_witness :
  wf sample_hw /\ 0 <= 3 <= 15 /\
  rs_rate (result show_rtc_status sample_hw) = 6 /\
  rs_rate (result show_rtc_status (exec (set_rtc_mode "rate" 3) sample_hw)) = 3.
Proof.
  assert (wf sample_hw) as Hwf by solve_wf.
  split; [exact Hwf|]. split; [lia|]. split; [reflexivity|].
  apply (X13_set_rate_then_show_rtc_status 3 sample_hw Hwf). lia.
Defined.

(** ** Configuration bytes: set, then show *)

(** A setter of the form read, write one cell, recompute the checksum. *)
Lemma config_cells c c' v h a :
  length (nvr h) = 64%nat -> 0 <= c < 64 -> 0 <= a < 64 ->
  a <> CMOS_CHECKSUM_HI -> a <> CMOS_CHECKSUM_LO ->
  cell (exec cmos_update_checksum
          (exec (cmos_write c v) (exec (cmos_read c') h))) a =
  if a =? c then u8 v else cell h a.
Proof.
  intros Hlen Hc Ha HHI HLO.
  rewrite cell_update_checksum
    by (rewrite ?length_cmos_write, ?length_cmos_read; assumption).
  apply Z.eqb_neq in HHI, HLO. rewrite HHI, HLO.
  rewrite cell_cmos_write by (rewrite ?length_cmos_read; assumption).
  rewrite cell_cmos_read. reflexivity.
Qed.

Lemma nibble_update r t :
  is_byte r -> 0 <= t <= 15 ->
  (Z.land (Z.shiftr (u8 (u8 (Z.lor (Z.land r 0x0F) (Z.shiftl t 4)))) 4) 0x0F = t /\
   Z.land (u8 (u8 (Z.lor (Z.land r 0x0F) (Z.shiftl t 4)))) 0x0F = Z.land r 0x0F) /\
  (Z.land (u8 (u8 (Z.lor (Z.land r 0xF0) t))) 0x0F = t /\
   Z.land (Z.shiftr (u8 (u8 (Z.lor (Z.land r 0xF0) t))) 4) 0x0F =
     Z.land (Z.shiftr r 4) 0x0F).
Proof.
  intros Hr Ht.
  assert (
    (Z.land (Z.shiftr (u8 (u8 (Z.lor (Z.land r 0x0F) (Z.shiftl t 4)))) 4) 0x0F =? t) &&
    (Z.land (u8 (u8 (Z.lor (Z.land r 0x0F) (Z.shiftl t 4)))) 0x0F =? Z.land r 0x0F) &&
    (Z.land (u8 (u8 (Z.lor (Z.land r 0xF0) t))) 0x0F =? t) &&
    (Z.land (Z.shiftr (u8 (u8 (Z.lor (Z.land r 0xF0) t))) 4) 0x0F =?
       Z.land (Z.shiftr r 4) 0x0F) = true) as H.
  { apply (range_check2
      (fun r t =>
         (Z.land (Z.shiftr (u8 (u8 (Z.lor (Z.land r 0x0F) (Z.shiftl t 4)))) 4) 0x0F =? t) &&
         (Z.land (u8 (u8 (Z.lor (Z.land r 0x0F) (Z.shiftl t 4)))) 0x0F =? Z.land r 0x0F) &&
         (Z.land (u8 (u8 (Z.lor (Z.land r 0xF0) t))) 0x0F =? t) &&
         (Z.land (Z.shiftr (u8 (u8 (Z.lor (Z.land r 0xF0) t))) 4) 0x0F =?
            Z.land (Z.shiftr r 4) 0x0F))
      256 16); [vm_compute; reflexivity | exact Hr | lia]. }
  rewrite !andb_true_iff, !Z.eqb_eq in H. tauto.
Qed.

Lemma cell_is_byte h a : wf h -> 0 <= a < 64 -> is_byte (cell h a).
Proof.
  intros (Hlen & Hbytes & _) Ha. apply lookup_total_byte;
    [exact Hbytes | rewrite Hlen; lia].
Qed.

Lemma show_floppy_result h :
  result show_floppy h =
  FloppyReport (cell h CMOS_FLOPPY)
               (Z.land (Z.shiftr (cell h CMOS_FLOPPY) 4) 0x0F)
               (Z.land (cell h CMOS_FLOPPY) 0x0F)
               (if nz (Z.land (cell h CMOS_EQUIP) 0x01)
                then Z.land (Z.shiftr (cell h CMOS_EQUIP) 6) 0x03 + 1 else 0).
Proof.
  destruct h as [s i p ss sh t]. unfold show_floppy. cbv zeta.
  run. ca_norm. reflexivity.
Qed.

Lemma set_floppy_exec drv type h :
  0 <= type <= 4 ->
  (is_char "A" drv || is_char "a" drv || is_char "0" drv = true ->
   result (set_floppy drv type) h = 0 /\
   exec (set_floppy drv type) h =
   exec cmos_update_checksum
     (exec (cmos_write CMOS_FLOPPY
              (u8 (Z.lor (Z.land (cell h CMOS_FLOPPY) 0x0F) (Z.shiftl type 4))))
        (exec (cmos_read CMOS_FLOPPY) h))) /\
  (is_char "A" drv || is_char "a" drv || is_char "0" drv = false ->
   is_char "B" drv || is_char "b" drv || is_char "1" drv = true ->
   result (set_floppy drv type) h = 0 /\
   exec (set_floppy drv type) h =
   exec cmos_update_checksum
     (exec (cmos_write CMOS_FLOPPY
              (u8 (Z.lor (Z.land (cell h CMOS_FLOPPY) 0xF0) type)))
        (exec (cmos_read CMOS_FLOPPY) h))).
Proof.
  intros Ht. unfold set_floppy.
  replace ((type <? 0) || (type >? 4)) with false
    by (symmetry; rewrite orb_false_iff; zcases; split; lia).
  rewrite result_bind, exec_bind, result_cmos_read. cbv zeta.
  change (ca CMOS_FLOPPY) with CMOS_FLOPPY.
  split.
  - intros ->.
    rewrite !result_bind, !exec_bind, result_ret, exec_ret. split; reflexivity.
  - intros -> ->.
    rewrite !result_bind, !exec_bind, result_ret, exec_ret. split; reflexivity.
Qed.

(** X14.  After [set_floppy] has accepted a type 0..4 for drive A (named
    by a first character A, a or 0), [show_floppy] reports that type for
    drive A and the previous one for drive B; for drive B (B, b or 1) it is
    the other way round.  The drive count shown, which comes from the
    equipment byte, does not change. *)
Theorem X14_set_floppy_then_show_floppy drv type h :
  wf h -> 0 <= type <= 4 ->
  (is_char "A" drv || is_char "a" drv || is_char "0" drv = true ->
   result (set_floppy drv type) h = 0 /\
   fl_a (result show_floppy (exec (set_floppy drv type) h)) = type /\
   fl_b (result show_floppy (exec (set_floppy drv type) h)) =
     fl_b (result show_floppy h) /\
   fl_ndrives (result show_floppy (exec (set_floppy drv type) h)) =
     fl_ndrives (result show_floppy h)) /\
  (is_char "A" drv || is_char "a" drv || is_char "0" drv = false ->
   is_char "B" drv || is_char "b" drv || is_char "1" drv = true ->
   result (set_floppy drv type) h = 0 /\
   fl_b (result show_floppy (exec (set_floppy drv type) h)) = type /\
   fl_a (result show_floppy (exec (set_floppy drv type) h)) =
     fl_a (result show_floppy h) /\
   fl_ndrives (result show_floppy (exec (set_floppy drv type) h)) =
     fl_ndrives (result show_floppy h)).
Proof.
  intros Hwf Ht.
  pose proof (cell_is_byte h CMOS_FLOPPY Hwf ltac:(addr)) as Hb.
  destruct Hwf as (Hlen & _).
  destruct (nibble_update (cell h CMOS_FLOPPY) type Hb ltac:(lia))
    as ((Hhi1 & Hhi2) & (Hlo1 & Hlo2)).
  destruct (set_floppy_exec drv type h Ht) as [HA HB].
  split.
  - intros Hsel. destruct (HA Hsel) as [Hres ->]. split; [exact Hres|].
    rewrite !show_floppy_result. cbn [fl_a fl_b fl_ndrives].
    rewrite !(config_cells CMOS_FLOPPY CMOS_FLOPPY) by (assumption || addr).
    rewrite Z.eqb_refl. change (CMOS_EQUIP =? CMOS_FLOPPY) with false. cbv iota.
    rewrite Hhi1, Hhi2. repeat split; reflexivity.
  - intros Hsel Hsel'. destruct (HB Hsel Hsel') as [Hres ->].
    split; [exact Hres|].
    rewrite !show_floppy_result. cbn [fl_a fl_b fl_ndrives].
    rewrite !(config_cells CMOS_FLOPPY CMOS_FLOPPY) by (assumption || addr).
    rewrite Z.eqb_refl. change (CMOS_EQUIP =? CMOS_FLOPPY) with false. cbv iota.
    rewrite Hlo1, Hlo2. repeat split; reflexivity.
Qed.

Lemma X14_witness :
  wf sample_hw /\ 0 <= 4 <= 4 /\
  is_char "A" "a:" || is_char "a" "a:" || is_char "0" "a:" = true /\
  fl_a (result show_floppy sample_hw) = 3 /\
  fl_a (result show_floppy (exec (set_floppy "a:" 4) sample_hw)) = 4.
Proof.
  assert (wf sample_hw) as Hwf by solve_wf.
  split; [exact Hwf|]. split; [lia|]. split; [reflexivity|].
  split; [reflexivity|].
  apply (X14_set_floppy_then_show_floppy "a:"%string 4 sample_hw Hwf);
    [lia | reflexivity].
Defined.

Lemma show_harddisk_result h :
  result show_harddisk h =
  HarddiskReport
    (cell h CMOS_DISK)
    (hd_drive_view (u8 (Z.land (Z.shiftr (cell h CMOS_DISK) 4) 0x0F))
                   (cell h CMOS_DISK0_EXT))
    (hd_drive_view (u8 (Z.land (cell h CMOS_DISK) 0x0F))
                   (cell h CMOS_DISK1_EXT)).
Proof.
  destruct h as [s i p ss sh t]. unfold show_harddisk. cbv zeta.
  run. ca_norm. reflexivity.
Qed.

Lemma set_harddisk_exec drv type h :
  0 <= type <= 15 ->
  (is_char "0" drv || is_char "C" drv || is_char "c" drv = true ->
   result (set_harddisk drv type) h = 0 /\
   exec (set_harddisk drv type) h =
   exec cmos_update_checksum
     (exec (cmos_write CMOS_DISK
              (u8 (Z.lor (Z.land (cell h CMOS_DISK) 0x0F) (Z.shiftl type 4))))
        (exec (cmos_read CMOS_DISK) h))) /\
  (is_char "0" drv || is_char "C" drv || is_char "c" drv = false ->
   is_char "1" drv || is_char "D" drv || is_char "d" drv = true ->
   result (set_harddisk drv type) h = 0 /\
   exec (set_harddisk drv type) h =
   exec cmos_update_checksum
     (exec (cmos_write CMOS_DISK
              (u8 (Z.lor (Z.land (cell h CMOS_DISK) 0xF0) type)))
        (exec (cmos_read CMOS_DISK) h))).
Proof.
  intros Ht. unfold set_harddisk.
  replace ((type <? 0) || (type >? 15)) with false
    by (symmetry; rewrite orb_false_iff; zcases; split; lia).
  rewrite result_bind, exec_bind, result_cmos_read. cbv zeta.
  change (ca CMOS_DISK) with CMOS_DISK.
  split.
  - intros ->.
    rewrite !result_bind, !exec_bind, result_ret, exec_ret. split; reflexivity.
  - intros -> ->.
    rewrite !result_bind, !exec_bind, result_ret, exec_ret. split; reflexivity.
Qed.

Lemma u8_nibble x : u8 (Z.land x 0x0F) = Z.land x 0x0F.
Proof.
  apply u8_byte. unfold is_byte. change 0x0F with (Z.ones 4).
  rewrite Z.land_ones by lia.
  pose proof (Z.mod_pos_bound x (2 ^ 4) ltac:(lia)). lia.
Qed.

(** X15.  After [set_harddisk] has accepted a type 0..15 for drive 0
    (named by a first character 0, C or c), [show_harddisk] prints for
    drive 0 what belongs to that type and for drive 1 what it printed
    before; for drive 1 (1, D or d) it is the other way round. *)
Theorem X15_set_harddisk_then_show_harddisk drv type h :
  wf h -> 0 <= type <= 15 ->
  (is_char "0" drv || is_char "C" drv || is_char "c" drv = true ->
   result (set_harddisk drv type) h = 0 /\
   hd_drive0 (result show_harddisk (exec (set_harddisk drv type) h)) =
     hd_drive_view type (cell h CMOS_DISK0_EXT) /\
   hd_drive1 (result show_harddisk (exec (set_harddisk drv type) h)) =
     hd_drive1 (result show_harddisk h)) /\
  (is_char "0" drv || is_char "C" drv || is_char "c" drv = false ->
   is_char "1" drv || is_char "D" drv || is_char "d" drv = true ->
   result (set_harddisk drv type) h = 0 /\
   hd_drive1 (result show_harddisk (exec (set_harddisk drv type) h)) =
     hd_drive_view type (cell h CMOS_DISK1_EXT) /\
   hd_drive0 (result show_harddisk (exec (set_harddisk drv type) h)) =
     hd_drive0 (result show_harddisk h)).
Proof.
  intros Hwf Ht.
  pose proof (cell_is_byte h CMOS_DISK Hwf ltac:(addr)) as Hb.
  destruct Hwf as (Hlen & _).
  destruct (nibble_update (cell h CMOS_DISK) type Hb Ht)
    as ((Hhi1 & Hhi2) & (Hlo1 & Hlo2)).
  destruct (set_harddisk_exec drv type h Ht) as [H0 H1].
  split.
  - intros Hsel. destruct (H0 Hsel) as [Hres ->]. split; [exact Hres|].
    rewrite !show_harddisk_result. cbn [hd_drive0 hd_drive1].
    rewrite !(config_cells CMOS_DISK CMOS_DISK) by (assumption || addr).
    rewrite Z.eqb_refl.
    change (CMOS_DISK0_EXT =? CMOS_DISK) with false.
    change (CMOS_DISK1_EXT =? CMOS_DISK) with false. cbv iota.
    rewrite !u8_nibble, Hhi1, Hhi2. split; reflexivity.
  - intros Hsel Hsel'. destruct (H1 Hsel Hsel') as [Hres ->].
    split; [exact Hres|].
    rewrite !show_harddisk_result. cbn [hd_drive0 hd_drive1].
    rewrite !(config_cells CMOS_DISK CMOS_DISK) by (assumption || addr).
    rewrite Z.eqb_refl.
    change (CMOS_DISK0_EXT =? CMOS_DISK) with false.
    change (CMOS_DISK1_EXT =? CMOS_DISK) with false. cbv iota.
    rewrite !u8_nibble, Hlo1, Hlo2. split; reflexivity.
Qed.

Lemma X15_witness :
  wf sample_hw /\ 0 <= 2 <= 15 /\
  is_char "0" "D" || is_char "C" "D" || is_char "c" "D" = false /\
  is_char "1" "D" || is_char "D" "D" || is_char "d" "D" = true /\
  hd_drive1 (result show_harddisk (exec (set_harddisk "D" 2) sample_hw)) =
  HdTyped 2 615 4 17 20.
Proof.
  assert (wf sample_hw) as Hwf by solve_wf.
  split; [exact Hwf|]. split; [lia|]. split; [reflexivity|].
  split; [reflexivity|].
  destruct (X15_set_harddisk_then_show_harddisk "D"%string 2 sample_hw Hwf
              ltac:(lia)) as [_ H1].
  destruct (H1 eq_refl eq_refl) as (_ & Hview & _).
  rewrite Hview. reflexivity.
Defined.




Lemma show_equipment_result h :
  result show_equipment h = equipment_of (cell h CMOS_EQUIP).
Proof.
  destruct h as [s i p ss sh t]. unfold show_equipment. cbv zeta.
  run. ca_norm. reflexivity.
Qed.

Lemma equip_fpu_byte r (on : bool) :
  is_byte r ->
  eq_fpu (equipment_of (u8 (if on then u8 (Z.lor r 0x02)
                            else u8 (Z.land r (Z.lnot 0x02))))) = on /\
  (let x := equipment_of (u8 (if on then u8 (Z.lor r 0x02)
                              else u8 (Z.land r (Z.lnot 0x02)))) in
   (eq_floppy x, eq_reserved x, eq_video x, eq_nfloppy x)) =
  (let x := equipment_of r in
   (eq_floppy x, eq_reserved x, eq_video x, eq_nfloppy x)).
Proof.
  intros Hr. cbv zeta.
  assert (forallb (fun on : bool =>
            let x := equipment_of (u8 (if on then u8 (Z.lor r 0x02)
                                       else u8 (Z.land r (Z.lnot 0x02)))) in
            let y := equipment_of r in
            Bool.eqb (eq_fpu x) on && Bool.eqb (eq_floppy x) (eq_floppy y) &&
            (eq_reserved x =? eq_reserved y) && (eq_video x =? eq_video y) &&
            (eq_nfloppy x =? eq_nfloppy y)) [true; false] = true) as H.
  { revert r Hr. apply byte_check. vm_compute. reflexivity. }
  rewrite forallb_forall in H.
  specialize (H on ltac:(destruct on; cbn; tauto)). cbv zeta in H.
  rewrite !andb_true_iff, !Z.eqb_eq in H.
  destruct H as ((((H1 & H2) & H3) & H4) & H5).
  apply Bool.eqb_prop in H1, H2. rewrite H1, H2, H3, H4, H5.
  split; reflexivity.
Qed.

Lemma equip_video_byte r v :
  is_byte r -> 0 <= v <= 3 ->
  eq_video (equipment_of
              (u8 (u8 (Z.lor (Z.land r (Z.lnot 0x30))
                             (Z.shiftl (Z.land v 0x03) 4))))) = v /\
  (let x := equipment_of
              (u8 (u8 (Z.lor (Z.land r (Z.lnot 0x30))
                             (Z.shiftl (Z.land v 0x03) 4)))) in
   (eq_floppy x, eq_fpu x, eq_reserved x, eq_nfloppy x)) =
  (let x := equipment_of r in
   (eq_floppy x, eq_fpu x, eq_reserved x, eq_nfloppy x)).
Proof.
  intros Hr Hv. cbv zeta.
  assert ((let x := equipment_of
                      (u8 (u8 (Z.lor (Z.land r (Z.lnot 0x30))
                                     (Z.shiftl (Z.land v 0x03) 4)))) in
           let y := equipment_of r in
           (eq_video x =? v) && Bool.eqb (eq_floppy x) (eq_floppy y) &&
           Bool.eqb (eq_fpu x) (eq_fpu y) &&
           (eq_reserved x =? eq_reserved y) &&
           (eq_nfloppy x =? eq_nfloppy y)) = true) as H.
  { apply (range_check2
      (fun r v =>
         let x := equipment_of
                    (u8 (u8 (Z.lor (Z.land r (Z.lnot 0x30))
                                   (Z.shiftl (Z.land v 0x03) 4)))) in
         let y := equipment_of r in
         (eq_video x =? v) && Bool.eqb (eq_floppy x) (eq_floppy y) &&
         Bool.eqb (eq_fpu x) (eq_fpu y) &&
         (eq_reserved x =? eq_reserved y) &&
         (eq_nfloppy x =? eq_nfloppy y)) 256 4);
      [vm_compute; reflexivity | exact Hr | lia]. }
  cbv zeta in H. rewrite !andb_true_iff, !Z.eqb_eq in H.
  destruct H as ((((H1 & H2) & H3) & H4) & H5).
  apply Bool.eqb_prop in H2, H3. rewrite H1, H2, H3, H4, H5.
  split; reflexivity.
Qed.

Lemma equip_count_byte r v :
  is_byte r -> 0 <= v <= 4 ->
  (let x := equipment_of
              (u8 (if v =? 0
                   then u8 (Z.land (u8 (Z.land r (Z.lnot 0x01))) (Z.lnot 0xC0))
                   else u8 (Z.lor (Z.land (u8 (Z.lor r 0x01)) (Z.lnot 0xC0))
                                  (Z.shiftl (Z.land (v - 1) 0x03) 6)))) in
   eq_nfloppy x = v /\ eq_floppy x = nz v /\
   (eq_fpu x, eq_reserved x, eq_video x) =
   (let y := equipment_of r in (eq_fpu y, eq_reserved y, eq_video y))).
Proof.
  intros Hr Hv. cbv zeta.
  assert ((let x := equipment_of
                      (u8 (if v =? 0
                           then u8 (Z.land (u8 (Z.land r (Z.lnot 0x01)))
                                           (Z.lnot 0xC0))
                           else u8 (Z.lor (Z.land (u8 (Z.lor r 0x01))
                                                  (Z.lnot 0xC0))
                                          (Z.shiftl (Z.land (v - 1) 0x03) 6)))) in
           let y := equipment_of r in
           (eq_nfloppy x =? v) && Bool.eqb (eq_floppy x) (nz v) &&
           Bool.eqb (eq_fpu x) (eq_fpu y) &&
           (eq_reserved x =? eq_reserved y) &&
           (eq_video x =? eq_video y)) = true) as H.
  { apply (range_check2
      (fun r v =>
         let x := equipment_of
                    (u8 (if v =? 0
                         then u8 (Z.land (u8 (Z.land r (Z.lnot 0x01)))
                                         (Z.lnot 0xC0))
                         else u8 (Z.lor (Z.land (u8 (Z.lor r 0x01))
                                                (Z.lnot 0xC0))
                                        (Z.shiftl (Z.land (v - 1) 0x03) 6)))) in
         let y := equipment_of r in
         (eq_nfloppy x =? v) && Bool.eqb (eq_floppy x) (nz v) &&
         Bool.eqb (eq_fpu x) (eq_fpu y) &&
         (eq_reserved x =? eq_reserved y) &&
         (eq_video x =? eq_video y)) 256 5);
      [vm_compute; reflexivity | exact Hr | lia]. }
  cbv zeta in H. rewrite !andb_true_iff, !Z.eqb_eq in H.
  destruct H as ((((H1 & H2) & H3) & H4) & H5).
  apply Bool.eqb_prop in H2, H3. rewrite H1, H2, H3, H4, H5.
  repeat split; reflexivity.
Qed.

Lemma set_equipment_exec field val h :
  (In field ["fpu"; "coprocessor"; "8087"]%string ->
   result (set_equipment field val) h = 0 /\
   exec (set_equipment field val) h =
   exec cmos_update_checksum
     (exec (cmos_write CMOS_EQUIP
              (if nz val then u8 (Z.lor (cell h CMOS_EQUIP) 0x02)
               else u8 (Z.land (cell h CMOS_EQUIP) (Z.lnot 0x02))))
        (exec (cmos_read CMOS_EQUIP) h))) /\
  (0 <= val <= 3 ->
   result (set_equipment "video" val) h = 0 /\
   exec (set_equipment "video" val) h =
   exec cmos_update_checksum
     (exec (cmos_write CMOS_EQUIP
              (u8 (Z.lor (Z.land (cell h CMOS_EQUIP) (Z.lnot 0x30))
                         (Z.shiftl (Z.land val 0x03) 4))))
        (exec (cmos_read CMOS_EQUIP) h))) /\
  (0 <= val <= 4 ->
   result (set_equipment "floppy-count" val) h = 0 /\
   exec (set_equipment "floppy-count" val) h =
   exec cmos_update_checksum
     (exec (cmos_write CMOS_EQUIP
              (if val =? 0
               then u8 (Z.land (u8 (Z.land (cell h CMOS_EQUIP) (Z.lnot 0x01)))
                               (Z.lnot 0xC0))
               else u8 (Z.lor (Z.land (u8 (Z.lor (cell h CMOS_EQUIP) 0x01))
                                      (Z.lnot 0xC0))
                              (Z.shiftl (Z.land (val - 1) 0x03) 6))))
        (exec (cmos_read CMOS_EQUIP) h))).
Proof.
  split; [|split].
  - intros Hin. cbn [In] in Hin. unfold set_equipment.
    rewrite result_bind, exec_bind, result_cmos_read.
    change (ca CMOS_EQUIP) with CMOS_EQUIP.
    repeat (destruct Hin as [<-|Hin];
            [ str_eval; cbn [orb]; cbv zeta iota;
              rewrite !result_bind, !exec_bind, result_ret, exec_ret;
              split; reflexivity |]).
    destruct Hin.
  - intros Hv. unfold set_equipment.
    rewrite result_bind, exec_bind, result_cmos_read.
    change (ca CMOS_EQUIP) with CMOS_EQUIP.
    str_eval. cbn [orb]. cbv zeta.
    replace ((val <? 0) || (val >? 3)) with false
      by (symmetry; rewrite orb_false_iff; zcases; split; lia).
    rewrite !result_bind, !exec_bind, result_ret, exec_ret. split; reflexivity.
  - intros Hv. unfold set_equipment.
    rewrite result_bind, exec_bind, result_cmos_read.
    change (ca CMOS_EQUIP) with CMOS_EQUIP.
    str_eval. cbn [orb]. cbv zeta.
    replace ((val <? 0) || (val >? 4)) with false
      by (symmetry; rewrite orb_false_iff; zcases; split; lia).
    destruct (val =? 0);
      rewrite !result_bind, !exec_bind, result_ret, exec_ret; split; reflexivity.
Qed.

(** X17.  [set_equipment] followed by [show_equipment]: each accepted
    field reads back as given and the other fields of the equipment byte
    are shown as before.  [fpu] (also named [coprocessor] or [8087]) is on
    for any non-zero value; [video] takes 0..3; [floppy-count] takes 0..4
    and also switches the floppy-installed flag, which is off exactly for a
    count of 0. *)
Theorem X17_set_equipment_then_show_equipment val h :
  wf h ->
  (forall field, In field ["fpu"; "coprocessor"; "8087"]%string ->
     result (set_equipment field val) h = 0 /\
     eq_fpu (result show_equipment (exec (set_equipment field val) h)) = nz val /\
     (let x := result show_equipment (exec (set_equipment field val) h) in
      (eq_floppy x, eq_reserved x, eq_video x, eq_nfloppy x)) =
     (let x := result show_equipment h in
      (eq_floppy x, eq_reserved x, eq_video x, eq_nfloppy x))) /\
  (0 <= val <= 3 ->
     result (set_equipment "video" val) h = 0 /\
     eq_video (result show_equipment (exec (set_equipment "video" val) h)) = val /\
     (let x := result show_equipment (exec (set_equipment "video" val) h) in
      (eq_floppy x, eq_fpu x, eq_reserved x, eq_nfloppy x)) =
     (let x := result show_equipment h in
      (eq_floppy x, eq_fpu x, eq_reserved x, eq_nfloppy x))) /\
  (0 <= val <= 4 ->
     result (set_equipment "floppy-count" val) h = 0 /\
     (let x := result show_equipment
                 (exec (set_equipment "floppy-count" val) h) in
      eq_nfloppy x = val /\ eq_floppy x = nz val /\
      (eq_fpu x, eq_reserved x, eq_video x) =
      (let y := result show_equipment h in
       (eq_fpu y, eq_reserved y, eq_video y)))).
Proof.
  intros Hwf.
  pose proof (cell_is_byte h CMOS_EQUIP Hwf ltac:(addr)) as Hb.
  destruct Hwf as (Hlen & _).
  destruct (set_equipment_exec "fpu" val h) as (_ & Hvideo & Hcount).
  split; [|split].
  - intros field Hin.
    destruct (set_equipment_exec field val h) as (Hfpu & _).
    destruct (Hfpu Hin) as [Hres ->]. split; [exact Hres|].
    cbv zeta. rewrite !show_equipment_result.
    rewrite (config_cells CMOS_EQUIP CMOS_EQUIP) by (assumption || addr).
    rewrite Z.eqb_refl.
    exact (equip_fpu_byte (cell h CMOS_EQUIP) (nz val) Hb).
  - intros Hv. destruct (Hvideo Hv) as [Hres ->]. split; [exact Hres|].
    cbv zeta. rewrite !show_equipment_result.
    rewrite (config_cells CMOS_EQUIP CMOS_EQUIP) by (assumption || addr).
    rewrite Z.eqb_refl.
    exact (equip_video_byte (cell h CMOS_EQUIP) val Hb Hv).
  - intros Hv. destruct (Hcount Hv) as [Hres ->]. split; [exact Hres|].
    cbv zeta. rewrite !show_equipment_result.
    rewrite (config_cells CMOS_EQUIP CMOS_EQUIP) by (assumption || addr).
    rewrite Z.eqb_refl.
    exact (equip_count_byte (cell h CMOS_EQUIP) val Hb Hv).
Qed.

Lemma X17_witness :
  wf sample_hw /\ 0 <= 4 <= 4 /\
  eq_nfloppy (result show_equipment sample_hw) = 2 /\
  eq_nfloppy (result show_equipment
                (exec (set_equipment "floppy-count" 4) sample_hw)) = 4.
Proof.
  assert (wf sample_hw) as Hwf by solve_wf.
  split; [exact Hwf|]. split; [lia|]. split; [reflexivity|].
  destruct (X17_set_equipment_then_show_equipment 4 sample_hw Hwf)
    as (_ & _ & Hcount).
  destruct (Hcount ltac:(lia)) as (_ & Hn & _). exact Hn.
Defined.

Lemma show_memory_result h :
  result show_memory h =
  MemoryReport
    (u16 (Z.lor (cell h CMOS_BASEMEM_LO) (Z.shiftl (u16 (cell h CMOS_BASEMEM_HI)) 8)))
    (u16 (Z.lor (cell h CMOS_EXTMEM_LO) (Z.shiftl (u16 (cell h CMOS_EXTMEM_HI)) 8))).
Proof.
  destruct h as [s i p ss sh t]. unfold show_memory. cbv zeta.
  run. ca_norm. reflexivity.
Qed.

Lemma set_basemem_exec kb h :
  64 <= kb <= 640 ->
  result (set_basemem kb) h = 0 /\
  exec (set_basemem kb) h =
  exec cmos_update_checksum
    (exec (cmos_write CMOS_BASEMEM_HI (Z.land (Z.shiftr kb 8) 0xFF))
       (exec (cmos_write CMOS_BASEMEM_LO (Z.land kb 0xFF)) h)).
Proof.
  intros Hkb. unfold set_basemem.
  replace ((kb <? 64) || (kb >? 640)) with false
    by (symmetry; rewrite orb_false_iff; zcases; split; lia).
  rewrite !result_bind, !exec_bind, result_ret, exec_ret. split; reflexivity.
Qed.

Lemma basemem_bytes kb :
  64 <= kb <= 640 ->
  u16 (Z.lor (u8 (Z.land kb 0xFF))
             (Z.shiftl (u16 (u8 (Z.land (Z.shiftr kb 8) 0xFF))) 8)) = kb.
Proof.
  intros Hkb. apply Z.eqb_eq.
  apply (range_check
    (fun kb => u16 (Z.lor (u8 (Z.land kb 0xFF))
                          (Z.shiftl (u16 (u8 (Z.land (Z.shiftr kb 8) 0xFF))) 8))
               =? kb) 641); [vm_compute; reflexivity | lia].
Qed.

(** X18.  After [set_basemem] has accepted a size of 64..640 KB,
    [show_memory] reports that base memory size, and the extended memory
    size as before. *)
Theorem X18_set_basemem_then_show_memory kb h :
  wf h -> 64 <= kb <= 640 ->
  result (set_basemem kb) h = 0 /\
  basemem (result show_memory (exec (set_basemem kb) h)) = kb /\
  extmem (result show_memory (exec (set_basemem kb) h)) =
    extmem (result show_memory h).
Proof.
  intros (Hlen & _) Hkb.
  destruct (set_basemem_exec kb h Hkb) as [Hres Hexec].
  split; [exact Hres|].
  assert (forall a, 0 <= a < 64 ->
            a <> CMOS_CHECKSUM_HI -> a <> CMOS_CHECKSUM_LO ->
            cell (exec (set_basemem kb) h) a =
            if a =? CMOS_BASEMEM_HI then u8 (Z.land (Z.shiftr kb 8) 0xFF)
            else if a =? CMOS_BASEMEM_LO then u8 (Z.land kb 0xFF)
            else cell h a) as Hc.
  { intros a Ha HHI HLO. rewrite Hexec.
    rewrite cell_update_checksum by (rewrite ?length_cmos_write; assumption).
    apply Z.eqb_neq in HHI, HLO. rewrite HHI, HLO.
    rewrite !cell_cmos_write
      by (rewrite ?length_cmos_write; (assumption || addr)).
    reflexivity. }
  rewrite !show_memory_result. cbn [basemem extmem].
  rewrite !Hc by addr.
  split; [|reflexivity].
  change (CMOS_BASEMEM_LO =? CMOS_BASEMEM_HI) with false.
  rewrite !Z.eqb_refl. cbv iota. apply basemem_bytes. exact Hkb.
Qed.

Lemma X18_witness :
  wf sample_hw /\ 64 <= 512 <= 640 /\
  basemem (result show_memory sample_hw) = 640 /\
  basemem (result show_memory (exec (set_basemem 512) sample_hw)) = 512.
Proof.
  assert (wf sample_hw) as Hwf by solve_wf.
  split; [exact Hwf|]. split; [lia|]. split; [reflexivity|].
  apply (X18_set_basemem_then_show_memory 512 sample_hw Hwf). lia.
Defined.

(** Cells after a run of reads, single writes and checksum updates ending
    in [ret]. *)
Ltac frame_step Hlen :=
  match goal with
  | |- context [exec (ret ?x) ?h] => rewrite (exec_ret x h)
  | |- context [exec (bind ?m ?k) ?h] => rewrite (exec_bind m k h); cbv beta
  | |- context [cell (exec (cmos_read ?c) ?h) ?a] =>
      rewrite (cell_cmos_read c a h)
  | |- context [cell (exec cmos_update_checksum ?h) ?a] =>
      rewrite (cell_update_checksum a h)
        by (rewrite ?length_cmos_write, ?length_cmos_read; (assumption || addr))
  | |- context [cell (exec (cmos_write ?c ?v) ?h) ?a] =>
      rewrite (cell_cmos_write c v a h)
        by (rewrite ?length_cmos_write, ?length_cmos_read; (assumption || addr))
  end.

Ltac frame Hlen :=
  split_branches; repeat frame_step Hlen;
  repeat match goal with
         | H : ?a <> ?c |- context [?a =? ?c] =>
             rewrite (proj2 (Z.eqb_neq a c) H)
         end;
  reflexivity.

(** X19.  The configuration setters keep to their own cell: whatever the
    arguments, and whether the call succeeds or is rejected, [set_floppy]
    changes at most cell 0x10, [set_harddisk] cell 0x12, [set_equipment]
    cell 0x14 and [set_basemem] cells 0x15 and 0x16, besides the two
    checksum cells. *)
Theorem X19_config_setters_frame h a :
  length (nvr h) = 64%nat -> 0 <= a < 64 ->
  a <> CMOS_CHECKSUM_HI -> a <> CMOS_CHECKSUM_LO ->
  (forall drv t, a <> CMOS_FLOPPY ->
     cell (exec (set_floppy drv t) h) a = cell h a) /\
  (forall drv t, a <> CMOS_DISK ->
     cell (exec (set_harddisk drv t) h) a = cell h a) /\
  (forall f v, a <> CMOS_EQUIP ->
     cell (exec (set_equipment f v) h) a = cell h a) /\
  (forall kb, a <> CMOS_BASEMEM_LO -> a <> CMOS_BASEMEM_HI ->
     cell (exec (set_basemem kb) h) a = cell h a).
Proof.
  intros Hlen Ha HHI HLO.
  split. { intros drv t Hne. unfold set_floppy. cbv zeta. frame Hlen. }
  split. { intros drv t Hne. unfold set_harddisk. cbv zeta. frame Hlen. }
  split. { intros f v Hne. unfold set_equipment. cbv zeta. frame Hlen. }
  intros kb Hlo Hhi. unfold set_basemem. frame Hlen.
Qed.

Lemma X19_witness :
  length (nvr sample_hw) = 64%nat /\ 0 <= RTC_SECONDS < 64 /\
  RTC_SECONDS <> CMOS_CHECKSUM_HI /\ RTC_SECONDS <> CMOS_CHECKSUM_LO /\
  RTC_SECONDS <> CMOS_EQUIP /\
  cell (exec (set_equipment "video" 2) sample_hw) RTC_SECONDS =
  cell sample_hw RTC_SECONDS.
Proof.
  split; [reflexivity|]. split; [addr|]. split; [addr|]. split; [addr|].
  split; [addr|].
  destruct (X19_config_setters_frame sample_hw RTC_SECONDS)
    as (_ & _ & Hequip & _); [reflexivity | addr | addr | addr |].
  apply Hequip. addr.
Defined.

(** ** After the factory reset *)

Lemma factory_reset_cells h :
  length (nvr h) = 64%nat ->
  (forall a v, In (a, v) factory_defaults -> cell (exec factory_reset h) a = v) /\
  (forall a, In a reset_untouched -> cell (exec factory_reset h) a = cell h a).
Proof.
  intros Hlen. unfold cell. rewrite (nvr_factory_reset h Hlen).
  destruct h as [s i p ss sh t]. cbn [nvr] in *.
  explode_store s Hlen. split.
  - intros a v Hin. vm_compute in Hin.
    repeat (destruct Hin as [Heq|Hin];
            [injection Heq as <- <-; lazy; reflexivity|]).
    destruct Hin.
  - intros a Hin. vm_compute in Hin.
    repeat (destruct Hin as [<-|Hin]; [lazy; reflexivity|]).
    destruct Hin.
Qed.

(** X20.  [factory_reset] is no full reset: it never writes the time and
    date cells, Registers C and D, and cells 0x11, 0x13, 0x30 and 0x31,
    which keep their old bytes; every other cell outside the checksum pair
    receives its fixed default.  Cells 0x11 and 0x13 lie in the summed
    range, so the checksum stored by the reset depends on what they
    held. *)
Theorem X20_factory_reset_untouched_cells h :
  length (nvr h) = 64%nat ->
  (forall a, In a reset_untouched -> cell (exec factory_reset h) a = cell h a) /\
  (forall a v, In (a, v) factory_defaults -> cell (exec factory_reset h) a = v) /\
  (forall a, 0 <= a < 64 ->
     In a reset_untouched \/ In a (List.map fst factory_defaults) \/
     a = CMOS_CHECKSUM_HI \/ a = CMOS_CHECKSUM_LO) /\
  u16 (Z.lor (Z.shiftl (cell (exec factory_reset h) CMOS_CHECKSUM_HI) 8)
             (cell (exec factory_reset h) CMOS_CHECKSUM_LO)) =
    u16 (0xB3 + cell h 0x11 + cell h 0x13).
Proof.
  intros Hlen. destruct (factory_reset_cells h Hlen) as [Hdef Hkeep].
  split; [exact Hkeep|]. split; [exact Hdef|]. split.
  - intros a Ha.
    assert (In a (List.map Z.of_nat (List.seq 0 64))) as Hin.
    { apply in_map_iff. exists (Z.to_nat a). split; [lia|].
      apply in_seq. lia. }
    vm_compute in Hin.
    repeat (destruct Hin as [<-|Hin]; [vm_compute; tauto|]).
    destruct Hin.
  - assert (length (with_defaults (nvr h)) = 64%nat /\
            checksum (with_defaults (nvr h)) =
              u16 (0xB3 + cell h 0x11 + cell h 0x13)) as [Hlen' Hsum].
    { unfold cell. destruct h as [s i p ss sh t]. cbn [nvr] in *.
      explode_store s Hlen. split; [reflexivity|].
      rewrite checksum_plain. f_equal. cbn [plain_sum]. idx_norm.
      match goal with
      | |- context [with_defaults ?L] =>
          let d := eval lazy in (with_defaults L) in
          change (with_defaults L) with d
      end.
      cbv -[Z.add]. lia. }
    unfold cell. rewrite (nvr_factory_reset h Hlen). unfold with_checksum.
    change (Z.to_nat CMOS_CHECKSUM_HI) with 46%nat.
    change (Z.to_nat CMOS_CHECKSUM_LO) with 47%nat.
    look. rewrite stored_recombine by apply checksum_range. exact Hsum.
Qed.

Lemma X20_witness :
  length (nvr sample_hw) = 64%nat /\
  cell (exec factory_reset sample_hw) RTC_SECONDS = 0x56 /\
  cell (exec factory_reset sample_hw) CMOS_EQUIP = 0x01.
Proof.
  split; [reflexivity|].
  destruct (X20_factory_reset_untouched_cells sample_hw eq_refl)
    as (Hkeep & Hdef & _).
  split.
  - rewrite (Hkeep RTC_SECONDS) by (vm_compute; tauto). reflexivity.
  - apply Hdef. vm_compute. tauto.
Defined.

(** X21.  What the display operations report right after [factory_reset]
    is what the reset announces, whatever the store held: floppy A of type 3
    and no floppy B, one floppy drive, no hard disks, no coprocessor, video
    mode 0, 640 KB base and 0 KB extended memory, no alarm and the alarm
    interrupt off, 24-hour BCD mode, century 20, and Register A on the
    32.768 kHz divider with the 1024 Hz rate. *)
Theorem X21_displays_after_factory_reset h :
  length (nvr h) = 64%nat ->
  result show_floppy (exec factory_reset h) = FloppyReport 0x30 3 0 1 /\
  result show_harddisk (exec factory_reset h) =
    HarddiskReport 0x00 HdNotInstalled HdNotInstalled /\
  result show_equipment (exec factory_reset h) =
    EquipmentReport 0x01 true false 0 0 1 /\
  result show_memory (exec factory_reset h) = MemoryReport 640 0 /\
  result show_alarm (exec factory_reset h) = AlarmReport AlarmNotSet false /\
  t_regb (result show_time (exec factory_reset h)) = RTC_B_24H /\
  t_cen (result show_time (exec factory_reset h)) = 20 /\
  rs_divider_name (result show_rtc_status (exec factory_reset h)) =
    Some "32.768 kHz"%string /\
  rs_rate_name (result show_rtc_status (exec factory_reset h)) =
    Some "1024 Hz"%string.
Proof.
  intros Hlen. destruct (factory_reset_cells h Hlen) as [Hdef _].
  pose proof (Hdef RTC_REG_A 0x26 ltac:(vm_compute; tauto)) as HA.
  pose proof (Hdef RTC_REG_B 0x02 ltac:(vm_compute; tauto)) as HB.
  pose proof (Hdef CMOS_FLOPPY 0x30 ltac:(vm_compute; tauto)) as Hfl.
  pose proof (Hdef CMOS_DISK 0x00 ltac:(vm_compute; tauto)) as Hdisk.
  pose proof (Hdef CMOS_EQUIP 0x01 ltac:(vm_compute; tauto)) as Heq.
  pose proof (Hdef CMOS_BASEMEM_LO 0x80 ltac:(vm_compute; tauto)) as Hblo.
  pose proof (Hdef CMOS_BASEMEM_HI 0x02 ltac:(vm_compute; tauto)) as Hbhi.
  pose proof (Hdef CMOS_EXTMEM_LO 0x00 ltac:(vm_compute; tauto)) as Helo.
  pose proof (Hdef CMOS_EXTMEM_HI 0x00 ltac:(vm_compute; tauto)) as Hehi.
  pose proof (Hdef CMOS_DISK0_EXT 0x00 ltac:(vm_compute; tauto)) as Hd0.
  pose proof (Hdef CMOS_DISK1_EXT 0x00 ltac:(vm_compute; tauto)) as Hd1.
  pose proof (Hdef CMOS_CENTURY 0x20 ltac:(vm_compute; tauto)) as Hcen.
  pose proof (Hdef RTC_ALARM_SEC 0xC0 ltac:(vm_compute; tauto)) as Has.
  pose proof (Hdef RTC_ALARM_MIN 0xC0 ltac:(vm_compute; tauto)) as Ham.
  pose proof (Hdef RTC_ALARM_HRS 0xC0 ltac:(vm_compute; tauto)) as Hah.
  rewrite show_floppy_result, show_harddisk_result, show_equipment_result,
    show_memory_result, show_alarm_result, show_rtc_status_result.
  rewrite (show_time_result (exec factory_reset h)).
  cbn [t_regb t_cen rs_divider_name rs_rate_name].
  rewrite result_rtc_to_bin_dec.
  rewrite HA, HB, Hfl, Hdisk, Heq, Hblo, Hbhi, Helo, Hehi, Hd0, Hd1, Hcen,
    Has, Ham, Hah.
  split; [reflexivity|]. split; [reflexivity|]. split; [reflexivity|].
  split; [reflexivity|]. split; [reflexivity|]. split; [reflexivity|].
  split; [reflexivity|]. split; reflexivity.
Qed.

Lemma X21_witness :
  length (nvr sample_hw) = 64%nat /\
  result show_memory (exec factory_reset sample_hw) = MemoryReport 640 0.
Proof.
  split; [reflexivity|].
  apply (X21_displays_after_factory_reset sample_hw eq_refl).
Defined.

(** ** Images of the store: dump, save, load, compare *)

Lemma read_cells_run n : forall i h,
  0 <= i -> i + Z.of_nat n <= 64 ->
  read_cells n i h =
  (List.map (cell h) (seqZ i (Z.of_nat n)),
   Hw (nvr h) (loop_idx n i (idx h)) (pb h) (sysstat2 h) (stat2_hi h)
      (loop_reads n i (trace h))).
Proof.
  induction n as [|n IH]; intros i h Hi Hn.
  - destruct h. reflexivity.
  - cbn [read_cells]. rewrite run_bind, result_cmos_read, exec_cmos_read.
    rewrite run_bind. unfold result at 1, exec at 1.
    rewrite IH by lia. cbn [fst snd nvr idx pb sysstat2 stat2_hi trace].
    rewrite (ca_small i) by lia.
    replace (Z.of_nat (S n)) with (Z.succ (Z.of_nat n)) by lia.
    rewrite (seqZ_cons i (Z.succ (Z.of_nat n))) by lia. rewrite Z.pred_succ.
    replace (Z.succ i) with (i + 1) by lia. reflexivity.
Qed.

Lemma all_cells h :
  length (nvr h) = 64%nat -> List.map (cell h) (seqZ 0 64) = nvr h.
Proof.
  intros Hlen. destruct h as [s i p ss sh t]. cbn [nvr] in *.
  explode_store s Hlen. reflexivity.
Qed.

Lemma read_all_run h :
  length (nvr h) = 64%nat ->
  read_cells (Z.to_nat CMOS_SIZE) 0 h =
  (nvr h,
   Hw (nvr h) 0x3F (pb h) (sysstat2 h) (stat2_hi h) (loop_reads 64 0 (trace h))).
Proof.
  intros Hlen. change (Z.to_nat CMOS_SIZE) with 64%nat.
  rewrite read_cells_run by lia.
  change (Z.of_nat 64) with 64. rewrite (all_cells h Hlen). reflexivity.
Qed.

Lemma result_read_all h :
  length (nvr h) = 64%nat ->
  result (read_cells (Z.to_nat CMOS_SIZE) 0) h = nvr h.
Proof. intros Hlen. unfold result. rewrite read_all_run by exact Hlen. reflexivity. Qed.

Lemma exec_read_all h :
  length (nvr h) = 64%nat ->
  exec (read_cells (Z.to_nat CMOS_SIZE) 0) h =
  Hw (nvr h) 0x3F (pb h) (sysstat2 h) (stat2_hi h) (loop_reads 64 0 (trace h)).
Proof. intros Hlen. unfold exec. rewrite read_all_run by exact Hlen. reflexivity. Qed.






Lemma load_cmos_cells content h a :
  wf h -> length content = 64%nat -> Forall is_byte content -> 0 <= a < 64 ->
  cell (exec (load_cmos (Some content)) h) a =
  if a =? RTC_REG_B
  then Z.land (content !!! Z.to_nat RTC_REG_B) (Z.lnot RTC_B_SET)
  else if read_only a then cell h a else content !!! Z.to_nat a.
Proof.
  intros Hwf Hlen Hbytes Ha.
  destruct (load_cmos_run content h Hlen) as [_ ->].
  set (h1 := exec (cmos_write RTC_REG_B _) (exec (cmos_read RTC_REG_B) h)).
  assert (wf h1) as Hwf1 by (apply wf_cmos_write, wf_cmos_read, Hwf).
  assert (wf (exec (for_each 64 0
                      (write_body read_only (fun i => content !!! Z.to_nat i)))
                h1)) as Hwf2 by (apply wf_write_loop, Hwf1).
  assert (forall b, 0 <= b < 64 -> is_byte (content !!! Z.to_nat b)) as Hb.
  { intros b Hb. apply lookup_total_byte; [exact Hbytes | lia]. }
  rewrite cell_cmos_write by (first [apply Hwf2 | addr]).
  destruct (Z.eqb_spec a RTC_REG_B) as [->|HB].
  - apply clear_set_bit_byte, Hb. addr.
  - rewrite write_loop_cell by (first [apply Hwf1 | lia]).
    replace ((0 <=? a) && (a <? 0 + Z.of_nat 64)) with true
      by (symmetry; apply andb_true_iff; split;
          [apply Z.leb_le | apply Z.ltb_lt]; lia).
    cbn [andb]. destruct (read_only a) eqn:Hro; cbn [negb].
    + subst h1. rewrite cell_cmos_write
        by (first [rewrite length_cmos_read; apply Hwf | addr]).
      apply Z.eqb_neq in HB. rewrite HB. apply cell_cmos_read.
    + apply u8_byte, Hb, Ha.
Qed.




(** The sizes [load_cmos] accepts: a file of 128 bytes is loaded as its
    first 64 bytes; any size other than 64 or 128 is refused at once. *)
Lemma load_cmos_file_sizes content h :
  (length content = 128%nat ->
   load_cmos (Some content) h = load_cmos (Some (take 64 content)) h) /\
  (length content <> 64%nat -> length content <> 128%nat ->
   load_cmos (Some content) h = (1, h)) /\
  load_cmos None h = (1, h).
Proof.
  split; [|split].
  - intros Hlen. unfold load_cmos. cbv zeta.
    rewrite length_take, Hlen. change (Z.to_nat CMOS_SIZE) with 64%nat.
    rewrite take_take.
    change (64 `min` 64)%nat with 64%nat.
    change (negb (Z.of_nat 128 =? CMOS_SIZE) && negb (Z.of_nat 128 =? 128))
      with false.
    change (negb (Z.of_nat (64 `min` 128) =? CMOS_SIZE) &&
            negb (Z.of_nat (64 `min` 128) =? 128)) with false.
    reflexivity.
  - intros H64 H128. unfold load_cmos. cbv zeta.
    replace (Z.of_nat (length content) =? CMOS_SIZE) with false
      by (symmetry; apply Z.eqb_neq; unfold CMOS_SIZE; lia).
    replace (Z.of_nat (length content) =? 128) with false
      by (symmetry; apply Z.eqb_neq; lia).
    reflexivity.
  - reflexivity.
Qed.

Lemma plain_sum_ext s1 s2 n : forall i,
  0 <= i ->
  (forall k, i <= k < i + Z.of_nat n -> s1 !!! Z.to_nat k = s2 !!! Z.to_nat k) ->
  plain_sum s1 n i = plain_sum s2 n i.
Proof.
  induction n as [|n IH]; intros i Hi Heq; cbn [plain_sum].
  - reflexivity.
  - rewrite (Heq i) by lia. rewrite (IH (i + 1)) by (intros; try apply Heq; lia).
    reflexivity.
Qed.

Lemma valid_checksum_ext s1 s2 :
  (forall k, 0x10 <= k <= 0x2F -> s1 !!! Z.to_nat k = s2 !!! Z.to_nat k) ->
  valid_checksum s1 = valid_checksum s2.
Proof.
  intros Heq. unfold valid_checksum. rewrite !checksum_plain.
  rewrite (plain_sum_ext s1 s2 30 0x10) by (intros; try apply Heq; lia).
  pose proof (Heq 46 ltac:(lia)) as H46. pose proof (Heq 47 ltac:(lia)) as H47.
  change (Z.to_nat 46) with 46%nat in H46.
  change (Z.to_nat 47) with 47%nat in H47.
  rewrite H46, H47. reflexivity.
Qed.

(** X25.  [load_cmos] does not recompute the checksum, unlike the
    setters: after a load, [cmos_verify_checksum] answers whether the
    checksum inside the image matches the image, whatever the store held
    before.  Of a 128-byte file only the first 64 bytes count. *)
Theorem X25_load_cmos_keeps_image_checksum content h :
  wf h -> length content = 64%nat \/ length content = 128%nat ->
  Forall is_byte content ->
  result (load_cmos (Some content)) h = 0 /\
  result cmos_verify_checksum (exec (load_cmos (Some content)) h) =
    valid_checksum (take 64 content) /\
  (forall a, 0 <= a < 64 -> a <> RTC_REG_B -> read_only a = false ->
     cell (exec (load_cmos (Some content)) h) a = content !!! Z.to_nat a).
Proof.
  intros Hwf Hsize Hbytes.
  assert (load_cmos (Some content) h = load_cmos (Some (take 64 content)) h)
    as Hsame.
  { destruct Hsize as [H64|H128].
    - rewrite take_ge by lia. reflexivity.
    - apply load_cmos_file_sizes. exact H128. }
  assert (length (take 64 content) = 64%nat) as Hlen
    by (rewrite length_take; lia).
  assert (Forall is_byte (take 64 content)) as Hbytes'
    by (apply Forall_take; exact Hbytes).
  unfold result at 1, exec. rewrite Hsame.
  fold (result (load_cmos (Some (take 64 content))) h).
  fold (exec (load_cmos (Some (take 64 content))) h).
  split. { apply (load_cmos_run (take 64 content) h Hlen). }
  split.
  - rewrite result_verify.
    apply valid_checksum_ext. intros k Hk.
    fold (cell (exec (load_cmos (Some (take 64 content))) h) k).
    rewrite load_cmos_cells by (assumption || lia).
    replace (k =? RTC_REG_B) with false by (symmetry; apply Z.eqb_neq; addr).
    unfold read_only.
    replace (k =? RTC_REG_C) with false by (symmetry; apply Z.eqb_neq; addr).
    replace (k =? RTC_REG_D) with false by (symmetry; apply Z.eqb_neq; addr).
    reflexivity.
  - intros a Ha HB Hro. rewrite load_cmos_cells by assumption.
    apply Z.eqb_neq in HB. rewrite HB, Hro.
    rewrite !list_lookup_total_alt, lookup_take_lt by lia. reflexivity.
Qed.

Lemma X25_witness :
  wf sample_hw /\
  (length (sample_image ++ sample_nvr) = 64%nat \/
   length (sample_image ++ sample_nvr) = 128%nat) /\
  Forall is_byte (sample_image ++ sample_nvr) /\
  result cmos_verify_checksum
    (exec (load_cmos (Some (sample_image ++ sample_nvr))) sample_hw) = false.
Proof.
  assert (wf sample_hw) as Hwf by solve_wf.
  assert (length (sample_image ++ sample_nvr) = 64%nat \/
          length (sample_image ++ sample_nvr) = 128%nat) as Hsize
    by (right; reflexivity).
  assert (Forall is_byte (sample_image ++ sample_nvr)) as Hb
    by (unfold is_byte; repeat constructor; lia).
  split; [exact Hwf|]. split; [exact Hsize|]. split; [exact Hb|].
  destruct (X25_load_cmos_keeps_image_checksum (sample_image ++ sample_nvr)
              sample_hw Hwf Hsize Hb) as (_ & Hverdict & _).
  rewrite Hverdict. reflexivity.
Defined.

Lemma diff_loop_filter live file n : forall i,
  0 <= i ->
  diff_loop n i live file =
  List.map (fun a => (a, live !!! Z.to_nat a, file !!! Z.to_nat a))
    (List.filter (fun a => negb (live !!! Z.to_nat a =? file !!! Z.to_nat a))
                 (seqZ i (Z.of_nat n))).
Proof.
  induction n as [|n IH]; intros i Hi.
  - reflexivity.
  - cbn [diff_loop]. rewrite IH by lia.
    replace (Z.of_nat (S n)) with (Z.succ (Z.of_nat n)) by lia.
    rewrite (seqZ_cons i (Z.succ (Z.of_nat n))) by lia. rewrite Z.pred_succ.
    replace (Z.succ i) with (i + 1) by lia.
    cbn [List.filter].
    destruct (negb (live !!! Z.to_nat i =? file !!! Z.to_nat i)); reflexivity.
Qed.

Lemma compare_cmos_run content h :
  length (nvr h) = 64%nat -> (64 <= length content)%nat ->
  result (compare_cmos (Some content)) h =
    (0, diff_loop 64 0 (nvr h) (take 64 content)) /\
  exec (compare_cmos (Some content)) h =
    Hw (nvr h) 0x3F (pb h) (sysstat2 h) (stat2_hi h)
       (loop_reads 64 0 (replicate (uip_reads h) (Rd RTC_REG_A) ++ trace h)).
Proof.
  intros Hlen Hc. unfold compare_cmos.
  replace (Z.of_nat (length content) <? CMOS_SIZE) with false
    by (symmetry; apply Z.ltb_ge; unfold CMOS_SIZE; lia).
  cbv zeta.
  rewrite result_bind, exec_bind, exec_rtc_wait_uip.
  rewrite result_bind, exec_bind.
  rewrite result_read_all, exec_read_all by exact Hlen.
  cbn [nvr idx pb sysstat2 stat2_hi trace].
  rewrite result_ret, exec_ret. split; reflexivity.
Qed.

Lemma compare_cmos_result content h :
  length (nvr h) = 64%nat -> (64 <= length content)%nat ->
  result (compare_cmos (Some content)) h =
  (0, List.map (fun a => (a, cell h a, content !!! Z.to_nat a))
        (List.filter
           (fun a => negb (cell h a =? content !!! Z.to_nat a))
           (seqZ 0 64))).
Proof.
  intros Hlen Hc. destruct (compare_cmos_run content h Hlen Hc) as [-> _].
  f_equal. rewrite diff_loop_filter by lia. change (Z.of_nat 64) with 64.
  assert (forall a, In a (seqZ 0 64) ->
            take 64 content !!! Z.to_nat a = content !!! Z.to_nat a) as Htake.
  { intros a Ha. apply list_elem_of_In, elem_of_seqZ in Ha.
    rewrite !list_lookup_total_alt, lookup_take_lt by lia. reflexivity. }
  induction (seqZ 0 64) as [|a l IH]; [reflexivity|].
  cbn [List.filter]. unfold cell at 1.
  rewrite (Htake a) by (left; reflexivity).
  destruct (negb _); cbn [List.map]; unfold cell at 1;
    rewrite ?(Htake a) by (left; reflexivity);
    rewrite IH by (intros; apply Htake; right; assumption); reflexivity.
Qed.

(** X26.  [compare_cmos] lists one line for each cell that differs from
    the first 64 bytes of the file, in ascending address order, with the
    live byte and the file byte, and nothing else; it writes nothing, and
    its status is 0 whether or not there are differences.  A file shorter
    than 64 bytes, or none, is refused before any port is touched. *)
Theorem X26_compare_cmos_reports_differences content h :
  length (nvr h) = 64%nat ->
  ((64 <= length content)%nat ->
   result (compare_cmos (Some content)) h =
     (0, List.map (fun a => (a, cell h a, content !!! Z.to_nat a))
           (List.filter
              (fun a => negb (cell h a =? content !!! Z.to_nat a))
              (seqZ 0 64))) /\
   no_write h (exec (compare_cmos (Some content)) h)) /\
  ((length content < 64)%nat ->
   compare_cmos (Some content) h = ((1, []), h)) /\
  compare_cmos None h = ((1, []), h).
Proof.
  intros Hlen. split; [|split].
  - intros Hc. split; [apply compare_cmos_result; assumption|].
    destruct (compare_cmos_run content h Hlen Hc) as [_ ->].
    split; [reflexivity|]. intros c. cbn [trace].
    rewrite writes_of_loop_reads, writes_of_app, writes_of_replicate_rd.
    reflexivity.
  - intros Hc. unfold compare_cmos.
    replace (Z.of_nat (length content) <? CMOS_SIZE) with true
      by (symmetry; apply Z.ltb_lt; unfold CMOS_SIZE; lia).
    reflexivity.
  - reflexivity.
Qed.

Lemma X26_witness :
  length (nvr sample_hw) = 64%nat /\
  (64 <= length (<[20%nat := 0x63%Z]> sample_nvr))%nat /\
  result (compare_cmos (Some (<[20%nat := 0x63]> sample_nvr))) sample_hw =
  (0, [(0x14, 0x41, 0x63)]).
Proof.
  split; [reflexivity|]. split; [vm_compute; lia|].
  destruct (X26_compare_cmos_reports_differences
              (<[20%nat := 0x63]> sample_nvr) sample_hw eq_refl)
    as (Hcmp & _).
  destruct Hcmp as [-> _]; [vm_compute; lia|]. reflexivity.
Defined.



(** ** Rejected calls *)

(** Evaluate the range tests of a rejected call. *)
Ltac out_of_range :=
  repeat match goal with
         | |- context [?a <? ?b] => destruct (Z.ltb_spec a b)
         | |- context [?a >? ?b] => rewrite (Z.gtb_ltb a b)
         | |- context [?a >=? ?b] => rewrite (Z.geb_leb a b)
         | |- context [?a <=? ?b] => destruct (Z.leb_spec a b)
         end;
  cbn [orb andb negb]; first [reflexivity | exfalso; lia].

Lemma string_not_in (f : string) (l : list string) :
  ~ In f l -> forall g, In g l -> String.eqb f g = false.
Proof.
  intros Hnot g Hg. apply String.eqb_neq. intros ->. exact (Hnot Hg).
Qed.

(** X28.  Where a rejected call stops.  The operations that check their
    numbers first refuse bad input before any port is touched: the device,
    address register included, is exactly as it was.  [set_floppy] and
    [set_harddisk] with a good type but an unknown drive letter,
    [set_equipment] and [set_rtc_mode] have by then read their register:
    the rejected call has made that one read and no write.  ([set_alarm]
    rejects only input it cannot parse.) *)
Theorem X28_where_rejected_calls_stop h :
  ((forall hrs min sec,
      ~ (0 <= hrs <= 23 /\ 0 <= min <= 59 /\ 0 <= sec <= 59) ->
      set_time (Some (hrs, min, sec)) h = (1, h)) /\
   set_time None h = (1, h) /\
   (forall day mon year,
      ~ (1 <= day <= 31 /\ 1 <= mon <= 12 /\ 1980 <= year <= 2099) ->
      set_date (Some (day, mon, year)) h = (1, h)) /\
   set_date None h = (1, h) /\
   (forall d, ~ 1 <= d <= 7 -> set_dow d h = (1, h)) /\
   (forall drv t, ~ 0 <= t <= 4 -> set_floppy drv t h = (1, h)) /\
   (forall drv t, ~ 0 <= t <= 15 -> set_harddisk drv t h = (1, h)) /\
   (forall kb, ~ 64 <= kb <= 640 -> set_basemem kb h = (1, h)) /\
   (forall a v, 64 <= a \/ 255 < v -> raw_write a v h = (1, h)) /\
   (forall a, 64 <= a -> raw_read a h = ((1, None), h)) /\
   (forall s e v, 64 <= s \/ 64 <= e \/ e < s \/ 255 < v ->
      fill_cmos s e v h = (1, h)) /\
   (forall content, length content <> 64%nat -> length content <> 128%nat ->
      load_cmos (Some content) h = (1, h)) /\
   load_cmos None h = (1, h) /\
   set_alarm None h = (1, h)) /\
  ((forall drv t, 0 <= t <= 4 ->
      is_char "A" drv || is_char "a" drv || is_char "0" drv = false ->
      is_char "B" drv || is_char "b" drv || is_char "1" drv = false ->
      set_floppy drv t h = (1, exec (cmos_read CMOS_FLOPPY) h)) /\
   (forall drv t, 0 <= t <= 15 ->
      is_char "0" drv || is_char "C" drv || is_char "c" drv = false ->
      is_char "1" drv || is_char "D" drv || is_char "d" drv = false ->
      set_harddisk drv t h = (1, exec (cmos_read CMOS_DISK) h)) /\
   (forall f v,
      ~ In f ["fpu"; "coprocessor"; "8087"; "video"; "floppy-count"]%string ->
      set_equipment f v h = (1, exec (cmos_read CMOS_EQUIP) h)) /\
   (forall v, ~ 0 <= v <= 3 ->
      set_equipment "video" v h = (1, exec (cmos_read CMOS_EQUIP) h)) /\
   (forall v, ~ 0 <= v <= 4 ->
      set_equipment "floppy-count" v h = (1, exec (cmos_read CMOS_EQUIP) h)) /\
   (forall m v,
      ~ In m ["24h"; "bcd"; "sqw"; "dse"; "pie"; "uie"; "rate"]%string ->
      set_rtc_mode m v h = (1, exec (cmos_read RTC_REG_B) h)) /\
   (forall v, ~ 0 <= v <= 15 ->
      set_rtc_mode "rate" v h = (1, exec (cmos_read RTC_REG_B) h))).
Proof.
  split.
  - split. { intros hrs min sec Hbad. unfold set_time.
             replace ((hrs <? 0) || (hrs >? 23) || (min <? 0) || (min >? 59) ||
                      (sec <? 0) || (sec >? 59)) with true
               by (symmetry; out_of_range). reflexivity. }
    split. { reflexivity. }
    split. { intros day mon year Hbad. unfold set_date.
             replace ((day <? 1) || (day >? 31) || (mon <? 1) || (mon >? 12) ||
                      (year <? 1980) || (year >? 2099)) with true
               by (symmetry; out_of_range). reflexivity. }
    split. { reflexivity. }
    split. { intros d Hbad. unfold set_dow.
             replace ((d <? 1) || (d >? 7)) with true
               by (symmetry; out_of_range). reflexivity. }
    split. { intros drv t Hbad. unfold set_floppy.
             replace ((t <? 0) || (t >? 4)) with true
               by (symmetry; out_of_range). reflexivity. }
    split. { intros drv t Hbad. unfold set_harddisk.
             replace ((t <? 0) || (t >? 15)) with true
               by (symmetry; out_of_range). reflexivity. }
    split. { intros kb Hbad. unfold set_basemem.
             replace ((kb <? 64) || (kb >? 640)) with true
               by (symmetry; out_of_range). reflexivity. }
    split. { intros a v Hbad. unfold raw_write, CMOS_SIZE.
             destruct (Z.leb_spec 64 a) as [Ha|Ha].
             - replace (a >=? 64) with true
                 by (symmetry; rewrite Z.geb_leb; apply Z.leb_le; lia).
               reflexivity.
             - replace (a >=? 64) with false
                 by (symmetry; rewrite Z.geb_leb; apply Z.leb_gt; lia).
               replace (v >? 255) with true
                 by (symmetry; rewrite Z.gtb_ltb; apply Z.ltb_lt; lia).
               reflexivity. }
    split. { intros a Ha. unfold raw_read, CMOS_SIZE.
             replace (a >=? 64) with true
               by (symmetry; rewrite Z.geb_leb; apply Z.leb_le; lia).
             reflexivity. }
    split. { intros s e v Hbad. unfold fill_cmos, CMOS_SIZE.
             destruct ((s >=? 64) || (e >=? 64) || (s >? e)) eqn:Hr;
               [reflexivity|].
             replace (v >? 255) with true; [reflexivity|].
             symmetry. rewrite Z.gtb_ltb. apply Z.ltb_lt.
             rewrite !orb_false_iff, !Z.geb_leb, Z.gtb_ltb in Hr.
             destruct Hr as [[H1 H2] H3].
             apply Z.leb_gt in H1, H2. apply Z.ltb_ge in H3. lia. }
    split. { intros content H64 H128.
             apply (load_cmos_file_sizes content h); assumption. }
    split; reflexivity.
  - split. { intros drv t Ht HA HB. unfold set_floppy.
             replace ((t <? 0) || (t >? 4)) with false
               by (symmetry; out_of_range).
             rewrite run_bind. cbv zeta. rewrite HA, HB. reflexivity. }
    split. { intros drv t Ht H0 H1. unfold set_harddisk.
             replace ((t <? 0) || (t >? 15)) with false
               by (symmetry; out_of_range).
             rewrite run_bind. cbv zeta. rewrite H0, H1. reflexivity. }
    split. { intros f v Hnot. unfold set_equipment. rewrite run_bind. cbv zeta.
             rewrite !(string_not_in f _ Hnot) by (cbn [In]; tauto).
             reflexivity. }
    split. { intros v Hbad. unfold set_equipment. rewrite run_bind. cbv zeta.
             str_eval. cbn [orb].
             replace ((v <? 0) || (v >? 3)) with true
               by (symmetry; out_of_range). reflexivity. }
    split. { intros v Hbad. unfold set_equipment. rewrite run_bind. cbv zeta.
             str_eval. cbn [orb].
             replace ((v <? 0) || (v >? 4)) with true
               by (symmetry; out_of_range). reflexivity. }
    split. { intros m v Hnot. unfold set_rtc_mode. rewrite run_bind.
             rewrite !(string_not_in m _ Hnot) by (cbn [In]; tauto).
             reflexivity. }
    intros v Hbad. unfold set_rtc_mode. rewrite run_bind. str_eval. cbv zeta.
    replace ((v <? 0) || (v >? 15)) with true by (symmetry; out_of_range).
    reflexivity.
Qed.

Lemma X28_witness :
  ~ (0 <= 24 <= 23 /\ 0 <= 0 <= 59 /\ 0 <= 0 <= 59) /\
  set_time (Some (24, 0, 0)) sample_hw = (1, sample_hw) /\
  ~ In "mouse"%string
       ["fpu"; "coprocessor"; "8087"; "video"; "floppy-count"]%string /\
  idx (exec (set_equipment "mouse" 1) sample_hw) = CMOS_EQUIP.
Proof.
  assert (~ (0 <= 24 <= 23 /\ 0 <= 0 <= 59 /\ 0 <= 0 <= 59)) as Hbad by lia.
  assert (~ In "mouse"%string
            ["fpu"; "coprocessor"; "8087"; "video"; "floppy-count"]%string)
    as Hnot.
  { cbn [In]. intros [H|[H|[H|[H|[H|[]]]]]]; discriminate H. }
  destruct (X28_where_rejected_calls_stop sample_hw) as [Hearly Hlate].
  split; [exact Hbad|]. split.
  - destruct Hearly as (Htime & _). apply Htime. exact Hbad.
  - split; [exact Hnot|].
    destruct Hlate as (_ & _ & Hequip & _).
    unfold exec at 1. rewrite (Hequip "mouse"%string 1 Hnot). reflexivity.
Defined.

(** ** Name tables and the update wait *)

Lemma dec_range r v : 0 <= dec r v <= 255.
Proof.
  assert (is_byte (dec r v)) as H.
  { unfold dec. destruct (_ =? _); [unfold bcd_to_bin|]; apply u8_is_byte. }
  unfold is_byte in H. lia.
Qed.

Lemma index_in_table {A} (table : list A) i :
  0 <= i < Z.of_nat (length table) -> is_Some (index table i).
Proof.
  intros Hi. unfold index.
  replace (i <? 0) with false by (symmetry; apply Z.ltb_ge; lia).
  apply lookup_lt_is_Some_2. lia.
Qed.

(** X29.  The name tables are never indexed out of bounds, whatever bytes
    the clock holds: the day and month numbers [show_time] prints are
    within [day_names] and [month_names] (a day above 7 or a month above 12
    is shown as entry 0), and the divider and rate fields
    [show_rtc_status] takes from Register A are within [divider_name] and
    [rate_freq]. *)
Theorem X29_name_tables_stay_in_bounds h :
  is_Some (index day_names (t_dow (result show_time h))) /\
  is_Some (index month_names (t_mon (result show_time h))) /\
  is_Some (rs_divider_name (result show_rtc_status h)) /\
  is_Some (rs_rate_name (result show_rtc_status h)).
Proof.
  rewrite show_time_result, show_rtc_status_result.
  cbn [t_dow t_mon rs_divider_name rs_rate_name].
  rewrite !result_rtc_to_bin_dec.
  split; [|split; [|split]].
  - apply index_in_table. unfold clamp.
    pose proof (dec_range (cell h RTC_REG_B) (cell h RTC_DAY_OF_WEEK)).
    destruct (Z.gtb_spec (dec (cell h RTC_REG_B) (cell h RTC_DAY_OF_WEEK)) 7);
      cbn [day_names length]; lia.
  - apply index_in_table. unfold clamp.
    pose proof (dec_range (cell h RTC_REG_B) (cell h RTC_MONTH)).
    destruct (Z.gtb_spec (dec (cell h RTC_REG_B) (cell h RTC_MONTH)) 12);
      cbn [month_names length]; lia.
  - apply index_in_table. unfold RTC_A_DV_MASK, RTC_A_DV_SHIFT.
    assert (Z.shiftr (Z.land (cell h RTC_REG_A) 0x70) 4 =
            Z.land (Z.shiftr (cell h RTC_REG_A) 4) 0x07) as ->
      by (rewrite Z.shiftr_land; reflexivity).
    change (Z.land (Z.shiftr (cell h RTC_REG_A) 4) 0x07)
      with (Z.land (Z.shiftr (cell h RTC_REG_A) 4) (Z.ones 3)).
    rewrite Z.land_ones by lia. change (2 ^ 3) with 8.
    pose proof (Z.mod_pos_bound (Z.shiftr (cell h RTC_REG_A) 4) 8 ltac:(lia)).
    cbn [divider_name length]. lia.
  - apply index_in_table. unfold RTC_A_RS_MASK.
    change (Z.land (cell h RTC_REG_A) 0x0F)
      with (Z.land (cell h RTC_REG_A) (Z.ones 4)).
    rewrite Z.land_ones by lia. change (2 ^ 4) with 16.
    pose proof (Z.mod_pos_bound (cell h RTC_REG_A) 16 ltac:(lia)).
    cbn [rate_freq length]. lia.
Qed.

(** X30.  [rtc_wait_uip] cannot hang: it polls Register A once when no
    update is in progress and gives up after 10000 polls when the flag
    stays set; it reads no other cell and writes nothing. *)
Theorem X30_rtc_wait_uip_is_bounded h :
  no_write h (exec rtc_wait_uip h) /\
  reads_of RTC_REG_A (trace (exec rtc_wait_uip h)) =
    Nat.add (if Z.land (cell h RTC_REG_A) RTC_A_UIP =? 0 then 1%nat
             else Z.to_nat 10000)
            (reads_of RTC_REG_A (trace h)) /\
  (forall c, c <> RTC_REG_A ->
     reads_of c (trace (exec rtc_wait_uip h)) = reads_of c (trace h)).
Proof.
  rewrite exec_rtc_wait_uip. cbn [trace nvr]. split; [|split].
  - split; [reflexivity|]. intros c. cbn [trace].
    rewrite writes_of_app, writes_of_replicate_rd. reflexivity.
  - rewrite reads_of_app. f_equal. unfold uip_reads.
    assert (forall k, reads_of RTC_REG_A (replicate k (Rd RTC_REG_A)) = k) as Hk.
    { induction k as [|k IH]; [reflexivity|].
      cbn [replicate reads_of]. rewrite Z.eqb_refl, IH. reflexivity. }
    rewrite Hk. destruct (_ =? _); [reflexivity|]. lia.
  - intros c Hc. rewrite reads_of_app, reads_of_replicate_ne by congruence.
    reflexivity.
Qed.

(** ** The BCD helpers on all bytes *)

(** X6.  Where the BCD helpers stop being inverse to each other, over all
    byte values: decoding the encoding of [b] gives [b] back exactly when
    [b] is below 160, and encoding the decoding of [x] gives [x] back
    exactly when the low nibble of [x] is a decimal digit. *)
Theorem X6_bcd_helpers_on_all_bytes x :
  is_byte x ->
  (bcd_to_bin (bin_to_bcd x) = x <-> x < 160) /\
  (bin_to_bcd (bcd_to_bin x) = x <-> Z.land x 0x0F <= 9).
Proof.
  intros Hx.
  assert (Bool.eqb (bcd_to_bin (bin_to_bcd x) =? x) (x <? 160) &&
          Bool.eqb (bin_to_bcd (bcd_to_bin x) =? x) (Z.land x 0x0F <=? 9)
          = true) as H.
  { revert x Hx.
    apply (byte_check
      (fun x =>
         Bool.eqb (bcd_to_bin (bin_to_bcd x) =? x) (x <? 160) &&
         Bool.eqb (bin_to_bcd (bcd_to_bin x) =? x) (Z.land x 0x0F <=? 9))).
    vm_compute. reflexivity. }
  apply andb_true_iff in H. destruct H as [H1 H2].
  apply Bool.eqb_prop in H1, H2. split.
  - rewrite <- Z.eqb_eq, <- Z.ltb_lt, H1. reflexivity.
  - rewrite <- Z.eqb_eq, <- Z.leb_le, H2. reflexivity.
Qed.

Lemma X6_witness :
  is_byte 160 /\ bcd_to_bin (bin_to_bcd 160) <> 160 /\
  bcd_to_bin (bin_to_bcd 159) = 159.
Proof.
  assert (is_byte 160) as H160 by (unfold is_byte; lia).
  assert (is_byte 159) as H159 by (unfold is_byte; lia).
  split; [exact H160|]. split.
  - intros Heq. apply (X6_bcd_helpers_on_all_bytes 160 H160) in Heq. lia.
  - apply (X6_bcd_helpers_on_all_bytes 159 H159). lia.
Defined.

(** ** Port B: status 1 and the speaker *)

Lemma lor_speaker_bits p :
  is_byte p ->
  Z.land (u8 (Z.lor (Z.lor p PB_SPEAKER_GATE) PB_SPEAKER_ENABLE)) 0x03 = 0x03 /\
  Z.land (u8 (Z.lor (Z.lor p PB_SPEAKER_GATE) PB_SPEAKER_ENABLE)) 0xFC =
    Z.land p 0xFC /\
  u8 (Z.land (u8 (Z.lor (Z.lor p PB_SPEAKER_GATE) PB_SPEAKER_ENABLE))
             (Z.lnot (Z.lor PB_SPEAKER_GATE PB_SPEAKER_ENABLE))) =
    Z.land p 0xFC /\
  u8 (Z.land p (Z.lnot (Z.lor PB_SPEAKER_GATE PB_SPEAKER_ENABLE))) =
    Z.land p 0xFC.
Proof.
  intros Hp.
  assert (
    (Z.land (u8 (Z.lor (Z.lor p PB_SPEAKER_GATE) PB_SPEAKER_ENABLE)) 0x03 =? 0x03) &&
    (Z.land (u8 (Z.lor (Z.lor p PB_SPEAKER_GATE) PB_SPEAKER_ENABLE)) 0xFC =?
       Z.land p 0xFC) &&
    (u8 (Z.land (u8 (Z.lor (Z.lor p PB_SPEAKER_GATE) PB_SPEAKER_ENABLE))
                (Z.lnot (Z.lor PB_SPEAKER_GATE PB_SPEAKER_ENABLE))) =?
       Z.land p 0xFC) &&
    (u8 (Z.land p (Z.lnot (Z.lor PB_SPEAKER_GATE PB_SPEAKER_ENABLE))) =?
       Z.land p 0xFC) = true) as H.
  { revert p Hp.
    apply (byte_check (fun p =>
      (Z.land (u8 (Z.lor (Z.lor p PB_SPEAKER_GATE) PB_SPEAKER_ENABLE)) 0x03 =? 0x03) &&
      (Z.land (u8 (Z.lor (Z.lor p PB_SPEAKER_GATE) PB_SPEAKER_ENABLE)) 0xFC =?
         Z.land p 0xFC) &&
      (u8 (Z.land (u8 (Z.lor (Z.lor p PB_SPEAKER_GATE) PB_SPEAKER_ENABLE))
                  (Z.lnot (Z.lor PB_SPEAKER_GATE PB_SPEAKER_ENABLE))) =?
         Z.land p 0xFC) &&
      (u8 (Z.land p (Z.lnot (Z.lor PB_SPEAKER_GATE PB_SPEAKER_ENABLE))) =?
         Z.land p 0xFC))).
    vm_compute. reflexivity. }
  rewrite !andb_true_iff, !Z.eqb_eq in H. tauto.
Qed.

(** X24.  The users of port B besides the status-2 read.  Reading system
    status 1 puts port B back as it found it and leaves the device exactly
    as it was.  [speaker_on] sets the two speaker bits and keeps the other
    six; [speaker_off] clears the two and keeps the other six, so a beep
    ends with the speaker bits off whether or not they were on before.
    None of the three touches the CMOS store or its address register. *)
Theorem X24_port_b_users h :
  wf h ->
  exec amstrad_read_sysstat1 h = h /\
  (forall freq,
     Z.land (pb (exec (speaker_on freq) h)) 0x03 = 0x03 /\
     Z.land (pb (exec (speaker_on freq) h)) 0xFC = Z.land (pb h) 0xFC /\
     pb (exec speaker_off (exec (speaker_on freq) h)) = Z.land (pb h) 0xFC /\
     exec speaker_off (exec (speaker_on freq) h) = exec speaker_off h) /\
  (forall freq h', h' = exec (speaker_on freq) h \/ h' = exec speaker_off h ->
     nvr h' = nvr h /\ idx h' = idx h /\ trace h' = trace h).
Proof.
  intros (_ & _ & Hp & _). destruct h as [s i p ss sh t]. cbn [pb] in Hp.
  destruct (lor_speaker_bits p Hp) as (H1 & H2 & H3 & H4).
  assert (forall freq,
            exec (speaker_on freq) (Hw s i p ss sh t) =
            Hw s i (u8 (Z.lor (Z.lor p PB_SPEAKER_GATE) PB_SPEAKER_ENABLE))
               ss sh t) as Hon by (intros freq; reflexivity).
  assert (forall q, exec speaker_off (Hw s i q ss sh t) =
            Hw s i (u8 (Z.land q (Z.lnot (Z.lor PB_SPEAKER_GATE
                                                PB_SPEAKER_ENABLE))))
               ss sh t) as Hoff by (intros q; reflexivity).
  split; [|split].
  - unfold amstrad_read_sysstat1.
    change (exec _ (Hw s i p ss sh t)) with (Hw s i (u8 p) ss sh t).
    rewrite (u8_byte p Hp). reflexivity.
  - intros freq. rewrite Hon, !Hoff. cbn [pb]. rewrite H3, H4.
    split; [exact H1|]. split; [exact H2|]. split; reflexivity.
  - intros freq h' [-> | ->]; [rewrite Hon | rewrite Hoff];
      split; [reflexivity | split; reflexivity | reflexivity
              | split; reflexivity].
Qed.

Lemma X24_witness :
  wf sample_hw /\
  pb sample_hw = 0x4C /\
  pb (exec (speaker_on 440) sample_hw) = 0x4F /\
  pb (exec speaker_off (exec (speaker_on 440) sample_hw)) = Z.land 0x4C 0xFC.
Proof.
  assert (wf sample_hw) as Hwf by solve_wf.
  split; [exact Hwf|]. split; [reflexivity|]. split; [reflexivity|].
  destruct (X24_port_b_users sample_hw Hwf) as (_ & Hspk & _).
  destruct (Hspk 440) as (_ & _ & Hoff & _). exact Hoff.
Defined.
